(** * Fellow Stagg EKG Pro: the 17-byte configuration blob and its setters

    A shallow embedding of [src/utils/kettle_ble.py] (class
    [StaggEKGPro_Config]).  The blob is a Python [bytearray], modelled as a
    list of integers with the range check of item assignment written out;
    the coroutine methods are state-and-exception passing functions over
    the controller object, whose BLE client carries the transport: what
    the next reads return, which writes fail, the payloads written so far
    and what notifications arrive while the coroutine is paused. *)

From Stdlib Require Import ZArith QArith Qround String Lia Bool.
From Stdlib Require Import DecimalString Ascii.
From stdpp Require Import base list.
Import ListNotations.

Local Open Scope Z_scope.

(** ** Python values *)

Inductive exn : Type :=
| RuntimeError
| ValueError
| IndexError
| TypeError
| BleakError.

Abbreviation bytearray := (list Z).

(** [d[i]] for a literal, non-negative index. *)
Definition getitem (d : bytearray) (i : nat) : exn + Z :=
  match d !! i with
  | Some v => inr v
  | None => inl IndexError
  end.

(** [d[i] = v]: a byte must be in [range(0, 256)], the index in range. *)
Definition setitem (d : bytearray) (i : nat) (v : Z) : exn + bytearray :=
  if (0 <=? v) && (v <? 256) then
    if (i <? length d)%nat then inr (<[i:=v]> d) else inl IndexError
  else inl ValueError.

(** Truth value of an optional bytearray: [None] and [bytearray()] are false. *)
Definition truthy (o : option bytearray) : bool :=
  match o with
  | Some (_ :: _) => true
  | _ => false
  end.

(** Temperatures are Python numbers; every finite [int] or [float] is a
    rational, and the operations applied to them here (comparison with 0 and
    100, doubling, halving a byte, truncation) are exact on floats. *)
Definition py_min (a b : Q) : Q := if Qle_bool a b then a else b.
Definition py_max (a b : Q) : Q := if Qle_bool b a then a else b.

(** [int(x)]: truncation towards zero. *)
Definition py_int (x : Q) : Z := Z.quot (Qnum x) (Z.pos (Qden x)).

(** [round(x)]: to the nearest integer, ties to the even one. *)
Definition py_round (x : Q) : Z :=
  let f := Qfloor x in
  match Qcompare (x - inject_Z f) (1 # 2) with
  | Lt => f
  | Gt => f + 1
  | Eq => if Z.even f then f else f + 1
  end.

(** [b / 2.0] for a byte [b]. *)
Definition halve (b : Z) : Q := inject_Z b / 2.

(** ** Enumerations *)

(** [ClockMode]; its [OFF] is [CLOCK_OFF] here, apart from
    [ScheduleMode.OFF]. *)
Inductive ClockMode := CLOCK_OFF | DIGITAL | ANALOG.

Definition ClockMode_value (m : ClockMode) : Z :=
  match m with CLOCK_OFF => 0 | DIGITAL => 1 | ANALOG => 2 end.

Inductive Units := CELSIUS | FAHRENHEIT.

Inductive ScheduleMode := OFF | ONCE | DAILY.

(** [mode.name.lower()] *)
Definition ScheduleMode_name_lower (m : ScheduleMode) : string :=
  match m with OFF => "off" | ONCE => "once" | DAILY => "daily" end.

Inductive Language :=
| ENGLISH | FRENCH | SPANISH | SIMPLIFIED_CHINESE | TRADITIONAL_CHINESE.

Definition Language_value (l : Language) : Z :=
  match l with
  | ENGLISH => 0 | FRENCH => 1 | SPANISH => 2
  | SIMPLIFIED_CHINESE => 3 | TRADITIONAL_CHINESE => 4
  end.

(** ** The controller object and its transport *)

Record BleakClient : Type := mkClient {
  is_connected : bool;
  (** results of the coming [read_gatt_char] calls; [None], or an exhausted
      list, is a read that raises *)
  gatt_reads : list (option bytearray);
  (** outcome of the coming [write_gatt_char] calls: [true] raises;
      an exhausted list means the write goes through *)
  gatt_faults : list bool;
  (** payloads of the writes that went through, oldest first *)
  gatt_written : list bytearray;
  (** what the kettle notifies while the coroutine sleeps, one entry per
      [asyncio.sleep]; an exhausted list means nothing arrives *)
  gatt_notified : list (option bytearray)
}.

Record StaggEKGPro_Config : Type := mkConfig {
  client : option BleakClient;
  _state_data : option bytearray;
  _counter : Z
}.

Definition with_client (c : BleakClient) (k : StaggEKGPro_Config) :=
  {| client := Some c; _state_data := _state_data k; _counter := _counter k |}.

Definition with_state (d : bytearray) (k : StaggEKGPro_Config) :=
  {| client := client k; _state_data := Some d; _counter := _counter k |}.

Definition with_counter (n : Z) (k : StaggEKGPro_Config) :=
  {| client := client k; _state_data := _state_data k; _counter := n |}.

(** The payloads physically written so far. *)
Definition written (k : StaggEKGPro_Config) : list bytearray :=
  match client k with
  | Some c => gatt_written c
  | None => []
  end.

(** ** Coroutines: state passing with exceptions *)

Definition coro (A : Type) : Type :=
  StaggEKGPro_Config -> (exn + A) * StaggEKGPro_Config.

Definition ret {A} (a : A) : coro A := fun k => (inr a, k).

Definition raise {A} (e : exn) : coro A := fun k => (inl e, k).

Definition bind {A B} (m : coro A) (f : A -> coro B) : coro B :=
  fun k =>
    match m k with
    | (inr a, k') => f a k'
    | (inl e, k') => (inl e, k')
    end.

(** An expression that may raise, evaluated inside a coroutine. *)
Definition eval {A} (r : exn + A) : coro A := fun k => (r, k).

Notation "'let*' x := c 'in' k" := (bind c (fun x => k))
  (at level 10, x name, c at level 100, k at level 200).

Notation "c ;;; k" := (bind c (fun _ => k))
  (at level 100, k at level 200, right associativity).

Definition this : coro StaggEKGPro_Config := fun k => (inr k, k).

Definition put (k' : StaggEKGPro_Config) : coro unit := fun _ => (inr tt, k').

(** [if not self.client or not self.client.is_connected: raise RuntimeError] *)
Definition require_connected : coro BleakClient :=
  fun k =>
    match client k with
    | Some c => if is_connected c then (inr c, k) else (inl RuntimeError, k)
    | None => (inl RuntimeError, k)
    end.

(** [await self.client.read_gatt_char(...)] *)
Definition read_gatt_char (c : BleakClient) : coro bytearray :=
  fun k =>
    match gatt_reads c with
    | Some d :: rest =>
        (inr d, with_client (mkClient (is_connected c) rest (gatt_faults c)
                               (gatt_written c) (gatt_notified c)) k)
    | None :: rest =>
        (inl BleakError, with_client (mkClient (is_connected c) rest (gatt_faults c)
                                        (gatt_written c) (gatt_notified c)) k)
    | [] => (inl BleakError, k)
    end.

(** [await self.client.write_gatt_char(..., bytes(new_data))] *)
Definition write_gatt_char (c : BleakClient) (payload : bytearray) : coro unit :=
  fun k =>
    match gatt_faults c with
    | true :: rest =>
        (inl BleakError, with_client (mkClient (is_connected c) (gatt_reads c) rest
                                        (gatt_written c) (gatt_notified c)) k)
    | false :: rest =>
        (inr tt, with_client (mkClient (is_connected c) (gatt_reads c) rest
                                (gatt_written c ++ [payload]) (gatt_notified c)) k)
    | [] =>
        (inr tt, with_client (mkClient (is_connected c) (gatt_reads c) []
                                (gatt_written c ++ [payload]) (gatt_notified c)) k)
    end.

(** [_handle_notification]: the cache is replaced first, then the counter is
    read off byte 16 (an [IndexError] there is raised into the transport's
    callback machinery, not into any coroutine).  The observer callback is
    informational and is left out. *)
Definition _handle_notification (data : bytearray) (k : StaggEKGPro_Config)
  : StaggEKGPro_Config :=
  let k1 := with_state data k in
  match getitem data 16 with
  | inr c => with_counter c k1
  | inl _ => k1
  end.

(** [await asyncio.sleep(...)]: the coroutine is suspended and a
    notification may be handled meanwhile. *)
Definition asyncio_sleep : coro unit :=
  fun k =>
    match client k with
    | Some c =>
        match gatt_notified c with
        | [] => (inr tt, k)
        | ev :: rest =>
            let k1 := with_client (mkClient (is_connected c) (gatt_reads c)
                                     (gatt_faults c) (gatt_written c) rest) k in
            match ev with
            | Some data => (inr tt, _handle_notification data k1)
            | None => (inr tt, k1)
            end
        end
    | None => (inr tt, k)
    end.

(** [refresh_state] *)
Definition refresh_state : coro unit :=
  let* c := require_connected in
  let* data := read_gatt_char c in
  let* k := this in
  put (with_state data k) ;;;
  let* n := eval (getitem data 16) in
  let* k := this in
  put (with_counter n k).

(** [_write_state] *)
Definition _write_state (new_data : bytearray) : coro unit :=
  let* c := require_connected in
  let* k := this in
  let* new_data := eval (setitem new_data 16 (Z.land (_counter k + 1) 0xFF)) in
  write_gatt_char c new_data ;;;
  let* k := this in
  put (with_state new_data k) ;;;
  let* n := eval (getitem new_data 16) in
  let* k := this in
  put (with_counter n k).

(** [if not self._state_data: await self.refresh_state()] *)
Definition ensure_state : coro unit :=
  let* k := this in
  if truthy (_state_data k) then ret tt else refresh_state.

(** [bytearray(self._state_data)] *)
Definition copy_state : coro bytearray :=
  let* k := this in
  match _state_data k with
  | Some d => ret d
  | None => raise TypeError
  end.

(** ** Setters *)

(** [set_target_temperature] *)
Definition set_target_temperature (temp_celsius : Q) : coro unit :=
  ensure_state ;;;
  let temp_celsius := py_max 0 (py_min 100 temp_celsius) in
  let* new_data := copy_state in
  let* new_data := eval (setitem new_data 4 (py_int (temp_celsius * 2))) in
  _write_state new_data.

(** [d[i] |= m] and [d[i] &= ~m] *)
Definition setbits (d : bytearray) (i : nat) (m : Z) : exn + bytearray :=
  match getitem d i with
  | inr v => setitem d i (Z.lor v m)
  | inl e => inl e
  end.

Definition clearbits (d : bytearray) (i : nat) (m : Z) : exn + bytearray :=
  match getitem d i with
  | inr v => setitem d i (Z.land v (Z.lnot m))
  | inl e => inl e
  end.

(** [set_units] *)
Definition set_units (units : Units) : coro unit :=
  ensure_state ;;;
  let* new_data := copy_state in
  let* new_data :=
    eval (match units with
          | CELSIUS => setbits new_data 1 0x02
          | FAHRENHEIT => clearbits new_data 1 0x02
          end) in
  _write_state new_data.

(** [set_clock_mode] *)
Definition set_clock_mode (mode : ClockMode) : coro unit :=
  ensure_state ;;;
  let* new_data := copy_state in
  let* new_data := eval (setitem new_data 12 (ClockMode_value mode)) in
  _write_state new_data.

(** [set_clock_time] *)
Definition set_clock_time (hours minutes : Z) (mode : option ClockMode) : coro unit :=
  ensure_state ;;;
  if negb ((0 <=? hours) && (hours <=? 23)) then raise ValueError
  else if negb ((0 <=? minutes) && (minutes <=? 59)) then raise ValueError
  else
    let* new_data := copy_state in
    let* new_data := eval (setitem new_data 10 minutes) in
    let* new_data := eval (setitem new_data 11 hours) in
    let* new_data :=
      match mode with
      | Some m => eval (setitem new_data 12 (ClockMode_value m))
      | None => ret new_data
      end in
    _write_state new_data.

(** [set_chime_volume] *)
Definition set_chime_volume (volume : Z) : coro unit :=
  ensure_state ;;;
  let volume := Z.max 0 (Z.min 10 volume) in
  let* new_data := copy_state in
  let* new_data := eval (setitem new_data 14 volume) in
  _write_state new_data.

(** [set_pre_boil] *)
Definition set_pre_boil (enabled : bool) : coro unit :=
  ensure_state ;;;
  let* new_data := copy_state in
  let* new_data :=
    eval (if enabled then setbits new_data 1 0x08 else clearbits new_data 1 0x08) in
  _write_state new_data.

(** [set_hold_time] *)
Definition set_hold_time (minutes : Z) : coro unit :=
  ensure_state ;;;
  let minutes := Z.max 0 (Z.min 60 minutes) in
  let* new_data := copy_state in
  let* new_data := eval (setitem new_data 13 minutes) in
  _write_state new_data.

(** [round(altitude / 30) * 30]: the quotient is a float, and for the
    integers met here (below 2^15) it rounds as the exact rational does. *)
Definition quantize (altitude : Z) : Z := py_round (inject_Z altitude / 30) * 30.

(** [set_altitude] *)
Definition set_altitude (altitude_meters : Z) : coro unit :=
  ensure_state ;;;
  let altitude_meters := Z.max 0 (Z.min 3000 altitude_meters) in
  let quantized := quantize altitude_meters in
  let byte2 := Z.land quantized 0xFF in
  let byte3 := 0x80 + Z.land (Z.shiftr quantized 8) 0x7F in
  let* new_data := copy_state in
  let* new_data := eval (setitem new_data 2 byte2) in
  let* new_data := eval (setitem new_data 3 byte3) in
  _write_state new_data.

(** [get_altitude] *)
Definition get_altitude (k : StaggEKGPro_Config) : option Z :=
  match _state_data k with
  | Some d =>
      if negb (truthy (Some d)) || (length d <? 4)%nat then None
      else
        match d !! 2%nat, d !! 3%nat with
        | Some byte2, Some byte3 =>
            let altitude := Z.lor (Z.shiftl (Z.land byte3 0x7F) 8) byte2 in
            Some (quantize altitude)
        | _, _ => None
        end
  | None => None
  end.

(** [set_language]; the [isinstance] check is the argument's type. *)
Definition set_language (language : Language) : coro unit :=
  ensure_state ;;;
  let* new_data := copy_state in
  let* new_data := eval (setitem new_data 15 (Language_value language)) in
  _write_state new_data.

(** ** Schedule *)

(** [get_schedule_mode] *)
Definition get_schedule_mode (k : StaggEKGPro_Config) : option string :=
  match _state_data k with
  | Some d =>
      if negb (truthy (Some d)) || (length d <? 17)%nat then None
      else
        match d !! 0%nat, d !! 16%nat with
        | Some b0, Some b16 =>
            if Z.land b0 0x08 =? 0 then Some "off"%string
            else
              let mode_bit := Z.land (Z.shiftr b16 3) 1 in
              if mode_bit =? 1 then Some "once"%string else Some "daily"%string
        | _, _ => None
        end
  | None => None
  end.

(** The dictionary returned by [get_schedule]; a missing key and a [None]
    value both read as [None] ([schedule_time] is only ever logged). *)
Record schedule : Type := mkSchedule {
  schedule_mode : option string;
  schedule_enabled : option bool;
  schedule_temperature : option Q;
  schedule_hour : option Z;
  schedule_minute : option Z
}.

(** [get_schedule] *)
Definition get_schedule (k : StaggEKGPro_Config) : schedule :=
  let empty := mkSchedule None None None None None in
  match _state_data k with
  | Some data =>
      if negb (truthy (Some data)) || (length data <? 17)%nat then empty
      else
        match data !! 0%nat, data !! 16%nat, data !! 6%nat,
              data !! 8%nat, data !! 9%nat with
        | Some b0, Some b16, Some b6, Some b8, Some b9 =>
            if Z.land b0 0x08 =? 0 then
              mkSchedule (Some "off"%string) (Some false) None None None
            else
              let mode_bit := Z.land (Z.shiftr b16 3) 1 in
              let mode := if mode_bit =? 1 then "once"%string else "daily"%string in
              mkSchedule (Some mode) (Some true) (Some (halve b6)) (Some b9) (Some b8)
        | _, _, _, _, _ => empty
        end
  | None => empty
  end.

(** The full OFF encoding, shared by both places that disable the schedule. *)
Definition disable_bytes (d : bytearray) : exn + bytearray :=
  match clearbits d 0 0x08 with
  | inr d =>
      match setitem d 6 0xc0 with
      | inr d =>
          match setitem d 8 0x00 with
          | inr d => setitem d 9 0x00
          | inl e => inl e
          end
      | inl e => inl e
      end
  | inl e => inl e
  end.

(** [current_mode in ["once", "daily"] and current_mode != mode.name.lower()] *)
Definition needs_disable (current_mode : option string) (mode : ScheduleMode) : bool :=
  match current_mode with
  | Some s =>
      (String.eqb s "once" || String.eqb s "daily")
      && negb (String.eqb s (ScheduleMode_name_lower mode))
  | None => false
  end.

(** Step 1 of [set_schedule]: disable the schedule first, then pause
    briefly for the kettle to process. *)
Definition disable_first : coro unit :=
  let* temp_data := copy_state in
  let* temp_data := eval (disable_bytes temp_data) in
  let* b16 := eval (getitem temp_data 16) in
  let* temp_data := eval (setitem temp_data 16 (Z.land (b16 + 1) 0xFF)) in
  _write_state temp_data ;;;
  asyncio_sleep.

(** Step 2 of [set_schedule]: enable the schedule with the new parameters;
    [temp_celsius] is already clamped. *)
Definition enable_with (mode : ScheduleMode) (hour minute : Z) (temp_celsius : Q)
  : coro unit :=
  let* new_data := copy_state in
  let* new_data := eval (setbits new_data 0 0x08) in
  let* new_data := eval (setitem new_data 6 (py_int (temp_celsius * 2))) in
  let* new_data := eval (setitem new_data 8 minute) in
  let* new_data := eval (setitem new_data 9 hour) in
  let* b16 := eval (getitem new_data 16) in
  let* new_data :=
    eval (match mode with
          | ONCE => setitem new_data 16 (Z.lor b16 0x08 + 1)
          | _ => setitem new_data 16 (Z.land b16 (Z.lnot 0x08) + 1)
          end) in
  _write_state new_data.

(** [set_schedule] *)
Definition set_schedule (mode : ScheduleMode) (hour minute : Z) (temp_celsius : Q)
  : coro unit :=
  ensure_state ;;;
  match mode with
  | OFF =>
      let* new_data := copy_state in
      let* new_data := eval (disable_bytes new_data) in
      _write_state new_data
  | _ =>
      if negb ((0 <=? hour) && (hour <=? 23)) then raise ValueError
      else if negb ((0 <=? minute) && (minute <=? 59)) then raise ValueError
      else
        let temp_celsius := py_max 0 (py_min 100 temp_celsius) in
        let* k := this in
        let current_mode := get_schedule_mode k in
        (if needs_disable current_mode mode then disable_first else ret tt) ;;;
        enable_with mode hour minute temp_celsius
  end.

(** Truth value of the optional temperature argument: [None] and zero are
    false. *)
Definition temp_given (t : option Q) : option Q :=
  match t with
  | Some q => if Qeq_bool q 0 then None else Some q
  | None => None
  end.

(** Step 2 of [turn_on_smart]: now plus one minute, from the clock bytes. *)
Definition trigger_time (current_h current_m : Z) : Z * Z :=
  let trigger_m := current_m + 1 in
  let trigger_h := current_h in
  let '(trigger_m, trigger_h) :=
    if 60 <=? trigger_m then (0, trigger_h + 1) else (trigger_m, trigger_h) in
  let trigger_h := if 24 <=? trigger_h then 0 else trigger_h in
  (trigger_h, trigger_m).

(** Step 4 of [turn_on_smart]: put the schedule back as it was found. *)
Definition restore_schedule (backup_sched : schedule) : coro unit :=
  match schedule_enabled backup_sched with
  | Some true =>
      let mode_str :=
        match schedule_mode backup_sched with Some s => s | None => "off"%string end in
      let restore_mode := if String.eqb mode_str "daily" then DAILY else ONCE in
      match schedule_hour backup_sched, schedule_minute backup_sched,
            schedule_temperature backup_sched with
      | Some h, Some m, Some t => set_schedule restore_mode h m t
      | _, _, _ => raise TypeError
      end
  | _ => set_schedule OFF 0 0 85
  end.

(** [turn_on_smart] *)
Definition turn_on_smart (temp_celsius : option Q) : coro unit :=
  ensure_state ;;;
  let* k := this in
  let backup_sched := get_schedule k in
  let* d := copy_state in
  let* current_h := eval (getitem d 11) in
  let* current_m := eval (getitem d 10) in
  let '(trigger_h, trigger_m) := trigger_time current_h current_m in
  let* target_temp :=
    match temp_given temp_celsius with
    | Some t => ret t
    | None => let* b4 := eval (getitem d 4) in ret (halve b4)
    end in
  set_schedule ONCE trigger_h trigger_m target_temp ;;;
  asyncio_sleep ;;;
  restore_schedule backup_sched.

(** ** Getters *)

(** The byte at index [i] where the length has been checked (zero past the
    end). *)
Definition at_ (d : bytearray) (i : nat) : Z := default 0 (d !! i).

(** [if not self._state_data: return None] followed by [f(self._state_data[i])] *)
Definition peek {A} (i : nat) (f : Z -> A) (k : StaggEKGPro_Config) : exn + option A :=
  if truthy (_state_data k) then
    match _state_data k with
    | Some d =>
        match getitem d i with
        | inr v => inr (Some (f v))
        | inl e => inl e
        end
    | None => inr None
    end
  else inr None.

(** [if not self._state_data or len(self._state_data) < n: return None] *)
Definition peek_long (n : nat) (k : StaggEKGPro_Config) : option bytearray :=
  match _state_data k with
  | Some d => if negb (truthy (Some d)) || (length d <? n)%nat then None else Some d
  | None => None
  end.

(** [get_target_temperature] *)
Definition get_target_temperature : StaggEKGPro_Config -> exn + option Q :=
  peek 4 halve.

(** [get_units] *)
Definition get_units : StaggEKGPro_Config -> exn + option string :=
  peek 1 (fun v => if Z.land v 0x02 =? 0 then "fahrenheit"%string else "celsius"%string).

(** [get_clock_time] *)
Definition get_clock_time (k : StaggEKGPro_Config) : option (Z * Z) :=
  match peek_long 12 k with
  | Some d => Some (at_ d 11, at_ d 10)
  | None => None
  end.

(** [get_clock_mode] *)
Definition get_clock_mode (k : StaggEKGPro_Config) : option string :=
  match peek_long 13 k with
  | Some d =>
      let mode_val := at_ d 12 in
      if mode_val =? 0 then Some "off"%string
      else if mode_val =? 1 then Some "digital"%string
      else if mode_val =? 2 then Some "analog"%string
      else Some "unknown"%string
  | None => None
  end.

(** [get_chime_volume] *)
Definition get_chime_volume : StaggEKGPro_Config -> exn + option Z :=
  peek 14 (fun v => v).

(** [get_pre_boil] *)
Definition get_pre_boil : StaggEKGPro_Config -> exn + option bool :=
  peek 1 (fun v => negb (Z.land v 0x08 =? 0)).

(** [get_hold_time] *)
Definition get_hold_time : StaggEKGPro_Config -> exn + option Z :=
  peek 13 (fun v => v).

(** [Language(byte15)], [None] where the constructor raises. *)
Definition Language_of (v : Z) : option Language :=
  if v =? 0 then Some ENGLISH
  else if v =? 1 then Some FRENCH
  else if v =? 2 then Some SPANISH
  else if v =? 3 then Some SIMPLIFIED_CHINESE
  else if v =? 4 then Some TRADITIONAL_CHINESE
  else None.

(** [get_language] *)
Definition get_language (k : StaggEKGPro_Config) : option Language :=
  match peek_long 16 k with
  | Some d => Language_of (at_ d 15)
  | None => None
  end.

Definition Units_name_lower (u : Units) : string :=
  match u with CELSIUS => "celsius" | FAHRENHEIT => "fahrenheit" end.

Definition ClockMode_name_lower (m : ClockMode) : string :=
  match m with CLOCK_OFF => "off" | DIGITAL => "digital" | ANALOG => "analog" end.

(** ** The write-through entry point

    The integration passes a bound setter and its arguments to the
    coordinator ([async_write_kettle(write_func, *args)]); a call is one such
    pair. *)

Inductive call : Type :=
| SetTargetTemperature (temp_celsius : Q)
| SetUnits (units : Units)
| SetClockMode (mode : ClockMode)
| SetClockTime (hours minutes : Z) (mode : option ClockMode)
| SetChimeVolume (volume : Z)
| SetPreBoil (enabled : bool)
| SetHoldTime (minutes : Z)
| SetAltitude (altitude_meters : Z)
| SetLanguage (language : Language)
| SetSchedule (mode : ScheduleMode) (hour minute : Z) (temp_celsius : Q).

Definition run (c : call) : coro unit :=
  match c with
  | SetTargetTemperature t => set_target_temperature t
  | SetUnits u => set_units u
  | SetClockMode m => set_clock_mode m
  | SetClockTime h m mode => set_clock_time h m mode
  | SetChimeVolume v => set_chime_volume v
  | SetPreBoil e => set_pre_boil e
  | SetHoldTime m => set_hold_time m
  | SetAltitude a => set_altitude a
  | SetLanguage l => set_language l
  | SetSchedule mode h m t => set_schedule mode h m t
  end.

(** ** Vocabulary of the statements *)

Definition byte (v : Z) : Prop := 0 <= v < 256.

(** A well-formed raw blob: seventeen bytes. *)
Definition is_blob (b : bytearray) : Prop :=
  length b = 17%nat /\ Forall byte b.

(** The link is up and the next write goes through. *)
Definition next_write_ok (k : StaggEKGPro_Config) : Prop :=
  match client k with
  | Some c => is_connected c = true /\ hd false (gatt_faults c) = false
  | None => False
  end.

(** The link is up, no write is going to fail and no notification is
    pending. *)
Definition calm (k : StaggEKGPro_Config) : Prop :=
  match client k with
  | Some c => is_connected c = true /\ gatt_faults c = [] /\ gatt_notified c = []
  | None => False
  end.

(** No notification is pending. *)
Definition quiet (k : StaggEKGPro_Config) : Prop :=
  match client k with
  | Some c => gatt_notified c = []
  | None => True
  end.

(** The payloads written by a coroutine started in [k]. *)
Definition writes_of {A} (m : coro A) (k : StaggEKGPro_Config) : list bytearray :=
  drop (length (written k)) (written (snd (m k))).

(** The controller after a write of [d] went through. *)
Definition committed (d : bytearray) (k : StaggEKGPro_Config) : StaggEKGPro_Config :=
  let n := Z.land (_counter k + 1) 0xFF in
  let w := <[16%nat:=n]> d in
  {| client :=
       match client k with
       | Some c => Some (mkClient (is_connected c) (gatt_reads c) (tl (gatt_faults c))
                           (gatt_written c ++ [w]) (gatt_notified c))
       | None => None
       end;
     _state_data := Some w;
     _counter := n |}.


(** [max(0, min(100, temp_celsius))] *)
Definition clamp_temp (t : Q) : Q := py_max 0 (py_min 100 t).

(** The bytes a setter has put in its copy of the cached blob [b] when it
    hands the copy to [_write_state] (for [set_schedule] with ONCE or DAILY:
    the copy of the enable step, byte 16 apart).  The equations
    [run_simple] and [enable_with_eq] below show that the setters compute
    it. *)
Definition disabled (b : bytearray) : bytearray :=
  <[9%nat:=0]> (<[8%nat:=0]> (<[6%nat:=0xc0]>
    (<[0%nat:=Z.land (at_ b 0) (Z.lnot 0x08)]> b))).

Definition enabled (hour minute : Z) (temp_celsius : Q) (b : bytearray) : bytearray :=
  <[9%nat:=hour]> (<[8%nat:=minute]>
    (<[6%nat:=py_int (clamp_temp temp_celsius * 2)]>
      (<[0%nat:=Z.lor (at_ b 0) 0x08]> b))).

Definition edit (c : call) (b : bytearray) : bytearray :=
  match c with
  | SetTargetTemperature t => <[4%nat:=py_int (clamp_temp t * 2)]> b
  | SetUnits CELSIUS => <[1%nat:=Z.lor (at_ b 1) 0x02]> b
  | SetUnits FAHRENHEIT => <[1%nat:=Z.land (at_ b 1) (Z.lnot 0x02)]> b
  | SetClockMode m => <[12%nat:=ClockMode_value m]> b
  | SetClockTime h m mode =>
      let d := <[11%nat:=h]> (<[10%nat:=m]> b) in
      match mode with
      | Some mode => <[12%nat:=ClockMode_value mode]> d
      | None => d
      end
  | SetChimeVolume v => <[14%nat:=Z.max 0 (Z.min 10 v)]> b
  | SetPreBoil true => <[1%nat:=Z.lor (at_ b 1) 0x08]> b
  | SetPreBoil false => <[1%nat:=Z.land (at_ b 1) (Z.lnot 0x08)]> b
  | SetHoldTime m => <[13%nat:=Z.max 0 (Z.min 60 m)]> b
  | SetAltitude a =>
      let q := quantize (Z.max 0 (Z.min 3000 a)) in
      <[3%nat:=0x80 + Z.land (Z.shiftr q 8) 0x7F]> (<[2%nat:=Z.land q 0xFF]> b)
  | SetLanguage l => <[15%nat:=Language_value l]> b
  | SetSchedule OFF _ _ _ => disabled b
  | SetSchedule _ h m t => enabled h m t b
  end.

(** The arguments pass the setter's validation. *)
Definition valid_args (c : call) : bool :=
  match c with
  | SetClockTime h m _ => (0 <=? h) && (h <=? 23) && (0 <=? m) && (m <=? 59)
  | SetSchedule OFF _ _ _ => true
  | SetSchedule _ h m _ => (0 <=? h) && (h <=? 23) && (0 <=? m) && (m <=? 59)
  | _ => true
  end.

Definition is_schedule_on (c : call) : bool :=
  match c with
  | SetSchedule OFF _ _ _ => false
  | SetSchedule _ _ _ _ => true
  | _ => false
  end.

(** The bits of byte [i] that a call is meant to alter: all of them ([-1]),
    some, or none; byte 16 is the write counter. *)
Definition target_mask (c : call) (i : nat) : Z :=
  if (i =? 16)%nat then -1 else
  match c with
  | SetTargetTemperature _ => if (i =? 4)%nat then -1 else 0
  | SetUnits _ => if (i =? 1)%nat then 0x02 else 0
  | SetClockMode _ => if (i =? 12)%nat then -1 else 0
  | SetClockTime _ _ None => if (i =? 10)%nat || (i =? 11)%nat then -1 else 0
  | SetClockTime _ _ (Some _) =>
      if (i =? 10)%nat || (i =? 11)%nat || (i =? 12)%nat then -1 else 0
  | SetChimeVolume _ => if (i =? 14)%nat then -1 else 0
  | SetPreBoil _ => if (i =? 1)%nat then 0x08 else 0
  | SetHoldTime _ => if (i =? 13)%nat then -1 else 0
  | SetAltitude _ => if (i =? 2)%nat || (i =? 3)%nat then -1 else 0
  | SetLanguage _ => if (i =? 15)%nat then -1 else 0
  | SetSchedule _ _ _ _ =>
      if (i =? 0)%nat then 0x08
      else if (i =? 6)%nat || (i =? 8)%nat || (i =? 9)%nat then -1 else 0
  end.

(** The byte the enable step of [set_schedule] puts at index 16 of its copy
    before the write. *)
Definition mode_byte (mode : ScheduleMode) (b16 : Z) : Z :=
  match mode with
  | ONCE => Z.lor b16 0x08 + 1
  | _ => Z.land b16 (Z.lnot 0x08) + 1
  end.

(** The counter value a write stores when the counter is [n]. *)
Definition bump (n : Z) : Z := Z.land (n + 1) 0xFF.

Definition next_counter (k : StaggEKGPro_Config) : Z := bump (_counter k).

(** [get_schedule_mode] as a function of the cached blob. *)
Definition mode_of_blob (b : bytearray) : option string :=
  get_schedule_mode (mkConfig None (Some b) 0).

(** The payloads a call writes from the cached blob [b] and the counter [n]
    when the transport does not fail: what [writes_planned] below proves
    about [run]. *)
Definition planned (c : call) (n : Z) (b : bytearray) : list bytearray :=
  if negb (valid_args c) then []
  else
    match c with
    | SetSchedule OFF _ _ _ => [<[16%nat:=bump n]> (disabled b)]
    | SetSchedule mode h m t =>
        if needs_disable (mode_of_blob b) mode then
          let w1 := <[16%nat:=bump n]> (disabled b) in
          w1 :: (if mode_byte mode (bump n) <? 256
                 then [<[16%nat:=bump (bump n)]> (enabled h m t w1)]
                 else [])
        else if mode_byte mode (at_ b 16) <? 256
             then [<[16%nat:=bump n]> (enabled h m t b)]
             else []
    | _ => [<[16%nat:=bump n]> (edit c b)]
    end.

(** A call that changes no field: its arguments are the values the getters
    report for the cached blob. *)
Definition current (c : call) (k : StaggEKGPro_Config) : Prop :=
  match c with
  | SetTargetTemperature t =>
      exists q, get_target_temperature k = inr (Some q) /\ (t == q)%Q
  | SetUnits u => get_units k = inr (Some (Units_name_lower u))
  | SetClockMode m => get_clock_mode k = Some (ClockMode_name_lower m)
  | SetClockTime h m mode =>
      get_clock_time k = Some (h, m) /\
      match mode with
      | Some mode => get_clock_mode k = Some (ClockMode_name_lower mode)
      | None => True
      end
  | SetChimeVolume v => get_chime_volume k = inr (Some v)
  | SetPreBoil e => get_pre_boil k = inr (Some e)
  | SetHoldTime m => get_hold_time k = inr (Some m)
  | SetAltitude a => get_altitude k = Some a
  | SetLanguage l => get_language k = Some l
  | SetSchedule mode h m t =>
      let s := get_schedule k in
      schedule_mode s = Some (ScheduleMode_name_lower mode) /\
      match mode with
      | OFF => True
      | _ => schedule_hour s = Some h /\ schedule_minute s = Some m /\
             exists q, schedule_temperature s = Some q /\ (t == q)%Q
      end
  end.

(** The fields of a blob are within the ranges of the data model: the
    temperatures at most 100 degrees, hold time at most 60, chime volume at
    most 10, the altitude a multiple of 30 up to 3000 under its marker bit,
    and the schedule fields at their sentinels while the schedule is off. *)
Definition fields_in_range (b : bytearray) : Prop :=
  at_ b 4 <= 200 /\ at_ b 6 <= 200 /\ at_ b 13 <= 60 /\ at_ b 14 <= 10 /\
  (0x80 <= at_ b 3 /\
   let altitude := Z.lor (Z.shiftl (Z.land (at_ b 3) 0x7F) 8) (at_ b 2) in
   altitude <= 3000 /\ altitude mod 30 = 0) /\
  (Z.land (at_ b 0) 0x08 = 0 -> at_ b 6 = 0xc0 /\ at_ b 8 = 0 /\ at_ b 9 = 0).

(** The enable step of a ONCE or DAILY [set_schedule] puts a value above 255
    at index 16 of its copy. *)
Definition overflows (c : call) (n : Z) (b : bytearray) : bool :=
  match c with
  | SetSchedule OFF _ _ _ => false
  | SetSchedule mode _ _ _ =>
      if needs_disable (mode_of_blob b) mode
      then negb (mode_byte mode (bump n) <? 256)
      else negb (mode_byte mode (at_ b 16) <? 256)
  | _ => false
  end.

(** The result of a call on a calm transport. *)
Definition outcome (c : call) (n : Z) (b : bytearray) : exn + unit :=
  if valid_args c && negb (overflows c n b) then inr tt else inl ValueError.

(** Run the calls one after the other, each on the controller the previous
    one left, whatever it returned. *)
Fixpoint run_all (cs : list call) (k : StaggEKGPro_Config) : StaggEKGPro_Config :=
  match cs with
  | [] => k
  | c :: cs => run_all cs (snd (run c k))
  end.

(** The [j]-th payload carries the counter advanced [j + 1] times. *)
Definition stamped (n : Z) (ws : list bytearray) : Prop :=
  forall j w, ws !! j = Some w -> at_ w 16 = Nat.iter (S j) bump n.

(** The hour or the minute is outside its range. *)
Definition bad_time (h m : Z) : Prop := ~ (0 <= h <= 23 /\ 0 <= m <= 59).

(** The call ends in an error and has written nothing. *)
Definition raises_before_write (c : call) (k : StaggEKGPro_Config) : Prop :=
  (exists e, fst (run c k) = inl e) /\ written (snd (run c k)) = written k.

(** ** Sample controllers *)

(** A blob as the kettle reports it: schedule DAILY at 07:00 and 85 degrees,
    Celsius with pre-boil, altitude 90 m, target 85 degrees, clock 12:30
    digital, hold 15 minutes, chime 5, English, counter 6. *)
Definition sample_blob : bytearray :=
  [0x08; 0x0a; 0x5a; 0x80; 170; 0x11; 170; 0x22; 0; 7; 30; 12; 1; 15; 5; 0; 6].

(** The same with the schedule off and its fields at their sentinels. *)
Definition sample_off : bytearray :=
  [0x00; 0x0a; 0x5a; 0x80; 170; 0x11; 0xc0; 0x22; 0; 0; 30; 12; 1; 15; 5; 0; 6].

(** A connected client on which nothing fails and nothing is pending. *)
Definition link : BleakClient := mkClient true [] [] [] [].

(** A connected controller that has just read [b] from the kettle. *)
Definition fresh (b : bytearray) : StaggEKGPro_Config :=
  mkConfig (Some link) (Some b) (at_ b 16).

(** ** Further vocabulary *)

(** The coroutine raises and leaves the controller exactly as it was. *)
Definition aborts {A} (m : coro A) (k : StaggEKGPro_Config) : Prop :=
  exists e, m k = (inl e, k).

(** What the getters report after a call has gone through: the call with
    its arguments as the blob can hold them (a temperature truncated to
    half a degree within 0..100, a volume within 0..10, a hold time within
    0..60, an altitude quantized within 0..3000). *)
Definition readback (c : call) : call :=
  match c with
  | SetTargetTemperature t => SetTargetTemperature (halve (py_int (clamp_temp t * 2)))
  | SetChimeVolume v => SetChimeVolume (Z.max 0 (Z.min 10 v))
  | SetHoldTime m => SetHoldTime (Z.max 0 (Z.min 60 m))
  | SetAltitude a => SetAltitude (quantize (Z.max 0 (Z.min 3000 a)))
  | _ => c
  end.

(** The counter the controller keeps is byte 16 of the blob it caches. *)
Definition in_sync (k : StaggEKGPro_Config) : Prop :=
  exists d, _state_data k = Some d /\ is_blob d /\ _counter k = at_ d 16.

(** The temperature [turn_on_smart] schedules: the one given when it is not
    zero, the current target otherwise. *)
Definition trigger_temp (temp : option Q) (b : bytearray) : Q :=
  match temp_given temp with
  | Some t => t
  | None => halve (at_ b 4)
  end.

(** The call [turn_on_smart] restores the backup of blob [b] with. *)
Definition restore_call (b : bytearray) : call :=
  match mode_of_blob b with
  | Some "off"%string => SetSchedule OFF 0 0 85
  | Some "daily"%string => SetSchedule DAILY (at_ b 9) (at_ b 8) (halve (at_ b 6))
  | _ => SetSchedule ONCE (at_ b 9) (at_ b 8) (halve (at_ b 6))
  end.

(** ** Schedule time helpers *)

(** [decode_schedule_time] *)
Definition decode_schedule_time (data : bytearray) : exn + (Z * Z) :=
  match getitem data 8 with
  | inr minute =>
      match getitem data 9 with
      | inr hour => inr (hour, minute)
      | inl e => inl e
      end
  | inl e => inl e
  end.

(** [encode_schedule_time] *)
Definition encode_schedule_time (hour minute : Z) : exn + bytearray :=
  if negb (((0 <=? hour) && (hour <=? 23)) && ((0 <=? minute) && (minute <=? 59)))
  then inl ValueError
  else inr [minute; hour].

(** ** The state snapshot *)

(** [f"{n:02d}"] for a byte. *)
Definition format_02d (n : Z) : string :=
  let s := NilZero.string_of_uint (N.to_uint (Z.to_N n)) in
  if (String.length s <? 2)%nat then ("0" ++ s)%string else s.

Definition hex_digit (n : Z) : ascii :=
  nth (Z.to_nat n) (list_ascii_of_string "0123456789abcdef") "0"%char.

(** [data.hex()] *)
Fixpoint hex (data : bytearray) : string :=
  match data with
  | [] => ""%string
  | v :: data => String (hex_digit (v / 16)) (String (hex_digit (v mod 16)) (hex data))
  end.

(** The dictionary [get_state] returns when it is not empty. *)
Record state : Type := mkState {
  target_temperature : Q;
  units : string;
  pre_boil_enabled : bool;
  altitude_meters : Z;
  clock_mode : string;
  clock_hours : Z;
  clock_minutes : Z;
  clock_time : string;
  hold_time_minutes : Z;
  hold_enabled : bool;
  chime_volume : Z;
  chime_enabled : bool;
  raw_data : string;
  counter : Z
}.

(** [get_state]; [None] is the empty dictionary. *)
Definition get_state (k : StaggEKGPro_Config) : option state :=
  match peek_long 17 k with
  | Some data =>
      let target_temp := halve (at_ data 4) in
      let units := if Z.land (at_ data 1) 0x02 =? 0 then "fahrenheit"%string else "celsius"%string in
      let pre_boil_enabled := negb (Z.land (at_ data 1) 0x08 =? 0) in
      let altitude := match get_altitude k with Some a => a | None => 0 end in
      let clock_minutes := at_ data 10 in
      let clock_hours := at_ data 11 in
      let clock_mode_val := at_ data 12 in
      let clock_mode :=
        if clock_mode_val =? 0 then "off"%string
        else if clock_mode_val =? 1 then "digital"%string
        else if clock_mode_val =? 2 then "analog"%string
        else "unknown"%string in
      let hold_time := at_ data 13 in
      let chime_volume := at_ data 14 in
      Some (mkState target_temp units pre_boil_enabled altitude clock_mode
              clock_hours clock_minutes
              (format_02d clock_hours ++ ":" ++ format_02d clock_minutes)%string
              hold_time (0 <? hold_time) chime_volume (0 <? chime_volume)
              (hex data) (at_ data 16))
  | None => None
  end.

(** ** Connecting and disconnecting *)

(** What the Bluetooth stack answers when the controller dials. *)
Inductive Dial : Type :=
| NoClient
  (** [BleakClient(address)] raises *)
| NoLink (c : BleakClient)
  (** the client is made and its [connect()] raises; [c] is the client as
      that leaves it *)
| Linked (c : BleakClient) (start_notify_raises : bool)
  (** [connect()] returns; [c] is the client as that leaves it *).

(** [connect]: whatever is raised on the way is caught and answered with
    [False]. *)
Definition connect (d : Dial) (k : StaggEKGPro_Config) : bool * StaggEKGPro_Config :=
  match d with
  | NoClient => (false, k)
  | NoLink c => (false, with_client c k)
  | Linked c start_notify_raises =>
      let k := with_client c k in
      if is_connected c then
        if start_notify_raises then (false, k)
        else
          match refresh_state k with
          | (inr _, k) => (true, k)
          | (inl _, k) => (false, k)
          end
      else (false, k)
  end.

(** [disconnect]; [hangup_raises] tells whether the client's
    [disconnect()] raises, otherwise it leaves the client not connected. *)
Definition disconnect (hangup_raises : bool) : coro unit :=
  fun k =>
    match client k with
    | Some c =>
        if is_connected c then
          if hangup_raises then (inl BleakError, k)
          else (inr tt, with_client (mkClient false (gatt_reads c) (gatt_faults c)
                                       (gatt_written c) (gatt_notified c)) k)
        else (inr tt, k)
    | None => (inr tt, k)
    end.

(** There is no client, or it is not connected. *)
Definition offline (k : StaggEKGPro_Config) : Prop :=
  forall c, client k = Some c -> is_connected c = false.

(** ** The coordinator

    [coordinator.py]: the polling and write-through layer between the
    entities and the controller.  Its lock serialises the coroutines
    below, so each runs from start to end on the coordinator as the
    previous one left it. *)

(** What the coordinator's coroutines raise: [UpdateFailed], or an
    exception of the controller passed on. *)
Inductive failure : Type :=
| UpdateFailed
| Raised (e : exn).

(** [{**state, **schedule}]: the two dictionaries have no key in common. *)
Record reading : Type := mkReading {
  reading_state : option state;
  reading_schedule : schedule
}.

Record StaggEKGProCoordinator : Type := mkCoordinator {
  kettle : StaggEKGPro_Config;
  _connected : bool;
  _retry_count : Z;
  (** [DataUpdateCoordinator.data] *)
  data : option reading;
  (** the stack's answers to the coming [kettle.connect()] calls; when none
      is left no client can be made *)
  dials : list Dial;
  (** whether the coming [client.disconnect()] calls raise; when none is
      left they do not *)
  hangups : list bool
}.

Definition set_kettle (k : StaggEKGPro_Config) (s : StaggEKGProCoordinator) :=
  mkCoordinator k (_connected s) (_retry_count s) (data s) (dials s) (hangups s).

Definition set_connected (b : bool) (s : StaggEKGProCoordinator) :=
  mkCoordinator (kettle s) b (_retry_count s) (data s) (dials s) (hangups s).

Definition set_retry_count (n : Z) (s : StaggEKGProCoordinator) :=
  mkCoordinator (kettle s) (_connected s) n (data s) (dials s) (hangups s).

(** [async_set_updated_data] *)
Definition async_set_updated_data (d : reading) (s : StaggEKGProCoordinator) :=
  mkCoordinator (kettle s) (_connected s) (_retry_count s) (Some d) (dials s) (hangups s).

(** [available] *)
Definition available (s : StaggEKGProCoordinator) : bool := _connected s.

(** [await self.kettle.connect()] *)
Definition kettle_connect (s : StaggEKGProCoordinator) : bool * StaggEKGProCoordinator :=
  let d := hd NoClient (dials s) in
  let '(connected, k) := connect d (kettle s) in
  (connected,
   mkCoordinator k (_connected s) (_retry_count s) (data s) (tl (dials s)) (hangups s)).

(** [await self.kettle.disconnect()] *)
Definition kettle_disconnect (s : StaggEKGProCoordinator)
  : (exn + unit) * StaggEKGProCoordinator :=
  match client (kettle s) with
  | Some c =>
      if is_connected c then
        let '(r, k) := disconnect (hd false (hangups s)) (kettle s) in
        (r, mkCoordinator k (_connected s) (_retry_count s) (data s) (dials s)
              (tl (hangups s)))
      else (inr tt, s)
  | None => (inr tt, s)
  end.

(** The clean-up of the two [except Exception] handlers: disconnect when
    the client is connected, and pass over whatever that raises. *)
Definition hang_up (s : StaggEKGProCoordinator) : StaggEKGProCoordinator :=
  match client (kettle s) with
  | Some c => if is_connected c then snd (kettle_disconnect s) else s
  | None => s
  end.

(** [_async_update_data] *)
Definition _async_update_data (s : StaggEKGProCoordinator)
  : (failure + reading) * StaggEKGProCoordinator :=
  let attempt : (failure + reading) * StaggEKGProCoordinator :=
    let dialled : (failure + unit) * StaggEKGProCoordinator :=
      if negb (_connected s) then
        let '(connected, s) := kettle_connect s in
        if negb connected then
          (inl UpdateFailed, set_retry_count (_retry_count s + 1) s)
        else (inr tt, set_retry_count 0 (set_connected true s))
      else (inr tt, s) in
    match dialled with
    | (inl f, s) => (inl f, s)
    | (inr _, s) =>
        match refresh_state (kettle s) with
        | (inl e, k) => (inl (Raised e), set_kettle k s)
        | (inr _, k) =>
            let s := set_kettle k s in
            let state := get_state (kettle s) in
            let schedule := get_schedule (kettle s) in
            let s := set_retry_count 0 s in
            (inr (mkReading state schedule), s)
        end
    end in
  match attempt with
  | (inr r, s) => (inr r, s)
  | (inl UpdateFailed, s) => (inl UpdateFailed, set_connected false s)
  | (inl (Raised _), s) =>
      let s := set_connected false s in
      let s := set_retry_count (_retry_count s + 1) s in
      (inl UpdateFailed, hang_up s)
  end.

(** [async_write_kettle]; [write_func] is the bound setter with its
    arguments. *)
Definition async_write_kettle {A} (write_func : coro A) (s : StaggEKGProCoordinator)
  : (failure + A) * StaggEKGProCoordinator :=
  let attempt : (failure + A) * StaggEKGProCoordinator :=
    let dialled : (failure + unit) * StaggEKGProCoordinator :=
      if negb (_connected s) then
        let '(connected, s) := kettle_connect s in
        if negb connected then (inl UpdateFailed, s)
        else (inr tt, set_connected true s)
      else (inr tt, s) in
    match dialled with
    | (inl f, s) => (inl f, s)
    | (inr _, s) =>
        match write_func (kettle s) with
        | (inl e, k) => (inl (Raised e), set_kettle k s)
        | (inr result, k) =>
            match refresh_state k with
            | (inl e, k) => (inl (Raised e), set_kettle k s)
            | (inr _, k) =>
                let s := set_kettle k s in
                let state := get_state (kettle s) in
                let schedule := get_schedule (kettle s) in
                (inr result, async_set_updated_data (mkReading state schedule) s)
            end
        end
    end in
  match attempt with
  | (inr result, s) => (inr result, s)
  | (inl f, s) => (inl f, hang_up (set_connected false s))
  end.

(** [async_shutdown] *)
Definition async_shutdown (s : StaggEKGProCoordinator) : StaggEKGProCoordinator :=
  match _connected s, client (kettle s) with
  | true, Some _ => set_connected false (snd (kettle_disconnect s))
  | _, _ => s
  end.

(** ** The schedule entities

    The three handlers that edit the schedule ([number.py], [time.py],
    [select.py]) read the other parameters back from the coordinator's
    data and hand [set_schedule] to [async_write_kettle]. *)

(** [data.get(key, d) or d] for a number: a missing key, [None] and zero
    all give [d]. *)
Definition or_int (x : option Z) (d : Z) : Z :=
  match x with
  | Some v => if v =? 0 then d else v
  | None => d
  end.

Definition or_float (x : option Q) (d : Q) : Q :=
  match x with
  | Some v => if Qeq_bool v 0 then d else v
  | None => d
  end.

(** The mode the number and the time entity carry over. *)
Definition carried_mode (d : reading) : ScheduleMode :=
  let mode_str := default "daily"%string (schedule_mode (reading_schedule d)) in
  let mode_str := if String.eqb mode_str "off" then "daily"%string else mode_str in
  if String.eqb mode_str "daily" then DAILY else ONCE.

(** [StaggScheduleTemperature.async_set_native_value] *)
Definition schedule_temperature_call (d : reading) (value : Q) : call :=
  let mode_enum := carried_mode d in
  let hour := or_int (schedule_hour (reading_schedule d)) 7 in
  let minute := or_int (schedule_minute (reading_schedule d)) 0 in
  SetSchedule mode_enum hour minute value.

(** [StaggScheduleTime.async_set_value]; the value is a [datetime.time]. *)
Definition schedule_time_call (d : reading) (value_hour value_minute : Z) : call :=
  let mode_enum := carried_mode d in
  let current_temp := or_float (schedule_temperature (reading_schedule d)) 90 in
  SetSchedule mode_enum value_hour value_minute current_temp.

(** [StaggScheduleModeSelect.async_select_option]; [option_mode] is
    [mode_map[option]], with [option] one of
    ["Off"], ["Daily"] and ["Once"]. *)
Definition schedule_mode_call (d : reading) (option_mode : ScheduleMode) : call :=
  let hour := or_int (schedule_hour (reading_schedule d)) 7 in
  let minute := or_int (schedule_minute (reading_schedule d)) 0 in
  let temp := or_float (schedule_temperature (reading_schedule d)) 90 in
  SetSchedule option_mode hour minute temp.

(** The data a poll of controller [k] yields. *)
Definition reading_of (k : StaggEKGPro_Config) : reading :=
  mkReading (get_state k) (get_schedule k).

(** The coordinator with another retry count. *)
Definition same_but_retries (s1 s2 : StaggEKGProCoordinator) : Prop :=
  kettle s1 = kettle s2 /\ _connected s1 = _connected s2 /\ data s1 = data s2
  /\ dials s1 = dials s2 /\ hangups s1 = hangups s2.

(** [n] polls in a row. *)
Definition polls (n : nat) (s : StaggEKGProCoordinator) : StaggEKGProCoordinator :=
  Nat.iter n (fun s => snd (_async_update_data s)) s.

(** ** Turning the kettle on

    The power switch and the water heater call [turn_on_smart] on the
    controller directly, in a background task that swallows what it
    raises. *)

(** [StaggEKGProPowerSwitch._async_run_smart_turn_on]: the entity's
    [_is_on], set by the optimistic update, and the coordinator after the
    task. *)
Definition _async_run_smart_turn_on (s : StaggEKGProCoordinator)
  : bool * StaggEKGProCoordinator :=
  match turn_on_smart None (kettle s) with
  | (inr _, k) => (true, set_kettle k s)
  | (inl _, k) => (false, set_kettle k s)
  end.

(** [StaggWaterHeater._run_smart_turn_on]; without data the look-up
    itself raises inside the [try]. *)
Definition _run_smart_turn_on (s : StaggEKGProCoordinator)
  : bool * StaggEKGProCoordinator :=
  match data s with
  | Some d =>
      let target_temp :=
        match reading_state d with
        | Some st => target_temperature st
        | None => 90%Q
        end in
      match turn_on_smart (Some target_temp) (kettle s) with
      | (inr _, k) => (true, set_kettle k s)
      | (inl _, k) => (false, set_kettle k s)
      end
  | None => (false, s)
  end.

(** * Basic facts *)

(** ** Bytes *)

Lemma byte_forall (P : Z -> bool) :
  forallb P (map Z.of_nat (seq 0 256)) = true ->
  forall v, byte v -> P v = true.
Proof.
  intros H v [Hlo Hhi].
  rewrite forallb_forall in H. apply H.
  apply in_map_iff. exists (Z.to_nat v). split; [lia|].
  apply in_seq. lia.
Qed.

Lemma byte_land_mask (n : Z) : byte (Z.land n 0xFF).
Proof.
  change 0xFF with (Z.ones 8). rewrite Z.land_ones by lia.
  unfold byte. pose proof (Z.mod_pos_bound n (2 ^ 8)). lia.
Qed.

Lemma land_mask_mod (n : Z) : Z.land n 0xFF = n mod 256.
Proof. change 0xFF with (Z.ones 8). now rewrite Z.land_ones by lia. Qed.

Lemma byte_lor_small v m : byte v -> byte m -> byte (Z.lor v m).
Proof.
  intros [Hv1 Hv2] [Hm1 Hm2]. split.
  - apply Z.lor_nonneg. lia.
  - destruct (Z.eq_dec v 0) as [->|Hv0]; [rewrite Z.lor_0_l; lia|].
    destruct (Z.eq_dec m 0) as [->|Hm0]; [rewrite Z.lor_0_r; lia|].
    change 256 with (2 ^ 8).
    apply Z.log2_lt_pow2.
    + assert (0 <= Z.lor v m) by (apply Z.lor_nonneg; lia).
      assert (Z.lor v m <> 0) by (rewrite Z.lor_eq_0_iff; lia). lia.
    + rewrite Z.log2_lor by lia.
      apply Z.max_lub_lt; apply Z.log2_lt_pow2; lia.
Qed.

Lemma byte_land_l v m : byte v -> byte (Z.land v m).
Proof.
  intros [Hv1 Hv2]. split.
  - apply Z.land_nonneg. lia.
  - destruct (Z.eq_dec (Z.land v m) 0) as [->|Hne]; [lia|].
    assert (0 <= Z.land v m) by (apply Z.land_nonneg; lia).
    change 256 with (2 ^ 8). apply Z.log2_lt_pow2; [lia|].
    assert (Hv0 : 0 < v) by (destruct (Z.eq_dec v 0) as [->|]; [rewrite Z.land_0_l in Hne|]; lia).
    apply Z.le_lt_trans with (Z.log2 v); [|apply Z.log2_lt_pow2; lia].
    destruct (Z.le_gt_cases (Z.log2 (Z.land v m)) (Z.log2 v)) as [|Hgt]; [assumption|].
    exfalso.
    assert (Hb : Z.testbit (Z.land v m) (Z.log2 (Z.land v m)) = true)
      by (apply Z.bit_log2; lia).
    rewrite Z.land_spec, (Z.bits_above_log2 v) in Hb by lia.
    discriminate.
Qed.

(** ** Item access *)

Lemma setitem_ok (d : bytearray) i v :
  byte v -> (i < length d)%nat -> setitem d i v = inr (<[i:=v]> d).
Proof.
  intros [H1 H2] Hi. unfold setitem.
  replace (0 <=? v) with true by (symmetry; apply Z.leb_le; lia).
  replace (v <? 256) with true by (symmetry; apply Z.ltb_lt; lia).
  replace (i <? length d)%nat with true by (symmetry; apply Nat.ltb_lt; lia).
  reflexivity.
Qed.

Lemma setitem_inv (d d' : bytearray) i v :
  setitem d i v = inr d' -> d' = <[i:=v]> d /\ byte v /\ (i < length d)%nat.
Proof.
  unfold setitem.
  destruct (0 <=? v) eqn:H1; [|discriminate].
  destruct (v <? 256) eqn:H2; [|discriminate].
  destruct (i <? length d)%nat eqn:H3; [|discriminate].
  cbn. intros [= <-].
  apply Z.leb_le in H1. apply Z.ltb_lt in H2. apply Nat.ltb_lt in H3.
  unfold byte. auto.
Qed.

Lemma getitem_ok (d : bytearray) i :
  (i < length d)%nat -> getitem d i = inr (at_ d i).
Proof.
  intros Hi. unfold getitem, at_.
  destruct (d !! i) as [v|] eqn:E; [reflexivity|].
  apply lookup_ge_None in E. lia.
Qed.

Lemma at_byte (d : bytearray) i : Forall byte d -> byte (at_ d i).
Proof.
  intros Hd. unfold at_.
  destruct (d !! i) as [v|] eqn:E; cbn; [|unfold byte; lia].
  rewrite Forall_lookup in Hd. eauto.
Qed.

Lemma at_insert_eq (d : bytearray) i v :
  (i < length d)%nat -> at_ (<[i:=v]> d) i = v.
Proof. intros Hi. unfold at_. now rewrite list_lookup_insert_eq. Qed.

Lemma at_insert_ne (d : bytearray) i j v :
  i <> j -> at_ (<[i:=v]> d) j = at_ d j.
Proof. intros Hi. unfold at_. now rewrite list_lookup_insert_ne. Qed.

Lemma insert_bytes (d : bytearray) i v :
  Forall byte d -> byte v -> Forall byte (<[i:=v]> d).
Proof. intros Hd Hv. now apply Forall_insert. Qed.

Lemma setbits_ok (d : bytearray) i m :
  Forall byte d -> byte m -> (i < length d)%nat ->
  setbits d i m = inr (<[i:=Z.lor (at_ d i) m]> d).
Proof.
  intros Hd Hm Hi. unfold setbits. rewrite getitem_ok by assumption.
  apply setitem_ok; [|assumption].
  apply byte_lor_small; [now apply at_byte | assumption].
Qed.

Lemma clearbits_ok (d : bytearray) i m :
  Forall byte d -> (i < length d)%nat ->
  clearbits d i m = inr (<[i:=Z.land (at_ d i) (Z.lnot m)]> d).
Proof.
  intros Hd Hi. unfold clearbits. rewrite getitem_ok by assumption.
  apply setitem_ok; [|assumption].
  apply byte_land_l. now apply at_byte.
Qed.

(** ** Coroutine steps *)

Lemma bind_ok {A B} (m : coro A) (f : A -> coro B) k a k' :
  m k = (inr a, k') -> bind m f k = f a k'.
Proof. intros H. unfold bind. now rewrite H. Qed.

Lemma bind_err {A B} (m : coro A) (f : A -> coro B) k e k' :
  m k = (inl e, k') -> bind m f k = (inl e, k').
Proof. intros H. unfold bind. now rewrite H. Qed.

Lemma ensure_state_cached k b :
  _state_data k = Some b -> b <> [] -> ensure_state k = (inr tt, k).
Proof.
  intros Hb Hne. unfold ensure_state, bind, this. rewrite Hb.
  destruct b; [congruence | reflexivity].
Qed.

Lemma copy_state_cached k b :
  _state_data k = Some b -> copy_state k = (inr b, k).
Proof. intros Hb. unfold copy_state, bind, this. now rewrite Hb. Qed.

Lemma next_write_ok_dec k : {next_write_ok k} + {~ next_write_ok k}.
Proof.
  unfold next_write_ok. destruct (client k) as [c|]; [|right; tauto].
  destruct (is_connected c); [|right; intros []; discriminate].
  destruct (hd false (gatt_faults c)); [right; intros []; discriminate|left; auto].
Qed.

Lemma _write_state_ok d k :
  next_write_ok k -> (16 < length d)%nat ->
  _write_state d k = (inr tt, committed d k).
Proof.
  unfold next_write_ok. intros Hok Hlen.
  destruct k as [[c|] sd n]; cbn in Hok; [|tauto].
  destruct Hok as [Hc Hf].
  unfold _write_state, bind, require_connected, this; cbn.
  rewrite Hc.
  rewrite (setitem_ok d 16 _ (byte_land_mask _) Hlen); cbn.
  unfold write_gatt_char, committed; cbn.
  destruct c as [conn rd fl wr nt]; cbn in *.
  destruct fl as [|[] fl]; cbn in *; try discriminate;
    unfold getitem; rewrite list_lookup_insert_eq by lia; reflexivity.
Qed.

Lemma _write_state_fail d k :
  ~ (next_write_ok k /\ (16 < length d)%nat) ->
  exists e k', _write_state d k = (inl e, k') /\ written k' = written k
               /\ _state_data k' = _state_data k /\ _counter k' = _counter k.
Proof.
  unfold next_write_ok. intros Hno.
  destruct k as [[c|] sd n]; cbn in *.
  2:{ eexists _, _. split; [reflexivity|]. auto. }
  unfold _write_state, bind, require_connected, this; cbn.
  destruct (is_connected c) eqn:Hc.
  2:{ eexists _, _. split; [reflexivity|]. auto. }
  cbn.
  destruct (setitem d 16 (Z.land (n + 1) 255)) as [e|d'] eqn:Hs; cbn.
  { eexists _, _. split; [reflexivity|]. auto. }
  apply setitem_inv in Hs. destruct Hs as (-> & _ & Hlen).
  unfold write_gatt_char.
  destruct c as [conn rd fl wr nt]; cbn in *.
  destruct fl as [|[] fl]; cbn in *.
  - exfalso. apply Hno. auto.
  - eexists _, _. split; [reflexivity|]. auto.
  - exfalso. apply Hno. auto.
Qed.

(** ** Numbers *)

Lemma clamp_temp_bounds t : (0 <= clamp_temp t <= 100)%Q.
Proof.
  unfold clamp_temp, py_max, py_min.
  destruct (Qle_bool 100 t) eqn:E1; cbn.
  - split; [discriminate|apply Qle_refl].
  - destruct (Qle_bool t 0) eqn:E2.
    + split; [apply Qle_refl|discriminate].
    + split.
      * apply Qlt_le_weak, Qnot_le_lt. intros H.
        apply Qle_bool_iff in H. congruence.
      * apply Qlt_le_weak, Qnot_le_lt. intros H.
        apply Qle_bool_iff in H. congruence.
Qed.

Lemma py_int_double q : (0 <= q <= 100)%Q -> 0 <= py_int (q * 2) <= 200.
Proof.
  intros [Hlo Hhi]. unfold py_int.
  destruct q as [n d]. unfold Qle in *. cbn in *.
  rewrite Z.quot_div_nonneg by lia.
  split.
  - apply Z.div_pos; lia.
  - apply Z.div_le_upper_bound; lia.
Qed.

Lemma byte_temp t : byte (py_int (clamp_temp t * 2)).
Proof.
  pose proof (py_int_double _ (clamp_temp_bounds t)). unfold byte. lia.
Qed.

Lemma py_round_div30 a :
  py_round (inject_Z a / 30) =
  match Z.compare (2 * (a mod 30)) 30 with
  | Lt => a / 30
  | Gt => a / 30 + 1
  | Eq => if Z.even (a / 30) then a / 30 else a / 30 + 1
  end.
Proof.
  unfold py_round.
  assert (Hf : Qfloor (inject_Z a / 30) = a / 30).
  { unfold Qfloor, Qdiv, Qmult, Qinv, inject_Z; cbn. now rewrite Z.mul_1_r. }
  rewrite Hf.
  assert (Hc : Qcompare (inject_Z a / 30 - inject_Z (a / 30)) (1 # 2)
               = Z.compare (2 * (a mod 30)) 30).
  { unfold Qcompare, Qminus, Qplus, Qopp, Qdiv, Qmult, Qinv, inject_Z; cbn.
    pose proof (Z.div_mod a 30 ltac:(lia)) as Hdm.
    change (Z.pos (1 * 30)) with 30. change (1 * Z.pos (1 * 30 * 1)) with 30.
    replace ((a * 1 * 1 + - (a / 30) * 30) * 2) with (2 * (a mod 30)) by lia.
    reflexivity. }
  now rewrite Hc.
Qed.

Lemma quantize_spec a :
  exists q, quantize a = 30 * q /\ -15 <= a - 30 * q <= 15.
Proof.
  unfold quantize. rewrite py_round_div30.
  pose proof (Z.div_mod a 30 ltac:(lia)) as Hdm.
  pose proof (Z.mod_pos_bound a 30 ltac:(lia)) as Hm.
  destruct (Z.compare_spec (2 * (a mod 30)) 30).
  - destruct (Z.even (a / 30)); eexists; split; try apply Z.mul_comm; lia.
  - eexists; split; [apply Z.mul_comm|]; lia.
  - eexists; split; [apply Z.mul_comm|]; lia.
Qed.

Lemma quantize_range a : 0 <= a <= 3000 -> 0 <= quantize a <= 3000.
Proof.
  intros Ha. destruct (quantize_spec a) as (q & -> & Hq). lia.
Qed.

Lemma quantize_fixed q : quantize (30 * q) = 30 * q.
Proof.
  unfold quantize. rewrite py_round_div30.
  replace (30 * q) with (q * 30) by lia.
  rewrite Z.mod_mul, Z.div_mul by lia. reflexivity.
Qed.

Lemma clamp_altitude_range a : 0 <= Z.max 0 (Z.min 3000 a) <= 3000.
Proof. lia. Qed.

Lemma altitude_low_byte q : byte (Z.land q 0xFF).
Proof. apply byte_land_mask. Qed.

Lemma altitude_high_byte q : byte (0x80 + Z.land (Z.shiftr q 8) 0x7F).
Proof.
  change 0x7F with (Z.ones 7). rewrite Z.land_ones by lia.
  pose proof (Z.mod_pos_bound (Z.shiftr q 8) (2 ^ 7) ltac:(lia)).
  unfold byte. change (2 ^ 7) with 128 in *. lia.
Qed.

(** ** The setters on a cached blob *)

Arguments _write_state : simpl never.

Lemma blob_nonempty b : is_blob b -> b <> [].
Proof. intros [Hl _] ->. discriminate. Qed.

Lemma run_simple c k b :
  _state_data k = Some b -> is_blob b ->
  valid_args c = true -> is_schedule_on c = false ->
  run c k = _write_state (edit c b) k.
Proof.
  intros Hb Hblob Hv Hs.
  pose proof (blob_nonempty b Hblob) as Hne.
  destruct Hblob as [Hlen Hbytes].
  pose proof (ensure_state_cached k b Hb Hne) as He.
  pose proof (copy_state_cached k b Hb) as Hc.
  destruct c as [t|u|m|h m mode|v|e|m|a|l|mode h m t]; cbn in Hv, Hs |- *.
  - unfold set_target_temperature, bind, eval. rewrite He; cbv beta iota; rewrite Hc; cbv beta iota.
    rewrite setitem_ok by (try apply byte_temp; lia). reflexivity.
  - unfold set_units, bind, eval. rewrite He; cbv beta iota; rewrite Hc; cbv beta iota.
    destruct u.
    + rewrite setbits_ok by (try assumption; unfold byte; lia). reflexivity.
    + rewrite clearbits_ok by (try assumption; lia). reflexivity.
  - unfold set_clock_mode, bind, eval. rewrite He; cbv beta iota; rewrite Hc; cbv beta iota.
    rewrite setitem_ok by (try lia; destruct m; unfold byte; cbn; lia).
    reflexivity.
  - unfold set_clock_time, bind, eval, ret, raise. rewrite He.
    apply andb_true_iff in Hv. destruct Hv as [Hv Hm2].
    apply andb_true_iff in Hv. destruct Hv as [Hv Hm1].
    cbv beta iota. rewrite Hv, Hm1, Hm2. cbn [negb andb]. cbv beta iota.
    rewrite Hc; cbv beta iota.
    apply andb_true_iff in Hv. destruct Hv as [Hh1 Hh2].
    rewrite setitem_ok by (unfold byte; lia).
    rewrite setitem_ok by (rewrite ?length_insert; unfold byte; lia).
    destruct mode as [mode|]; [|reflexivity].
    rewrite setitem_ok
      by (rewrite ?length_insert; try lia; destruct mode; unfold byte; cbn; lia).
    reflexivity.
  - unfold set_chime_volume, bind, eval. rewrite He; cbv beta iota; rewrite Hc; cbv beta iota.
    rewrite setitem_ok by (unfold byte; lia). reflexivity.
  - unfold set_pre_boil, bind, eval. rewrite He; cbv beta iota; rewrite Hc; cbv beta iota.
    destruct e.
    + rewrite setbits_ok by (try assumption; unfold byte; lia). reflexivity.
    + rewrite clearbits_ok by (try assumption; lia). reflexivity.
  - unfold set_hold_time, bind, eval. rewrite He; cbv beta iota; rewrite Hc; cbv beta iota.
    rewrite setitem_ok by (unfold byte; lia). reflexivity.
  - unfold set_altitude, bind, eval. rewrite He; cbv beta iota; rewrite Hc; cbv beta iota.
    rewrite setitem_ok by (try apply altitude_low_byte; lia).
    rewrite setitem_ok
      by (rewrite ?length_insert; try apply altitude_high_byte; lia).
    reflexivity.
  - unfold set_language, bind, eval. rewrite He; cbv beta iota; rewrite Hc; cbv beta iota.
    rewrite setitem_ok by (try lia; destruct l; unfold byte; cbn; lia).
    reflexivity.
  - destruct mode; try discriminate.
    unfold set_schedule, bind, eval. rewrite He; cbv beta iota; rewrite Hc; cbv beta iota.
    unfold disable_bytes.
    rewrite clearbits_ok by (try assumption; lia).
    rewrite setitem_ok by (rewrite ?length_insert; unfold byte; lia).
    rewrite setitem_ok by (rewrite ?length_insert; unfold byte; lia).
    rewrite setitem_ok by (rewrite ?length_insert; unfold byte; lia).
    reflexivity.
Qed.

Lemma run_invalid c k b :
  _state_data k = Some b -> b <> [] -> valid_args c = false ->
  run c k = (inl ValueError, k).
Proof.
  intros Hb Hne Hv.
  pose proof (ensure_state_cached k b Hb Hne) as He.
  destruct c as [t|u|m|h m mode|v|e|m|a|l|mode h m t]; cbn in Hv; try discriminate.
  - cbn. unfold set_clock_time, bind, raise. rewrite He; cbv beta iota.
    destruct ((0 <=? h) && (h <=? 23)); cbn in *; [|reflexivity].
    rewrite Hv. reflexivity.
  - destruct mode; try discriminate;
      cbn; unfold set_schedule, bind, raise; rewrite He; cbv beta iota;
      (destruct ((0 <=? h) && (h <=? 23)); cbn in *; [|reflexivity]);
      rewrite Hv; reflexivity.
Qed.

(** ** The two steps of [set_schedule] *)

Lemma _write_state_insert16 x d k :
  _write_state (<[16%nat:=x]> d) k = _write_state d k.
Proof.
  assert (Hs : forall v, setitem (<[16%nat:=x]> d) 16 v = setitem d 16 v).
  { intros v. unfold setitem. now rewrite length_insert, list_insert_insert_eq. }
  unfold _write_state, bind, require_connected, this, eval.
  destruct (client k) as [c|]; [|reflexivity].
  destruct (is_connected c); [|reflexivity].
  now rewrite Hs.
Qed.

Lemma asyncio_sleep_quiet k : quiet k -> asyncio_sleep k = (inr tt, k).
Proof.
  unfold quiet, asyncio_sleep. destruct (client k) as [c|]; [|reflexivity].
  now intros ->.
Qed.

Lemma disabled_length b : length (disabled b) = length b.
Proof. unfold disabled. now rewrite !length_insert. Qed.

Lemma enabled_length h m t b : length (enabled h m t b) = length b.
Proof. unfold enabled. now rewrite !length_insert. Qed.

Lemma disable_bytes_ok b :
  is_blob b -> disable_bytes b = inr (disabled b).
Proof.
  intros [Hlen Hbytes]. unfold disable_bytes, disabled.
  rewrite clearbits_ok by (try assumption; lia).
  rewrite setitem_ok by (rewrite ?length_insert; unfold byte; lia).
  rewrite setitem_ok by (rewrite ?length_insert; unfold byte; lia).
  rewrite setitem_ok by (rewrite ?length_insert; unfold byte; lia).
  reflexivity.
Qed.

Lemma disable_first_eq k b :
  _state_data k = Some b -> is_blob b ->
  disable_first k = bind (_write_state (disabled b)) (fun _ => asyncio_sleep) k.
Proof.
  intros Hb Hblob.
  unfold disable_first.
  rewrite (bind_ok copy_state _ k b k (copy_state_cached k b Hb)).
  unfold bind at 1, eval at 1. rewrite (disable_bytes_ok b Hblob).
  unfold bind at 1, eval at 1.
  rewrite getitem_ok by (rewrite disabled_length; destruct Hblob; lia).
  unfold bind at 1, eval at 1.
  rewrite setitem_ok
    by (try apply byte_land_mask; rewrite disabled_length; destruct Hblob; lia).
  unfold bind. now rewrite _write_state_insert16.
Qed.

Lemma mode_byte_nonneg mode v : byte v -> 0 <= mode_byte mode v.
Proof.
  intros Hv. unfold mode_byte.
  assert (byte 8) by (unfold byte; lia).
  pose proof (byte_lor_small v 8 Hv ltac:(assumption)) as [? ?].
  pose proof (byte_land_l v (Z.lnot 8) Hv) as [? ?].
  destruct mode; lia.
Qed.

Lemma enable_with_eq mode h m t k b :
  _state_data k = Some b -> is_blob b ->
  0 <= h <= 23 -> 0 <= m <= 59 ->
  enable_with mode h m (clamp_temp t) k =
  if mode_byte mode (at_ b 16) <? 256
  then _write_state (enabled h m t b) k
  else (inl ValueError, k).
Proof.
  intros Hb Hblob Hh Hm. destruct Hblob as [Hlen Hbytes].
  unfold enable_with.
  rewrite (bind_ok copy_state _ k b k (copy_state_cached k b Hb)).
  unfold bind at 1, eval at 1.
  rewrite setbits_ok by (try assumption; unfold byte; lia).
  unfold bind at 1, eval at 1.
  rewrite setitem_ok by (try apply byte_temp; rewrite ?length_insert; lia).
  unfold bind at 1, eval at 1.
  rewrite setitem_ok by (rewrite ?length_insert; unfold byte; lia).
  unfold bind at 1, eval at 1.
  rewrite setitem_ok by (rewrite ?length_insert; unfold byte; lia).
  unfold bind at 1, eval at 1.
  rewrite getitem_ok by (rewrite ?length_insert; lia).
  rewrite !at_insert_ne by lia.
  fold (enabled h m t b).
  pose proof (mode_byte_nonneg mode (at_ b 16) (at_byte b 16 Hbytes)) as Hnn.
  assert (Hset : (match mode with
                  | ONCE => setitem (enabled h m t b) 16 (Z.lor (at_ b 16) 8 + 1)
                  | _ => setitem (enabled h m t b) 16
                           (Z.land (at_ b 16) (Z.lnot 8) + 1)
                  end) =
                 if mode_byte mode (at_ b 16) <? 256
                 then inr (<[16%nat:=mode_byte mode (at_ b 16)]> (enabled h m t b))
                 else inl ValueError).
  { destruct (mode_byte mode (at_ b 16) <? 256) eqn:E.
    - apply Z.ltb_lt in E.
      destruct mode; unfold mode_byte in *;
        apply setitem_ok; try (unfold byte; lia);
        rewrite enabled_length; lia.
    - apply Z.ltb_ge in E.
      destruct mode; unfold mode_byte in *; unfold setitem;
        match goal with
        | |- context [?x <? 256] =>
            replace (x <? 256) with false by (symmetry; apply Z.ltb_ge; lia)
        end; now rewrite andb_false_r. }
  unfold bind, eval. rewrite Hset.
  destruct (mode_byte mode (at_ b 16) <? 256); [|reflexivity].
  now rewrite _write_state_insert16.
Qed.

Lemma set_schedule_on_eq mode h m t k b :
  _state_data k = Some b -> b <> [] -> mode <> OFF ->
  0 <= h <= 23 -> 0 <= m <= 59 ->
  set_schedule mode h m t k =
  bind (if needs_disable (get_schedule_mode k) mode then disable_first else ret tt)
       (fun _ => enable_with mode h m (clamp_temp t)) k.
Proof.
  intros Hb Hne Hmode Hh Hm.
  unfold set_schedule.
  rewrite (bind_ok ensure_state _ k tt k (ensure_state_cached k b Hb Hne)).
  replace ((0 <=? h) && (h <=? 23)) with true
    by (symmetry; apply andb_true_iff; split; apply Z.leb_le; lia).
  replace ((0 <=? m) && (m <=? 59)) with true
    by (symmetry; apply andb_true_iff; split; apply Z.leb_le; lia).
  destruct mode; [congruence| |]; reflexivity.
Qed.

(** ** What a write leaves behind *)

Lemma written_committed d k :
  client k <> None ->
  written (committed d k) = written k ++ [<[16%nat:=next_counter k]> d].
Proof.
  unfold written, committed, next_counter. destruct (client k); [reflexivity|congruence].
Qed.

Lemma next_write_ok_client k : next_write_ok k -> client k <> None.
Proof. unfold next_write_ok. destruct (client k); [congruence|tauto]. Qed.

Lemma quiet_committed d k : quiet k -> quiet (committed d k).
Proof. unfold quiet, committed. destruct (client k); cbn; auto. Qed.

Lemma calm_committed d k : calm k -> calm (committed d k).
Proof.
  unfold calm, committed. destruct (client k); cbn; [|auto].
  intros (H1 & -> & H3). auto.
Qed.

Lemma calm_next_write_ok k : calm k -> next_write_ok k.
Proof.
  unfold calm, next_write_ok. destruct (client k); [|auto].
  intros (H1 & -> & _). auto.
Qed.

Lemma calm_quiet k : calm k -> quiet k.
Proof. unfold calm, quiet. destruct (client k); [|auto]. tauto. Qed.

Lemma writes_of_app {A} (m : coro A) k ws :
  written (snd (m k)) = written k ++ ws -> writes_of m k = ws.
Proof. intros H. unfold writes_of. rewrite H. apply drop_app_length. Qed.

Lemma _write_state_cases d k :
  (16 < length d)%nat ->
  (next_write_ok k /\ _write_state d k = (inr tt, committed d k)) \/
  (exists e k', _write_state d k = (inl e, k') /\ written k' = written k
                /\ _state_data k' = _state_data k /\ _counter k' = _counter k).
Proof.
  intros Hlen. destruct (next_write_ok_dec k) as [Hok|Hno].
  - left. split; [assumption|]. now apply _write_state_ok.
  - right. apply _write_state_fail. tauto.
Qed.

Lemma writes_of__write_state d k :
  (16 < length d)%nat ->
  writes_of (_write_state d) k = [] \/
  writes_of (_write_state d) k = [<[16%nat:=next_counter k]> d].
Proof.
  intros Hlen. destruct (_write_state_cases d k Hlen) as [[Hok E]|(e & k' & E & Hw & _)].
  - right. apply writes_of_app. rewrite E. cbn.
    apply written_committed. now apply next_write_ok_client.
  - left. apply writes_of_app. rewrite E. cbn. now rewrite Hw, app_nil_r.
Qed.

Lemma is_blob_insert b i v : is_blob b -> byte v -> is_blob (<[i:=v]> b).
Proof.
  intros [Hl Hb] Hv. split; [now rewrite length_insert|now apply insert_bytes].
Qed.

Lemma is_blob_disabled b : is_blob b -> is_blob (disabled b).
Proof.
  intros Hb. unfold disabled.
  repeat apply is_blob_insert; try assumption; try (unfold byte; lia).
  apply byte_land_l, at_byte. apply Hb.
Qed.

Lemma is_blob_enabled h m t b :
  is_blob b -> 0 <= h <= 23 -> 0 <= m <= 59 -> is_blob (enabled h m t b).
Proof.
  intros Hb Hh Hm. unfold enabled.
  repeat apply is_blob_insert; try assumption; try (unfold byte; lia);
    first [apply byte_temp
          |apply byte_lor_small; [apply at_byte, Hb|unfold byte; lia]].
Qed.

Lemma is_blob_edit c b : is_blob b -> valid_args c = true -> is_blob (edit c b).
Proof.
  intros Hb Hv.
  assert (Hat : forall i, byte (at_ b i)) by (intros i; apply at_byte, Hb).
  destruct c as [t|u|m|h m mode|v|e|m|a|l|mode h m t]; cbn in Hv |- *.
  - apply is_blob_insert; [assumption|apply byte_temp].
  - destruct u; apply is_blob_insert; try assumption.
    + apply byte_lor_small; [apply Hat|unfold byte; lia].
    + apply byte_land_l, Hat.
  - apply is_blob_insert; [assumption|]. destruct m; unfold byte; cbn; lia.
  - rewrite !andb_true_iff, !Z.leb_le in Hv.
    destruct mode as [mode|]; repeat apply is_blob_insert; try assumption;
      try (unfold byte; lia).
    destruct mode; unfold byte; cbn; lia.
  - apply is_blob_insert; [assumption|unfold byte; lia].
  - destruct e; apply is_blob_insert; try assumption.
    + apply byte_lor_small; [apply Hat|unfold byte; lia].
    + apply byte_land_l, Hat.
  - apply is_blob_insert; [assumption|unfold byte; lia].
  - repeat apply is_blob_insert; try assumption.
    + apply altitude_low_byte.
    + apply altitude_high_byte.
  - apply is_blob_insert; [assumption|]. destruct l; unfold byte; cbn; lia.
  - destruct mode.
    + now apply is_blob_disabled.
    + rewrite !andb_true_iff, !Z.leb_le in Hv. apply is_blob_enabled; tauto.
    + rewrite !andb_true_iff, !Z.leb_le in Hv. apply is_blob_enabled; tauto.
Qed.

(** ** The payloads of a call *)

Lemma get_schedule_mode_cached k b :
  _state_data k = Some b -> get_schedule_mode k = mode_of_blob b.
Proof. intros Hb. unfold mode_of_blob, get_schedule_mode. now rewrite Hb. Qed.

Lemma writes_of_same {A} (m : coro A) k r k' :
  m k = (r, k') -> written k' = written k -> writes_of m k = [].
Proof.
  intros E Hw. apply writes_of_app. rewrite E. cbn. now rewrite Hw, app_nil_r.
Qed.

Lemma state_committed d k : _state_data (committed d k) = Some (<[16%nat:=next_counter k]> d).
Proof. reflexivity. Qed.

Lemma counter_committed d k : _counter (committed d k) = next_counter k.
Proof. reflexivity. Qed.

Lemma at_16_stamped (d : bytearray) n : (16 < length d)%nat -> at_ (<[16%nat:=n]> d) 16 = n.
Proof. intros H. now apply at_insert_eq. Qed.

Lemma byte_bump n : byte (bump n).
Proof. apply byte_land_mask. Qed.

(** What [set_schedule] does for ONCE or DAILY with valid arguments, when
    nothing is notified during the pause. *)
Lemma set_schedule_on_cases mode h m t k b :
  _state_data k = Some b -> is_blob b -> quiet k -> mode <> OFF ->
  0 <= h <= 23 -> 0 <= m <= 59 ->
  let n := _counter k in
  let w1 := <[16%nat:=bump n]> (disabled b) in
  let k1 := committed (disabled b) k in
  if needs_disable (mode_of_blob b) mode then
    (~ next_write_ok k /\
       exists e k', set_schedule mode h m t k = (inl e, k') /\ written k' = written k)
    \/ (next_write_ok k /\
        set_schedule mode h m t k =
        if mode_byte mode (bump n) <? 256
        then _write_state (enabled h m t w1) k1
        else (inl ValueError, k1))
  else
    set_schedule mode h m t k =
    if mode_byte mode (at_ b 16) <? 256
    then _write_state (enabled h m t b) k
    else (inl ValueError, k).
Proof.
  intros Hb Hblob Hq Hmode Hh Hm n w1 k1.
  rewrite (set_schedule_on_eq mode h m t k b Hb (blob_nonempty b Hblob) Hmode Hh Hm).
  rewrite (get_schedule_mode_cached k b Hb).
  destruct (needs_disable (mode_of_blob b) mode).
  - assert (Hlen : (16 < length (disabled b))%nat)
      by (rewrite disabled_length; destruct Hblob; lia).
    unfold bind. rewrite (disable_first_eq k b Hb Hblob). unfold bind.
    destruct (_write_state_cases (disabled b) k Hlen)
      as [[Hok E]|(e & k' & E & Hw & _)].
    + right. split; [assumption|].
      rewrite E.
      rewrite (asyncio_sleep_quiet _ (quiet_committed _ _ Hq)).
      fold k1.
      assert (Hb1 : _state_data k1 = Some w1) by reflexivity.
      assert (Hblob1 : is_blob w1)
        by (apply is_blob_insert; [now apply is_blob_disabled|apply byte_bump]).
      rewrite (enable_with_eq mode h m t k1 w1 Hb1 Hblob1 Hh Hm).
      unfold w1 at 1. rewrite at_16_stamped by assumption. reflexivity.
    + left. split.
      * intros Hok. destruct (next_write_ok_dec k) as [Hy|Hn]; [|tauto].
        rewrite (_write_state_ok _ _ Hy Hlen) in E. discriminate.
      * exists e, k'. split; [|assumption].
        now rewrite E.
  - unfold bind at 1, ret at 1.
    apply (enable_with_eq mode h m t k b Hb Hblob Hh Hm).
Qed.

Lemma writes_of_ext {A} (m1 m2 : coro A) k :
  m1 k = m2 k -> writes_of m1 k = writes_of m2 k.
Proof. intros H. unfold writes_of. now rewrite H. Qed.

Lemma prefix_nil_any {A} (l : list A) : [] `prefix_of` l.
Proof. now exists l. Qed.

Lemma writes_of__write_state_prefix d k ws :
  (16 < length d)%nat ->
  writes_of (_write_state d) k `prefix_of` (<[16%nat:=next_counter k]> d :: ws).
Proof.
  intros Hlen. destruct (writes_of__write_state d k Hlen) as [-> | ->].
  - apply prefix_nil_any.
  - now exists ws.
Qed.

Lemma blob_length b : is_blob b -> length b = 17%nat.
Proof. now intros [? _]. Qed.

(** Whatever the transport does, a call writes a prefix of its planned
    payloads. *)
Lemma writes_planned c k b :
  _state_data k = Some b -> is_blob b -> quiet k ->
  writes_of (run c) k `prefix_of` planned c (_counter k) b.
Proof.
  intros Hb Hblob Hq. unfold planned.
  pose proof (blob_length b Hblob) as Hlen.
  destruct (valid_args c) eqn:Hv; cbn [negb].
  2:{ rewrite (writes_of_same (run c) k _ k
                 (run_invalid c k b Hb (blob_nonempty b Hblob) Hv) eq_refl).
      apply prefix_nil_any. }
  destruct (is_schedule_on c) eqn:Hs.
  - destruct c as [| | | | | | | | |mode h m t]; try discriminate.
    destruct mode; [discriminate| |];
      cbn in Hv; rewrite !andb_true_iff, !Z.leb_le in Hv;
      destruct Hv as [[[Hh1 Hh2] Hm1] Hm2]; cbn [run];
      (match goal with
       | |- context [needs_disable _ ?md] =>
           pose proof (set_schedule_on_cases md h m t k b Hb Hblob Hq
                         ltac:(discriminate) ltac:(lia) ltac:(lia)) as Hc
       end);
      cbv zeta in Hc;
      (destruct (needs_disable (mode_of_blob b) _);
       [ destruct Hc as [[_ (e & k' & E & Hw)]|[Hok E]];
         [ rewrite (writes_of_same _ k _ k' E Hw); apply prefix_nil_any
         | unfold writes_of; rewrite E;
           destruct (_ <? 256);
           [ assert (Hl1 : (16 < length (enabled h m t
                                 (<[16%nat:=bump (_counter k)]> (disabled b))))%nat)
               by (rewrite enabled_length, length_insert, disabled_length; lia);
             destruct (_write_state_cases _ (committed (disabled b) k) Hl1)
               as [[Hok2 E2]|(e2 & k2 & E2 & Hw2 & _)];
             rewrite E2; cbn [snd];
             [ rewrite !written_committed
                 by (try apply next_write_ok_client; assumption);
               rewrite <- app_assoc, drop_app_length; reflexivity
             | rewrite Hw2, written_committed by (now apply next_write_ok_client);
               rewrite drop_app_length; eexists; reflexivity ]
           | cbn [snd];
             rewrite written_committed by (now apply next_write_ok_client);
             rewrite drop_app_length; reflexivity ] ]
       | unfold writes_of; rewrite Hc;
         destruct (_ <? 256);
         [ apply (writes_of__write_state_prefix (enabled h m t b) k []);
           rewrite enabled_length; lia
         | cbn [snd]; rewrite drop_all; reflexivity ] ]).
  - rewrite (writes_of_ext _ _ k (run_simple c k b Hb Hblob Hv Hs)).
    assert (Hl : (16 < length (edit c b))%nat)
      by (rewrite (blob_length _ (is_blob_edit c b Hblob Hv)); lia).
    destruct c as [| | | | | | | | |mode h m t];
      try (apply (writes_of__write_state_prefix _ k []); assumption).
    destruct mode; try discriminate.
    apply (writes_of__write_state_prefix _ k []); assumption.
Qed.

(** ** Frame: what the planned payloads share with the cached blob *)

Lemma land_lor_lnot v m : Z.land (Z.lor v m) (Z.lnot m) = Z.land v (Z.lnot m).
Proof.
  apply Z.bits_inj'. intros n Hn.
  rewrite !Z.land_spec, Z.lor_spec, Z.lnot_spec by assumption.
  destruct (Z.testbit v n), (Z.testbit m n); reflexivity.
Qed.

Lemma land_land_lnot v m :
  Z.land (Z.land v (Z.lnot m)) (Z.lnot m) = Z.land v (Z.lnot m).
Proof. now rewrite <- Z.land_assoc, Z.land_diag. Qed.

Lemma blob_explicit (b : bytearray) :
  length b = 17%nat ->
  exists b0 b1 b2 b3 b4 b5 b6 b7 b8 b9 b10 b11 b12 b13 b14 b15 b16,
    b = [b0; b1; b2; b3; b4; b5; b6; b7; b8; b9; b10; b11; b12; b13; b14; b15; b16].
Proof.
  intros H.
  do 17 (destruct b as [|? b]; [discriminate|]).
  destruct b; [|discriminate].
  repeat eexists.
Qed.

Arguments py_int : simpl never.
Arguments clamp_temp : simpl never.
Arguments quantize : simpl never.
Arguments Z.land : simpl never.
Arguments Z.lor : simpl never.
Arguments Z.lnot : simpl never.
Arguments Z.shiftr : simpl never.
Arguments Z.testbit : simpl never.
Arguments Z.add : simpl never.
Arguments Z.max : simpl never.
Arguments Z.min : simpl never.

Ltac frame_bytes :=
  let i := fresh "i" in
  intros i;
  do 17 (destruct i as [|i];
         [cbn; rewrite ?Z.land_0_r, ?land_lor_lnot, ?land_land_lnot; reflexivity|]);
  cbn; rewrite ?Z.land_0_r; reflexivity.

Lemma edit_frame c b x :
  length b = 17%nat ->
  forall i, Z.land (at_ (<[16%nat:=x]> (edit c b)) i) (Z.lnot (target_mask c i))
            = Z.land (at_ b i) (Z.lnot (target_mask c i)).
Proof.
  intros Hlen.
  destruct (blob_explicit b Hlen)
    as (b0&b1&b2&b3&b4&b5&b6&b7&b8&b9&b10&b11&b12&b13&b14&b15&b16&->).
  destruct c as [t|u|m|h m mode|v|e|m|a|l|mode h m t].
  - frame_bytes.
  - destruct u; frame_bytes.
  - frame_bytes.
  - destruct mode; frame_bytes.
  - frame_bytes.
  - destruct e; frame_bytes.
  - frame_bytes.
  - frame_bytes.
  - frame_bytes.
  - destruct mode; frame_bytes.
Qed.

Lemma two_phase_frame mode h m t b x y :
  length b = 17%nat ->
  let c := SetSchedule mode h m t in
  (forall i, Z.land (at_ (<[16%nat:=x]> (disabled b)) i) (Z.lnot (target_mask c i))
             = Z.land (at_ b i) (Z.lnot (target_mask c i)))
  /\ (forall i, Z.land (at_ (<[16%nat:=x]>
                              (enabled h m t (<[16%nat:=y]> (disabled b)))) i)
                       (Z.lnot (target_mask c i))
                = Z.land (at_ b i) (Z.lnot (target_mask c i))).
Proof.
  intros Hlen c.
  destruct (blob_explicit b Hlen)
    as (b0&b1&b2&b3&b4&b5&b6&b7&b8&b9&b10&b11&b12&b13&b14&b15&b16&->).
  subst c. split; frame_bytes.
Qed.

Lemma planned_valid c n b w : w ∈ planned c n b -> valid_args c = true.
Proof.
  unfold planned. destruct (valid_args c); [reflexivity|].
  cbn. intros H. now apply elem_of_nil in H.
Qed.

(** The shapes a planned payload can take. *)
Lemma planned_shape c n b w :
  w ∈ planned c n b ->
  (exists x, byte x /\ w = <[16%nat:=x]> (edit c b)) \/
  (exists mode h m t x y,
      c = SetSchedule mode h m t /\ mode <> OFF /\ byte x /\ byte y /\
      (w = <[16%nat:=x]> (disabled b) \/
       w = <[16%nat:=x]> (enabled h m t (<[16%nat:=y]> (disabled b))))).
Proof.
  intros Hw. pose proof (planned_valid c n b w Hw) as Hv.
  unfold planned in Hw. rewrite Hv in Hw. cbn [negb] in Hw.
  assert (Hsimple : w ∈ [<[16%nat:=bump n]> (edit c b)] ->
                    exists x, byte x /\ w = <[16%nat:=x]> (edit c b)).
  { intros H. apply list_elem_of_singleton in H.
    exists (bump n). split; [apply byte_bump|assumption]. }
  destruct c as [t|u|md|h m md|v|e|m|a|l|mode h m t]; try (left; now apply Hsimple).
  destruct mode; [left; now apply Hsimple| |];
    (destruct (needs_disable (mode_of_blob b) _);
     [ apply elem_of_cons in Hw; destruct Hw as [->|Hw];
       [ right; eexists _, h, m, t, (bump n), (bump n);
         split; [reflexivity|]; split; [discriminate|];
         split; [apply byte_bump|]; split; [apply byte_bump|]; left; reflexivity
       | destruct (_ <? 256); [|now apply elem_of_nil in Hw];
         apply list_elem_of_singleton in Hw; subst w;
         right; eexists _, h, m, t, (bump (bump n)), (bump n);
         split; [reflexivity|]; split; [discriminate|];
         split; [apply byte_bump|]; split; [apply byte_bump|]; right; reflexivity ]
     | left; destruct (_ <? 256); [|now apply elem_of_nil in Hw];
       now apply Hsimple ]).
Qed.

Lemma planned_frame c n b w :
  is_blob b -> w ∈ planned c n b ->
  is_blob w /\
  forall i, Z.land (at_ w i) (Z.lnot (target_mask c i))
            = Z.land (at_ b i) (Z.lnot (target_mask c i)).
Proof.
  intros Hblob Hw.
  pose proof (planned_valid c n b w Hw) as Hv.
  pose proof (blob_length b Hblob) as Hlen.
  destruct (planned_shape c n b w Hw)
    as [(x & Hx & ->)|(mode & h & m & t & x & y & -> & Hmode & Hx & Hy & [-> | ->])].
  - split; [|now apply edit_frame].
    apply is_blob_insert; [now apply is_blob_edit|assumption].
  - split; [|now apply two_phase_frame].
    apply is_blob_insert; [now apply is_blob_disabled|assumption].
  - split; [|now apply two_phase_frame].
    destruct mode; [congruence| |];
      cbn in Hv; rewrite !andb_true_iff, !Z.leb_le in Hv;
      (apply is_blob_insert; [|assumption]);
      (apply is_blob_enabled; [|lia|lia]);
      (apply is_blob_insert; [now apply is_blob_disabled|assumption]).
Qed.

Lemma mask_zero_same (w b : bytearray) i m :
  length w = length b -> m = 0 ->
  Z.land (at_ w i) (Z.lnot m) = Z.land (at_ b i) (Z.lnot m) ->
  w !! i = b !! i.
Proof.
  intros Hlen -> H. change (Z.lnot 0) with (-1) in H.
  rewrite !Z.land_m1_r in H. unfold at_ in H.
  destruct (w !! i) as [x|] eqn:Ew, (b !! i) as [y|] eqn:Eb; cbn in H.
  - now subst.
  - apply lookup_lt_Some in Ew. apply lookup_ge_None in Eb. lia.
  - apply lookup_lt_Some in Eb. apply lookup_ge_None in Ew. lia.
  - reflexivity.
Qed.

Lemma target_mask_unknown c : target_mask c 5 = 0 /\ target_mask c 7 = 0.
Proof. destruct c as [| | |? ? []| | | | | |]; split; reflexivity. Qed.

(** ** Calls that change no field *)

Lemma py_int_of_Z q z : (q == inject_Z z)%Q -> py_int q = z.
Proof.
  unfold Qeq, py_int. destruct q as [n d]. cbn. intros H.
  rewrite Z.mul_1_r in H. subst n. apply Z.quot_mul. lia.
Qed.

Lemma clamp_temp_id t : (0 <= t <= 100)%Q -> (clamp_temp t == t)%Q.
Proof.
  intros [Hlo Hhi]. unfold clamp_temp, py_max, py_min.
  destruct (Qle_bool 100 t) eqn:E1.
  - apply Qle_bool_iff in E1. cbn. now apply Qle_antisym.
  - destruct (Qle_bool t 0) eqn:E2; [|reflexivity].
    apply Qle_bool_iff in E2. now apply Qle_antisym.
Qed.

Lemma halve_bounds v : 0 <= v <= 200 -> (0 <= halve v <= 100)%Q.
Proof.
  intros Hv. unfold halve, Qle, Qdiv, Qmult, Qinv, inject_Z. cbn. lia.
Qed.

Lemma reencode_temp t v :
  0 <= v <= 200 -> (t == halve v)%Q -> py_int (clamp_temp t * 2) = v.
Proof.
  intros Hv Ht. apply py_int_of_Z.
  assert (Hb : (0 <= t <= 100)%Q) by (rewrite Ht; now apply halve_bounds).
  rewrite (clamp_temp_id t Hb), Ht.
  unfold halve, Qeq, Qdiv, Qmult, Qinv, inject_Z. cbn. lia.
Qed.

Lemma bit_kept_set v m :
  (m = 2 \/ m = 8) -> byte v -> Z.land v m <> 0 -> Z.lor v m = v.
Proof.
  intros Hm Hv Hne.
  assert (H : ((Z.land v m =? 0) || (Z.lor v m =? v)) = true).
  { destruct Hm as [-> | ->];
      [exact (byte_forall (fun v => (Z.land v 2 =? 0) || (Z.lor v 2 =? v)) eq_refl v Hv)
      |exact (byte_forall (fun v => (Z.land v 8 =? 0) || (Z.lor v 8 =? v)) eq_refl v Hv)]. }
  apply orb_true_iff in H. destruct H as [H|H]; [apply Z.eqb_eq in H; lia|].
  now apply Z.eqb_eq.
Qed.

Lemma bit_kept_clear v m :
  (m = 2 \/ m = 8) -> byte v -> Z.land v m = 0 -> Z.land v (Z.lnot m) = v.
Proof.
  intros Hm Hv He.
  assert (H : (negb (Z.land v m =? 0) || (Z.land v (Z.lnot m) =? v)) = true).
  { destruct Hm as [-> | ->];
      [exact (byte_forall
                (fun v => negb (Z.land v 2 =? 0) || (Z.land v (Z.lnot 2) =? v))
                eq_refl v Hv)
      |exact (byte_forall
                (fun v => negb (Z.land v 8 =? 0) || (Z.land v (Z.lnot 8) =? v))
                eq_refl v Hv)]. }
  apply orb_true_iff in H. destruct H as [H|H].
  - apply negb_true_iff, Z.eqb_neq in H. lia.
  - now apply Z.eqb_eq.
Qed.

Lemma byte_testbit_high v n : byte v -> 8 <= n -> Z.testbit v n = false.
Proof.
  intros [H1 H2] Hn.
  destruct (Z.eq_dec v 0) as [->|Hv]; [apply Z.bits_0|].
  apply Z.bits_above_log2; [lia|].
  assert (Z.log2 v < 8) by (apply Z.log2_lt_pow2; lia). lia.
Qed.

(** The altitude bytes decode and re-encode to themselves. *)
Lemma altitude_bytes b2 b3 :
  byte b2 -> byte b3 -> 0x80 <= b3 ->
  let altitude := Z.lor (Z.shiftl (Z.land b3 0x7F) 8) b2 in
  Z.land altitude 0xFF = b2 /\
  0x80 + Z.land (Z.shiftr altitude 8) 0x7F = b3 /\ 0 <= altitude.
Proof.
  intros H2 H3 Hm altitude.
  assert (Hlow : Z.land altitude 0xFF = b2).
  { apply Z.bits_inj'. intros n Hn. unfold altitude.
    change 0xFF with (Z.ones 8).
    rewrite Z.land_spec, Z.lor_spec.
    destruct (Z.ltb_spec n 8).
    - rewrite Z.ones_spec_low by lia.
      rewrite Z.shiftl_spec_low by lia. cbn. now rewrite andb_true_r.
    - rewrite Z.ones_spec_high by lia.
      rewrite andb_false_r. symmetry. now apply byte_testbit_high. }
  assert (Hhigh : Z.shiftr altitude 8 = Z.land b3 0x7F).
  { apply Z.bits_inj'. intros n Hn. unfold altitude.
    rewrite Z.shiftr_spec, Z.lor_spec by lia.
    rewrite Z.shiftl_spec by lia.
    replace (n + 8 - 8) with n by lia.
    rewrite (byte_testbit_high b2 (n + 8)) by (try assumption; lia).
    now rewrite orb_false_r. }
  split; [assumption|]. split.
  - rewrite Hhigh. rewrite <- Z.land_assoc, Z.land_diag.
    assert (H : (0x80 + Z.land b3 0x7F =? b3) || (b3 <? 0x80) = true)
      by exact (byte_forall (fun v => (0x80 + Z.land v 0x7F =? v) || (v <? 0x80))
                  eq_refl b3 H3).
    apply orb_true_iff in H. destruct H as [H|H];
      [now apply Z.eqb_eq|apply Z.ltb_lt in H; lia].
  - unfold altitude. apply Z.lor_nonneg. split; [|apply H2].
    apply Z.shiftl_nonneg, Z.land_nonneg. left. apply H3.
Qed.

Lemma Forall_byte_explicit (l : bytearray) : Forall byte l -> forall i, byte (at_ l i).
Proof. intros H i. now apply at_byte. Qed.

Lemma current_edit_id c k b :
  _state_data k = Some b -> is_blob b -> fields_in_range b ->
  current c k -> valid_args c = true ->
  edit c b = b /\
  match c with
  | SetSchedule mode _ _ _ => needs_disable (mode_of_blob b) mode = false
  | _ => True
  end.
Proof.
  intros Hb [Hlen Hbytes] Hr Hcur Hv.
  pose proof (Forall_byte_explicit b Hbytes) as Hat.
  destruct (blob_explicit b Hlen)
    as (b0&b1&b2&b3&b4&b5&b6&b7&b8&b9&b10&b11&b12&b13&b14&b15&b16&->).
  pose proof (Hat 0%nat) as H0. pose proof (Hat 1%nat) as H1.
  pose proof (Hat 2%nat) as H2. pose proof (Hat 3%nat) as H3.
  pose proof (Hat 4%nat) as H4. pose proof (Hat 6%nat) as H6.
  pose proof (Hat 13%nat) as H13. pose proof (Hat 14%nat) as H14.
  clear Hat. unfold at_ in H0, H1, H2, H3, H4, H6, H13, H14.
  cbn in H0, H1, H2, H3, H4, H6, H13, H14.
  unfold fields_in_range, at_ in Hr. cbn in Hr.
  destruct Hr as (R4 & R6 & R13 & R14 & (R3 & Ralt & Rmod) & Roff).
  destruct c as [t|u|md|h m md|v|e|m|a|l|mode h m t]; cbn in Hcur.
  - unfold get_target_temperature, peek in Hcur. rewrite Hb in Hcur. cbn in Hcur.
    destruct Hcur as (q & [= <-] & Hq). split; [|exact I].
    cbn. rewrite (reencode_temp t b4) by (try assumption; unfold byte in *; lia).
    reflexivity.
  - unfold get_units, peek in Hcur. rewrite Hb in Hcur. cbn in Hcur.
    split; [|exact I].
    destruct (Z.land b1 2 =? 0) eqn:E; destruct u; cbn in Hcur; try discriminate; cbn.
    + apply Z.eqb_eq in E. rewrite bit_kept_clear by auto. reflexivity.
    + apply Z.eqb_neq in E. rewrite bit_kept_set by auto. reflexivity.
  - unfold get_clock_mode, peek_long in Hcur. rewrite Hb in Hcur. cbn in Hcur.
    split; [|exact I].
    destruct (b12 =? 0) eqn:E0; [apply Z.eqb_eq in E0; subst;
                                 destruct md; try discriminate; reflexivity|].
    destruct (b12 =? 1) eqn:E1; [apply Z.eqb_eq in E1; subst;
                                 destruct md; try discriminate; reflexivity|].
    destruct (b12 =? 2) eqn:E2; [apply Z.eqb_eq in E2; subst;
                                 destruct md; try discriminate; reflexivity|].
    destruct md; discriminate.
  - unfold get_clock_time, get_clock_mode, peek_long in Hcur.
    rewrite Hb in Hcur. cbn in Hcur.
    destruct Hcur as [[= <- <-] Hmd]. split; [|exact I].
    destruct md as [md|]; [|reflexivity].
    destruct (b12 =? 0) eqn:E0; [apply Z.eqb_eq in E0; subst;
                                 destruct md; try discriminate; reflexivity|].
    destruct (b12 =? 1) eqn:E1; [apply Z.eqb_eq in E1; subst;
                                 destruct md; try discriminate; reflexivity|].
    destruct (b12 =? 2) eqn:E2; [apply Z.eqb_eq in E2; subst;
                                 destruct md; try discriminate; reflexivity|].
    destruct md; discriminate.
  - unfold get_chime_volume, peek in Hcur. rewrite Hb in Hcur. cbn in Hcur.
    injection Hcur as <-. split; [|exact I].
    cbn. replace (Z.max 0 (Z.min 10 b14)) with b14 by (unfold byte in *; lia).
    reflexivity.
  - unfold get_pre_boil, peek in Hcur. rewrite Hb in Hcur. cbn in Hcur.
    injection Hcur as <-. split; [|exact I].
    destruct (Z.land b1 8 =? 0) eqn:E; cbn.
    + apply Z.eqb_eq in E. rewrite bit_kept_clear by auto. reflexivity.
    + apply Z.eqb_neq in E. rewrite bit_kept_set by auto. reflexivity.
  - unfold get_hold_time, peek in Hcur. rewrite Hb in Hcur. cbn in Hcur.
    injection Hcur as <-. split; [|exact I].
    cbn. replace (Z.max 0 (Z.min 60 b13)) with b13 by (unfold byte in *; lia).
    reflexivity.
  - unfold get_altitude in Hcur. rewrite Hb in Hcur. cbn in Hcur.
    injection Hcur as <-. split; [|exact I].
    destruct (altitude_bytes b2 b3 H2 H3 R3) as (A1 & A2 & A3).
    cbv zeta in A1, A2, A3.
    set (alt := Z.lor (Z.shiftl (Z.land b3 127) 8) b2) in *.
    assert (Hq : quantize alt = alt).
    { rewrite (Z.div_mod alt 30) at 1 2 by lia.
      rewrite Rmod, Z.add_0_r. rewrite quantize_fixed.
      pose proof (Z.div_mod alt 30 ltac:(lia)). lia. }
    cbn. rewrite Hq.
    replace (Z.max 0 (Z.min 3000 alt)) with alt by lia.
    rewrite Hq, A1, A2. reflexivity.
  - unfold get_language, peek_long in Hcur. rewrite Hb in Hcur. cbn in Hcur.
    split; [|exact I]. unfold Language_of, at_ in Hcur. cbn in Hcur.
    repeat match type of Hcur with
           | (if ?x =? ?y then _ else _) = _ =>
               let E := fresh "E" in
               destruct (x =? y) eqn:E;
               [apply Z.eqb_eq in E; subst; injection Hcur as <-; reflexivity|]
           end.
    discriminate.
  - unfold get_schedule in Hcur. rewrite Hb in Hcur. cbn in Hcur.
    unfold mode_of_blob, get_schedule_mode. cbn.
    destruct (Z.land b0 8 =? 0) eqn:E0; cbn in Hcur.
    + destruct Hcur as [Hm _].
      destruct mode; try discriminate. split; [|reflexivity].
      apply Z.eqb_eq in E0. destruct (Roff E0) as (-> & -> & ->).
      cbn. unfold disabled, at_. cbn.
      rewrite bit_kept_clear by auto. reflexivity.
    + destruct (Z.land (Z.shiftr b16 3) 1 =? 1) eqn:E16; cbn in Hcur;
        destruct Hcur as [Hm Hrest]; destruct mode; try discriminate;
        destruct Hrest as ([= <-] & [= <-] & q & [= <-] & Hq);
        (split; [|reflexivity]);
        apply Z.eqb_neq in E0;
        cbn; unfold enabled, at_; cbn;
        rewrite (reencode_temp t b6) by (try assumption; unfold byte in *; lia);
        rewrite bit_kept_set by auto; reflexivity.
Qed.

(** ** Calls on a calm transport *)

Lemma _write_state_calm d k :
  calm k -> (16 < length d)%nat ->
  _write_state d k = (inr tt, committed d k)
  /\ calm (committed d k)
  /\ written (committed d k) = written k ++ [<[16%nat:=next_counter k]> d].
Proof.
  intros Hc Hlen. pose proof (calm_next_write_ok k Hc) as Hok.
  split; [now apply _write_state_ok|].
  split; [now apply calm_committed|].
  apply written_committed. now apply next_write_ok_client.
Qed.

Lemma run_calm c k b :
  _state_data k = Some b -> is_blob b -> calm k ->
  let ws := planned c (_counter k) b in
  exists k', run c k = (outcome c (_counter k) b, k')
             /\ calm k'
             /\ written k' = written k ++ ws
             /\ _counter k' = Nat.iter (length ws) bump (_counter k)
             /\ _state_data k' = Some (default b (last ws)).
Proof.
  intros Hb Hblob Hc ws. subst ws.
  pose proof (blob_length b Hblob) as Hlen.
  unfold planned, outcome.
  destruct (valid_args c) eqn:Hv; cbn [negb andb].
  2:{ exists k. rewrite (run_invalid c k b Hb (blob_nonempty b Hblob) Hv).
      rewrite app_nil_r. auto. }
  destruct (is_schedule_on c) eqn:Hs.
  - destruct c as [| | | | | | | | |mode h m t]; try discriminate.
    destruct mode; [discriminate| |];
      cbn in Hv; rewrite !andb_true_iff, !Z.leb_le in Hv;
      destruct Hv as [[[Hh1 Hh2] Hm1] Hm2]; cbn [run overflows];
      (match goal with
       | |- context [needs_disable _ ?md] =>
           pose proof (set_schedule_on_cases md h m t k b Hb Hblob (calm_quiet k Hc)
                         ltac:(discriminate) ltac:(lia) ltac:(lia)) as Hcs
       end);
      cbv zeta in Hcs;
      (destruct (needs_disable (mode_of_blob b) _);
       [ destruct Hcs as [[Hno _]|[_ E]];
         [ exfalso; apply Hno; now apply calm_next_write_ok |];
         rewrite E;
         assert (Hl0 : (16 < length (disabled b))%nat)
           by (rewrite disabled_length; lia);
         destruct (_write_state_calm (disabled b) k Hc Hl0) as (_ & Hc1 & Hw1);
         destruct (_ <? 256); cbn [negb];
         [ assert (Hl1 : (16 < length (enabled h m t
                               (<[16%nat:=bump (_counter k)]> (disabled b))))%nat)
             by (rewrite enabled_length, length_insert, disabled_length; lia);
           destruct (_write_state_calm _ (committed (disabled b) k) Hc1 Hl1)
             as (E2 & Hc2 & Hw2);
           rewrite E2; eexists; split; [reflexivity|];
           split; [assumption|]; split;
           [ rewrite Hw2, Hw1, <- app_assoc; reflexivity
           | split; reflexivity ]
         | eexists; split; [reflexivity|];
           split; [assumption|]; split; [assumption|split; reflexivity] ]
       | rewrite Hcs;
         destruct (_ <? 256); cbn [negb];
         [ assert (Hl1 : (16 < length (enabled h m t b))%nat)
             by (rewrite enabled_length; lia);
           destruct (_write_state_calm _ k Hc Hl1) as (E2 & Hc2 & Hw2);
           rewrite E2; eexists; split; [reflexivity|];
           split; [assumption|]; split; [assumption|split; reflexivity]
         | exists k; rewrite app_nil_r; auto ] ]).
  - rewrite (run_simple c k b Hb Hblob Hv Hs).
    assert (Hl : (16 < length (edit c b))%nat)
      by (rewrite (blob_length _ (is_blob_edit c b Hblob Hv)); lia).
    destruct (_write_state_calm _ k Hc Hl) as (E & Hc' & Hw).
    rewrite E.
    assert (Ho : overflows c (_counter k) b = false)
      by (destruct c as [| | | | | | | | |[] ? ? ?]; try reflexivity; discriminate).
    rewrite Ho. cbn [negb].
    exists (committed (edit c b) k). split; [reflexivity|]. split; [assumption|].
    destruct c as [| | | | | | | | |[] ? ? ?]; try discriminate;
      (split; [assumption|split; reflexivity]).
Qed.

(** ** Counters *)

Lemma bump_mod n : bump n = (n + 1) mod 256.
Proof. unfold bump. apply land_mask_mod. Qed.

Lemma iter_bump j n :
  Nat.iter (S j) bump n = (n + Z.of_nat (S j)) mod 256.
Proof.
  induction j as [|j IH].
  - cbn [Nat.iter]. apply bump_mod.
  - change (Nat.iter (S (S j)) bump n) with (bump (Nat.iter (S j) bump n)).
    rewrite IH, bump_mod, Z.add_mod_idemp_l by lia.
    f_equal. lia.
Qed.

Lemma edit_length c b : length (edit c b) = length b.
Proof.
  destruct c as [t|[]|md|h m [md|]|v|[]|m|a|l|[] h m t]; cbn;
    unfold disabled, enabled; now rewrite ?length_insert.
Qed.

Lemma planned_stamped c n b : is_blob b -> stamped n (planned c n b).
Proof.
  intros Hblob j w. pose proof (blob_length b Hblob) as Hlen.
  assert (Hone : forall d, length d = length b ->
                 [<[16%nat:=bump n]> d] !! j = Some w ->
                 at_ w 16 = Nat.iter (S j) bump n).
  { intros d Hd H. destruct j as [|j]; [|destruct j; discriminate].
    injection H as <-. rewrite at_16_stamped by lia. reflexivity. }
  unfold planned. destruct (valid_args c); cbn [negb]; [|discriminate].
  destruct c as [t|u|md|h m md|v|e|m|a|l|mode h m t];
    try (apply Hone; apply edit_length).
  destruct mode; [apply Hone, disabled_length| |];
    (destruct (needs_disable (mode_of_blob b) _);
     [ destruct j as [|j];
       [ intros [= <-]; rewrite at_16_stamped by (rewrite disabled_length; lia);
         reflexivity
       | destruct (_ <? 256); [|discriminate];
         destruct j as [|j]; [|destruct j; discriminate];
         intros [= <-];
         rewrite at_16_stamped
           by (rewrite enabled_length, length_insert, disabled_length; lia);
         reflexivity ]
     | destruct (_ <? 256); [|discriminate];
       apply Hone, enabled_length ]).
Qed.

Lemma stamped_app n ws1 ws2 :
  stamped n ws1 -> stamped (Nat.iter (length ws1) bump n) ws2 ->
  stamped n (ws1 ++ ws2).
Proof.
  intros H1 H2 j w Hj.
  apply lookup_app_Some in Hj. destruct Hj as [Hj|[Hge Hj]].
  - now apply H1.
  - rewrite (H2 _ _ Hj).
    replace (S j) with (S (j - length ws1) + length ws1)%nat by lia.
    now rewrite Nat.iter_add.
Qed.

Lemma planned_last_blob c n b :
  is_blob b -> is_blob (default b (last (planned c n b))).
Proof.
  intros Hblob. destruct (last (planned c n b)) as [w|] eqn:E; [|assumption].
  cbn. apply (planned_frame c n b w Hblob).
  apply list_elem_of_lookup. rewrite last_lookup in E. eauto.
Qed.

(** Any sequence of calls on a calm transport: the payloads written carry
    consecutive counters and the controller's counter follows. *)
Lemma run_all_calm cs : forall k b,
  _state_data k = Some b -> is_blob b -> calm k ->
  exists ws, written (run_all cs k) = written k ++ ws
             /\ stamped (_counter k) ws
             /\ _counter (run_all cs k) = Nat.iter (length ws) bump (_counter k).
Proof.
  induction cs as [|c cs IH]; intros k b Hb Hblob Hc.
  - exists []. cbn. rewrite app_nil_r. repeat split. intros j w H. discriminate.
  - destruct (run_calm c k b Hb Hblob Hc) as (k' & E & Hc' & Hw & Hn & Hs).
    cbv zeta in *. cbn [run_all]. rewrite E. cbn [snd].
    destruct (IH k' _ Hs (planned_last_blob c _ b Hblob) Hc') as (ws & Hw2 & Hst & Hn2).
    exists (planned c (_counter k) b ++ ws).
    split; [now rewrite Hw2, Hw, app_assoc|]. split.
    + apply stamped_app; [now apply planned_stamped|]. now rewrite <- Hn.
    + now rewrite Hn2, Hn, length_app, Nat.add_comm, Nat.iter_add.
Qed.

(** ** Schedule payloads *)

Lemma byte_bit3_cleared v : byte v -> Z.testbit (Z.land v (Z.lnot 0x08)) 3 = false.
Proof.
  intros _. rewrite Z.land_spec, Z.lnot_spec by lia.
  change (Z.testbit 8 3) with true. apply andb_false_r.
Qed.

Lemma daily_never_overflows v : byte v -> (mode_byte DAILY v <? 256) = true.
Proof.
  intros Hv. unfold mode_byte.
  exact (byte_forall (fun v => Z.land v (Z.lnot 8) + 1 <? 256) eq_refl v Hv).
Qed.

(** ** Altitude *)

Lemma lor_marker x : Z.lor 0x80 (Z.land x 0x7F) = 0x80 + Z.land x 0x7F.
Proof.
  assert (Hb : byte (Z.land x 0x7F)).
  { change 0x7F with (Z.ones 7). rewrite Z.land_ones by lia.
    pose proof (Z.mod_pos_bound x (2 ^ 7) ltac:(lia)).
    change (2 ^ 7) with 128 in *. unfold byte. lia. }
  rewrite <- (Z.land_diag 0x7F), Z.land_assoc.
  set (y := Z.land x 127) in *.
  pose proof (byte_forall
                (fun y => Z.lor 128 (Z.land y 127) =? 128 + Z.land y 127)
                eq_refl y Hb) as H.
  now apply Z.eqb_eq.
Qed.

Lemma quantize_multiple a : quantize a mod 30 = 0.
Proof.
  destruct (quantize_spec a) as (q & -> & _).
  rewrite Z.mul_comm. apply Z.mod_mul. lia.
Qed.

(** Decoding the two altitude bytes of a quantized altitude gives it back. *)
Lemma altitude_decodes v :
  0 <= v <= 3000 ->
  Z.lor (Z.shiftl (Z.land (0x80 + Z.land (Z.shiftr v 8) 0x7F) 0x7F) 8)
        (Z.land v 0xFF) = v.
Proof.
  intros Hv.
  pose proof (forallb_forall
                (fun v => Z.lor (Z.shiftl (Z.land (0x80 + Z.land (Z.shiftr v 8) 0x7F)
                                              0x7F) 8) (Z.land v 0xFF) =? v)
                (map Z.of_nat (seq 0 3001))) as [H _].
  specialize (H ltac:(vm_compute; reflexivity) v).
  apply Z.eqb_eq, H. apply in_map_iff. exists (Z.to_nat v).
  split; [lia|]. apply in_seq. lia.
Qed.

(** ** Validation *)

Lemma refresh_state_written k :
  written (snd (refresh_state k)) = written k
  /\ (forall k', refresh_state k = (inr tt, k') -> truthy (_state_data k') = true).
Proof.
  destruct k as [[c|] sd n]; [|split; [reflexivity|discriminate]].
  destruct c as [conn rd fl wr nt].
  unfold refresh_state, bind, require_connected, read_gatt_char, this, put, eval.
  cbn.
  destruct conn; [|split; [reflexivity|discriminate]].
  destruct rd as [|[d|] rd]; cbn; try (split; [reflexivity|discriminate]).
  unfold getitem.
  destruct (d !! 16%nat) as [v|] eqn:E; cbn; [|split; [reflexivity|discriminate]].
  split; [reflexivity|].
  intros k' [= <-]. cbn. destruct d; [discriminate|reflexivity].
Qed.

Lemma ensure_state_written k :
  written (snd (ensure_state k)) = written k
  /\ (forall k', ensure_state k = (inr tt, k') -> truthy (_state_data k') = true)
  /\ (forall e k', ensure_state k = (inl e, k') -> True).
Proof.
  unfold ensure_state, bind, this.
  destruct (truthy (_state_data k)) eqn:E.
  - split; [reflexivity|]. split; [|auto]. intros k' [= <-]. assumption.
  - destruct (refresh_state_written k) as [H1 H2]. split; [assumption|].
    split; [assumption|auto].
Qed.

Lemma ensure_state_fallthrough k :
  truthy (_state_data k) = true -> ensure_state k = (inr tt, k).
Proof. intros H. unfold ensure_state, bind, this. now rewrite H. Qed.

Lemma bad_time_checks h m :
  bad_time h m ->
  negb ((0 <=? h) && (h <=? 23)) = true
  \/ (negb ((0 <=? h) && (h <=? 23)) = false
      /\ negb ((0 <=? m) && (m <=? 59)) = true).
Proof.
  unfold bad_time. intros H.
  destruct ((0 <=? h) && (h <=? 23)) eqn:Eh; [|left; reflexivity].
  right. split; [reflexivity|].
  destruct ((0 <=? m) && (m <=? 59)) eqn:Em; [|reflexivity].
  rewrite !andb_true_iff, !Z.leb_le in Eh, Em. lia.
Qed.

Lemma invalid_raises c k :
  valid_args c = false ->
  (exists e, fst (run c k) = inl e)
  /\ written (snd (run c k)) = written k
  /\ (truthy (_state_data k) = true -> run c k = (inl ValueError, k)).
Proof.
  intros Hv.
  assert (Hcached : truthy (_state_data k) = true -> run c k = (inl ValueError, k)).
  { intros Ht. destruct (_state_data k) as [[|x d]|] eqn:Hb; try discriminate.
    now apply (run_invalid c k (x :: d) Hb). }
  destruct (ensure_state_written k) as (Hw & Hok & _).
  assert (Hgen : forall (rest : coro unit),
             (forall k1, truthy (_state_data k1) = true ->
                         rest k1 = (inl ValueError, k1)) ->
             (exists e, fst (bind ensure_state (fun _ => rest) k) = inl e)
             /\ written (snd (bind ensure_state (fun _ => rest) k)) = written k).
  { intros rest Hrest. unfold bind.
    destruct (ensure_state k) as [[e|[]] k1] eqn:E; cbn in Hw.
    - split; [eexists; reflexivity|assumption].
    - rewrite (Hrest k1 (Hok k1 eq_refl)). split; [eexists; reflexivity|assumption]. }
  assert (Hrun : exists rest : coro unit,
             run c k = bind ensure_state (fun _ => rest) k
             /\ forall k1, truthy (_state_data k1) = true ->
                           rest k1 = (inl ValueError, k1)).
  { destruct c as [t|u|md|h m md|v|e|m|a|l|mode h m t]; cbn in Hv; try discriminate.
    - eexists. split; [reflexivity|]. intros k1 _. unfold raise.
      destruct ((0 <=? h) && (h <=? 23)); cbn in *; [|reflexivity].
      rewrite Hv. reflexivity.
    - destruct mode; try discriminate;
        (eexists; split; [reflexivity|]; intros k1 _; unfold raise;
         destruct ((0 <=? h) && (h <=? 23)); cbn in *; [|reflexivity];
         rewrite Hv; reflexivity). }
  destruct Hrun as (rest & -> & Hrest).
  destruct (Hgen rest Hrest) as [H1 H2].
  split; [assumption|]. split; [assumption|].
  intros Ht. specialize (Hcached Ht).
  destruct c as [t|u|md|h m md|v|e|m|a|l|mode h m t]; cbn in Hv; try discriminate.
  - unfold bind. rewrite (ensure_state_fallthrough k Ht).
    apply Hrest. assumption.
  - unfold bind. rewrite (ensure_state_fallthrough k Ht).
    apply Hrest. assumption.
Qed.

(** ** Schedule writes *)

(** The fields of the enable payload, whatever byte 16 becomes. *)
Lemma enabled_fields h m t (b : bytearray) x :
  is_blob b ->
  let w := <[16%nat:=x]> (enabled h m t b) in
  Z.testbit (at_ w 0) 3 = true
  /\ at_ w 6 = py_int (clamp_temp t * 2) /\ at_ w 8 = m /\ at_ w 9 = h
  /\ at_ w 16 = x.
Proof.
  intros [Hlen _].
  destruct (blob_explicit b Hlen)
    as (b0&b1&b2&b3&b4&b5&b6&b7&b8&b9&b10&b11&b12&b13&b14&b15&b16&->).
  cbn. unfold at_. cbn.
  split; [|repeat split].
  rewrite Z.lor_spec. change (Z.testbit 8 3) with true. apply orb_true_r.
Qed.

(** The fields of the OFF payload. *)
Lemma disabled_fields (b : bytearray) x :
  is_blob b ->
  let w := <[16%nat:=x]> (disabled b) in
  Z.testbit (at_ w 0) 3 = false
  /\ at_ w 6 = 0xc0 /\ at_ w 8 = 0 /\ at_ w 9 = 0 /\ at_ w 16 = x.
Proof.
  intros [Hlen Hb].
  pose proof (at_byte b 0 Hb) as H0.
  destruct (blob_explicit b Hlen)
    as (b0&b1&b2&b3&b4&b5&b6&b7&b8&b9&b10&b11&b12&b13&b14&b15&b16&->).
  cbn. unfold at_ in *. cbn in *.
  split; [|repeat split].
  now apply byte_bit3_cleared.
Qed.

(** On a calm transport, a ONCE or DAILY [set_schedule] with a valid time
    that does not hit the byte-16 overflow issues two writes when the
    current mode is the other non-OFF mode, the OFF encoding and then the
    enable payload built on it, and one write otherwise. *)
Lemma set_schedule_writes mode h m t k b :
  _state_data k = Some b -> is_blob b -> calm k -> mode <> OFF ->
  0 <= h <= 23 -> 0 <= m <= 59 ->
  overflows (SetSchedule mode h m t) (_counter k) b = false ->
  let n := _counter k in
  fst (set_schedule mode h m t k) = inr tt
  /\ writes_of (set_schedule mode h m t) k =
     if needs_disable (get_schedule_mode k) mode
     then [<[16%nat:=bump n]> (disabled b);
           <[16%nat:=bump (bump n)]>
             (enabled h m t (<[16%nat:=bump n]> (disabled b)))]
     else [<[16%nat:=bump n]> (enabled h m t b)].
Proof.
  intros Hb Hblob Hc Hmode Hh Hm Ho n. subst n.
  destruct (run_calm (SetSchedule mode h m t) k b Hb Hblob Hc)
    as (k' & E & _ & Hw & _ & _).
  cbv zeta in *. cbn [run] in E.
  assert (Hv : valid_args (SetSchedule mode h m t) = true).
  { cbn. destruct mode; [congruence| |];
      rewrite !andb_true_iff, !Z.leb_le; lia. }
  unfold outcome in E. rewrite Hv, Ho in E. cbn [andb negb] in E.
  split; [now rewrite E|].
  rewrite (writes_of_app _ k _ ltac:(rewrite E; exact Hw)).
  rewrite (get_schedule_mode_cached k b Hb).
  unfold planned. rewrite Hv. cbn [negb].
  cbn [overflows] in Ho.
  destruct mode; [congruence| |];
    destruct (needs_disable (mode_of_blob b) _);
    apply negb_false_iff in Ho; rewrite Ho; reflexivity.
Qed.

(** ** Smart turn-on *)

(** The trigger time is the clock time plus one minute, within the day. *)
Lemma trigger_time_next_minute h m :
  0 <= h <= 23 -> 0 <= m <= 59 ->
  let '(th, tm) := trigger_time h m in
  0 <= th <= 23 /\ 0 <= tm <= 59
  /\ 60 * th + tm = (60 * h + m + 1) mod 1440.
Proof.
  intros Hh Hm. unfold trigger_time.
  destruct (Z.leb_spec 60 (m + 1)).
  - destruct (Z.leb_spec 24 (h + 1)).
    + assert (h = 23) by lia. assert (m = 59) by lia. subst.
      change ((60 * 23 + 59 + 1) mod 1440) with 0. lia.
    + split; [lia|]. split; [lia|].
      rewrite Z.mod_small by lia. lia.
  - destruct (Z.leb_spec 24 h); [lia|].
    split; [lia|]. split; [lia|].
    rewrite Z.mod_small by lia. lia.
Qed.

Lemma trigger_time_valid h m :
  byte h -> byte m ->
  0 <= fst (trigger_time h m) <= 23 /\ 0 <= snd (trigger_time h m) <= 59.
Proof.
  intros Hh Hm. unfold trigger_time, byte in *.
  destruct (Z.leb_spec 60 (m + 1));
    [destruct (Z.leb_spec 24 (h + 1))|destruct (Z.leb_spec 24 h)]; cbn; lia.
Qed.

(** [turn_on_smart] on a cached blob: a ONCE schedule at the trigger time,
    at the temperature given when it is not zero and at the current target
    otherwise, then the pause, then the restore of the backup. *)
Lemma turn_on_smart_steps temp k b :
  _state_data k = Some b -> is_blob b ->
  turn_on_smart temp k =
  bind (set_schedule ONCE (fst (trigger_time (at_ b 11) (at_ b 10)))
          (snd (trigger_time (at_ b 11) (at_ b 10)))
          (match temp_given temp with
           | Some t => t
           | None => halve (at_ b 4)
           end))
       (fun _ => bind asyncio_sleep (fun _ => restore_schedule (get_schedule k))) k.
Proof.
  intros Hb Hblob. pose proof (blob_length b Hblob) as Hlen.
  unfold turn_on_smart.
  rewrite (bind_ok ensure_state _ k tt k
             (ensure_state_cached k b Hb (blob_nonempty b Hblob))).
  unfold bind at 1, this at 1.
  rewrite (bind_ok copy_state _ k b k (copy_state_cached k b Hb)).
  unfold bind at 1, eval at 1. rewrite getitem_ok by lia.
  unfold bind at 1, eval at 1. rewrite getitem_ok by lia.
  destruct (trigger_time (at_ b 11) (at_ b 10)) as [th tm]. cbn [fst snd].
  destruct (temp_given temp) as [t|].
  - reflexivity.
  - unfold bind at 1. unfold bind at 1, eval at 1.
    rewrite getitem_ok by lia. reflexivity.
Qed.

(** The backup of an enabled schedule is restored with the hour and the
    minute of the blob, its temperature byte halved, and DAILY or ONCE as
    bit 3 of byte 16 reads; the backup of a disabled one with OFF. *)
Lemma restore_schedule_call k b :
  _state_data k = Some b -> is_blob b ->
  restore_schedule (get_schedule k) =
  match mode_of_blob b with
  | Some "off"%string => set_schedule OFF 0 0 85
  | Some "daily"%string => set_schedule DAILY (at_ b 9) (at_ b 8) (halve (at_ b 6))
  | _ => set_schedule ONCE (at_ b 9) (at_ b 8) (halve (at_ b 6))
  end.
Proof.
  intros Hb [Hlen _].
  destruct (blob_explicit b Hlen)
    as (b0&b1&b2&b3&b4&b5&b6&b7&b8&b9&b10&b11&b12&b13&b14&b15&b16&->).
  unfold restore_schedule, get_schedule, mode_of_blob, get_schedule_mode.
  rewrite Hb. cbn.
  destruct (Z.land b0 8 =? 0); [reflexivity|].
  destruct (Z.land (Z.shiftr b16 3) 1 =? 1); reflexivity.
Qed.

(** * The claims *)

(** C1. Every payload a setter writes is the previously cached 17-byte blob
    with only the targeted bits and bytes altered: outside the mask of the
    call (and the write counter in byte 16) every bit is the cached one, a
    byte the call does not target is copied, the unknown bytes 5 and 7 in
    particular; and a call that changes no field (its arguments are what
    the getters report, on a blob whose fields are in range) writes the
    cached bytes again, byte 16 apart. *)
Theorem setter_write_alters_only_its_target
  (c : call) (k : StaggEKGPro_Config) (b w : bytearray) :
  _state_data k = Some b -> is_blob b -> quiet k ->
  w ∈ writes_of (run c) k ->
  is_blob w
  /\ (forall i, Z.land (at_ w i) (Z.lnot (target_mask c i))
                = Z.land (at_ b i) (Z.lnot (target_mask c i)))
  /\ (forall i, target_mask c i = 0 -> w !! i = b !! i)
  /\ w !! 5%nat = b !! 5%nat /\ w !! 7%nat = b !! 7%nat
  /\ (fields_in_range b -> current c k -> w = <[16%nat:=next_counter k]> b).
Proof.
  intros Hb Hblob Hq Hw.
  pose proof (writes_planned c k b Hb Hblob Hq) as Hpre.
  pose proof (elem_of_prefix _ _ _ Hw Hpre) as Hin.
  destruct (planned_frame c _ b w Hblob Hin) as [Hwb Hframe].
  assert (Hlen : length w = length b)
    by (rewrite (blob_length _ Hwb), (blob_length _ Hblob); reflexivity).
  assert (Hcopy : forall i, target_mask c i = 0 -> w !! i = b !! i)
    by (intros i Hi; apply (mask_zero_same w b i _ Hlen Hi), Hframe).
  split; [assumption|]. split; [assumption|]. split; [assumption|].
  split; [apply Hcopy, target_mask_unknown|].
  split; [apply Hcopy, target_mask_unknown|].
  intros Hr Hcur.
  pose proof (planned_valid c _ b w Hin) as Hv.
  destruct (current_edit_id c k b Hb Hblob Hr Hcur Hv) as [Hid Hnd].
  unfold planned in Hin. rewrite Hv in Hin. cbn [negb] in Hin.
  unfold next_counter.
  destruct c as [t|u|md|h m md|v|e|m|a|l|mode h m t];
    try (apply list_elem_of_singleton in Hin; rewrite Hin, Hid; reflexivity).
  destruct mode.
  - apply list_elem_of_singleton in Hin. rewrite Hin.
    cbn in Hid. now rewrite Hid.
  - rewrite Hnd in Hin. cbn in Hid. rewrite Hid in Hin.
    destruct (_ <? 256); [|now apply elem_of_nil in Hin].
    now apply list_elem_of_singleton in Hin.
  - rewrite Hnd in Hin. cbn in Hid. rewrite Hid in Hin.
    destruct (_ <? 256); [|now apply elem_of_nil in Hin].
    now apply list_elem_of_singleton in Hin.
Qed.

(** The enable write of a DAILY to ONCE mode change, from the sample blob. *)
Lemma setter_write_alters_only_its_target_witness :
  let c := SetSchedule ONCE 7 31 85 in
  let k := fresh sample_blob in
  let w := [8; 10; 90; 128; 170; 17; 170; 34; 31; 7; 30; 12; 1; 15; 5; 0; 8] in
  w ∈ writes_of (run c) k
  /\ is_blob w
  /\ (forall i, Z.land (at_ w i) (Z.lnot (target_mask c i))
                = Z.land (at_ sample_blob i) (Z.lnot (target_mask c i)))
  /\ (forall i, target_mask c i = 0 -> w !! i = sample_blob !! i)
  /\ w !! 5%nat = sample_blob !! 5%nat /\ w !! 7%nat = sample_blob !! 7%nat
  /\ (fields_in_range sample_blob -> current c k ->
      w = <[16%nat:=next_counter k]> sample_blob).
Proof.
  intros c k w.
  assert (Hw : w ∈ writes_of (run c) k)
    by (vm_compute; apply elem_of_cons; right; apply elem_of_cons; left; reflexivity).
  split; [exact Hw|].
  apply (setter_write_alters_only_its_target c k sample_blob w).
  - reflexivity.
  - split; [reflexivity|]. repeat constructor; unfold byte; lia.
  - reflexivity.
  - exact Hw.
Defined.

(** C2 at a failing input.  The schedule is off and the counter is 6:
    [set_schedule(ONCE, 7, 0, 85)] writes one payload with bit 3 of byte 0
    set, byte 6 at 170, byte 8 at 0 and byte 9 at 7, but byte 16 is the
    bare counter 7, bit 3 clear although the mode is ONCE; with the counter
    at 7, DAILY writes byte 16 as 8, bit 3 set. *)
Lemma schedule_mode_bit_is_the_counter_bit :
  let k := fresh sample_off in
  let w := [8; 10; 90; 128; 170; 17; 170; 34; 0; 7; 30; 12; 1; 15; 5; 0; 7] in
  let k7 := fresh (<[16%nat:=7]> sample_off) in
  let w7 := [8; 10; 90; 128; 170; 17; 170; 34; 0; 7; 30; 12; 1; 15; 5; 0; 8] in
  fst (set_schedule ONCE 7 0 85 k) = inr tt
  /\ writes_of (set_schedule ONCE 7 0 85) k = [w]
  /\ Z.testbit (at_ w 0) 3 = true
  /\ at_ w 6 = 85 * 2 /\ at_ w 8 = 0 /\ at_ w 9 = 7
  /\ Z.testbit (at_ w 16) 3 = false
  /\ fst (set_schedule DAILY 7 0 85 k7) = inr tt
  /\ writes_of (set_schedule DAILY 7 0 85) k7 = [w7]
  /\ Z.testbit (at_ w7 16) 3 = true.
Proof. repeat split; reflexivity. Qed.

(** C3. N consecutive successful physical writes advance the revision
    counter in byte 16 by exactly N mod 256: over any sequence of setter
    calls on a transport where no write fails, the j-th payload written
    carries the starting counter plus j (counting from 1) mod 256, the
    controller's counter ends at the starting counter plus the number of
    writes mod 256, and the two writes of a two-phase schedule mode change
    carry the counter plus one and plus two. *)
Theorem consecutive_writes_advance_counter
  (cs : list call) (k : StaggEKGPro_Config) (b : bytearray) :
  _state_data k = Some b -> is_blob b -> calm k ->
  let n := _counter k in
  let k' := run_all cs k in
  let ws := drop (length (written k)) (written k') in
  written k' = written k ++ ws
  /\ (forall j w, ws !! j = Some w ->
                  at_ w 16 = (n + Z.of_nat (S j)) mod 256)
  /\ (ws <> [] -> _counter k' = (n + Z.of_nat (length ws)) mod 256)
  /\ (forall mode h m t,
        mode <> OFF ->
        needs_disable (get_schedule_mode k) mode = true ->
        fst (set_schedule mode h m t k) = inr tt ->
        exists w1 w2,
          set_schedule mode h m t k
          = (inr tt, committed (enabled h m t w1) (committed (disabled b) k))
          /\ writes_of (set_schedule mode h m t) k = [w1; w2]
          /\ at_ w1 16 = (n + 1) mod 256 /\ at_ w2 16 = (n + 2) mod 256).
Proof.
  intros Hb Hblob Hc n k' ws.
  destruct (run_all_calm cs k b Hb Hblob Hc) as (ws' & Hw & Hst & Hn).
  assert (Hws : ws = ws') by (unfold ws, k'; rewrite Hw; apply drop_app_length).
  rewrite Hws. split; [assumption|]. split; [|split].
  - intros j w Hj. rewrite (Hst j w Hj). apply iter_bump.
  - intros Hne. unfold k'. rewrite Hn.
    destruct ws' as [|w0 ws0]; [congruence|]. apply iter_bump.
  - intros mode h m t Hmode Hnd Hfst.
    rewrite (get_schedule_mode_cached k b Hb) in Hnd.
    destruct (run_calm (SetSchedule mode h m t) k b Hb Hblob Hc)
      as (k1 & E & _ & Hw1 & _ & _).
    cbv zeta in *. fold n in E, Hw1.
    assert (Hout : outcome (SetSchedule mode h m t) n b = inr tt)
      by (cbn [run] in E; rewrite E in Hfst; exact Hfst).
    rewrite Hout in E.
    unfold outcome in Hout.
    destruct (valid_args (SetSchedule mode h m t)) eqn:Hv; [|discriminate].
    cbn [andb] in Hout.
    destruct (overflows (SetSchedule mode h m t) n b) eqn:Ho; [discriminate|].
    pose proof (blob_length b Hblob) as Hlen.
    unfold planned in Hw1. rewrite Hv in Hw1. cbn [negb] in Hw1.
    cbn [overflows] in Ho.
    exists (<[16%nat:=bump n]> (disabled b)),
           (<[16%nat:=bump (bump n)]>
              (enabled h m t (<[16%nat:=bump n]> (disabled b)))).
    assert (Hpl : written k1 = written k ++
                  [<[16%nat:=bump n]> (disabled b);
                   <[16%nat:=bump (bump n)]>
                     (enabled h m t (<[16%nat:=bump n]> (disabled b)))]).
    { destruct mode; [congruence| |]; rewrite Hnd in Hw1, Ho;
        apply negb_false_iff in Ho; rewrite Ho in Hw1; exact Hw1. }
    assert (Hk1 : k1 = committed (enabled h m t (<[16%nat:=bump n]> (disabled b)))
                         (committed (disabled b) k)).
    { cbn in Hv.
      assert (Hhm : 0 <= h <= 23 /\ 0 <= m <= 59)
        by (destruct mode; [congruence| |];
            rewrite !andb_true_iff, !Z.leb_le in Hv; lia).
      pose proof (set_schedule_on_cases mode h m t k b Hb Hblob (calm_quiet k Hc)
                    Hmode ltac:(tauto) ltac:(tauto)) as Hcs.
      cbv zeta in Hcs. rewrite Hnd in Hcs.
      destruct Hcs as [[Hno _]|[_ E2]];
        [exfalso; apply Hno; now apply calm_next_write_ok|].
      fold n in E2.
      assert (Hov : (mode_byte mode (bump n) <? 256) = true)
        by (destruct mode; [congruence| |]; rewrite Hnd in Ho;
            now apply negb_false_iff in Ho).
      rewrite Hov in E2.
      rewrite _write_state_ok in E2
        by (try (apply calm_next_write_ok, calm_committed, Hc);
            rewrite enabled_length, length_insert, disabled_length; lia).
      cbn [run] in E. rewrite E2 in E. now injection E as <-. }
    split; [cbn [run] in E; rewrite E, Hk1; reflexivity|].
    split; [apply writes_of_app; cbn [run] in E; rewrite E; exact Hpl|].
    split.
    + rewrite at_16_stamped by (rewrite disabled_length; lia). apply bump_mod.
    + rewrite at_16_stamped
        by (rewrite enabled_length, length_insert, disabled_length; lia).
      rewrite !bump_mod, Z.add_mod_idemp_l by lia. f_equal. lia.
Qed.

(** Three calls, the second a two-phase mode change: four writes, counters
    7 to 10. *)
Lemma consecutive_writes_advance_counter_witness :
  let cs := [SetTargetTemperature 90; SetSchedule ONCE 7 31 85; SetAltitude 100] in
  let k := fresh sample_blob in
  let k' := run_all cs k in
  let ws := drop (length (written k)) (written k') in
  length ws = 4%nat
  /\ written k' = written k ++ ws
  /\ (forall j w, ws !! j = Some w ->
                  at_ w 16 = (6 + Z.of_nat (S j)) mod 256)
  /\ (ws <> [] -> _counter k' = (6 + Z.of_nat (length ws)) mod 256)
  /\ (forall mode h m t,
        mode <> OFF ->
        needs_disable (get_schedule_mode k) mode = true ->
        fst (set_schedule mode h m t k) = inr tt ->
        exists w1 w2,
          set_schedule mode h m t k
          = (inr tt, committed (enabled h m t w1) (committed (disabled sample_blob) k))
          /\ writes_of (set_schedule mode h m t) k = [w1; w2]
          /\ at_ w1 16 = (6 + 1) mod 256 /\ at_ w2 16 = (6 + 2) mod 256).
Proof.
  intros cs k k' ws. split; [reflexivity|].
  apply (consecutive_writes_advance_counter cs k sample_blob).
  - reflexivity.
  - split; [reflexivity|]. repeat constructor; unfold byte; lia.
  - repeat split; reflexivity.
Defined.

(** C4 at a failing input.  The schedule is DAILY and the counter is 0xF6:
    [set_schedule(ONCE, 7, 0, 85)] writes the OFF encoding, then raises
    [ValueError] on [new_data[16] = (0xF7 | 0x08) + 1] before the enable
    write: one physical write, not two, and the schedule is left off.
    With the schedule ONCE and the counter at 0xFF the same call writes
    nothing at all. *)
Lemma mode_change_stops_after_the_disable_write :
  let k := fresh (<[16%nat:=0xF6]> sample_blob) in
  let kff := fresh (<[16%nat:=0xFF]> sample_blob) in
  get_schedule_mode k = Some "daily"%string
  /\ fst (set_schedule ONCE 7 0 85 k) = inl ValueError
  /\ writes_of (set_schedule ONCE 7 0 85) k
     = [[0; 10; 90; 128; 170; 17; 192; 34; 0; 0; 30; 12; 1; 15; 5; 0; 0xF7]]
  /\ length (writes_of (set_schedule ONCE 7 0 85) k) = 1%nat
  /\ get_schedule_mode (snd (set_schedule ONCE 7 0 85 k)) = Some "off"%string
  /\ get_schedule_mode kff = Some "once"%string
  /\ fst (set_schedule ONCE 7 0 85 kff) = inl ValueError
  /\ length (writes_of (set_schedule ONCE 7 0 85) kff) = 0%nat.
Proof. repeat split; reflexivity. Qed.

(** C5 at a failing input.  The schedule is DAILY at 07:00 and 85 degrees,
    the counter is 6: [turn_on_smart()] completes without error with four
    writes, the last one re-enabling 07:00 at 85 degrees, but its byte 16
    is the bare counter 10, so the schedule that [get_schedule] then reads
    is ONCE, not the DAILY that was backed up. *)
Lemma turn_on_smart_restores_another_mode :
  let k := fresh sample_blob in
  let k' := snd (turn_on_smart None k) in
  fst (turn_on_smart None k) = inr tt
  /\ get_schedule k
     = mkSchedule (Some "daily"%string) (Some true) (Some (halve 170)) (Some 7) (Some 0)
  /\ get_schedule k'
     = mkSchedule (Some "once"%string) (Some true) (Some (halve 170)) (Some 7) (Some 0)
  /\ writes_of (turn_on_smart None) k
     = [[0; 10; 90; 128; 170; 17; 192; 34; 0; 0; 30; 12; 1; 15; 5; 0; 7];
        [8; 10; 90; 128; 170; 17; 170; 34; 31; 12; 30; 12; 1; 15; 5; 0; 8];
        [0; 10; 90; 128; 170; 17; 192; 34; 0; 0; 30; 12; 1; 15; 5; 0; 9];
        [8; 10; 90; 128; 170; 17; 170; 34; 0; 7; 30; 12; 1; 15; 5; 0; 10]].
Proof. repeat split; reflexivity. Qed.

(** C6 at a failing input.  The caller supplies 0 degrees; the target
    temperature is 85: the trigger write carries 170 in byte 6, the current
    target doubled, and not the caller's 0. *)
Lemma turn_on_smart_drops_a_zero_temperature :
  let k := fresh sample_off in
  let trigger := [8; 10; 90; 128; 170; 17; 170; 34; 31; 12; 30; 12; 1; 15; 5; 0; 7] in
  let restore := [0; 10; 90; 128; 170; 17; 192; 34; 0; 0; 30; 12; 1; 15; 5; 0; 8] in
  fst (turn_on_smart (Some 0%Q) k) = inr tt
  /\ writes_of (turn_on_smart (Some 0%Q)) k = [trigger; restore]
  /\ at_ trigger 6 = at_ sample_off 4
  /\ at_ trigger 6 <> py_int (0 * 2)
  /\ writes_of (turn_on_smart None) k = [trigger; restore]
  /\ writes_of (set_schedule ONCE 12 31 0) k
     = [[8; 10; 90; 128; 170; 17; 0; 34; 31; 12; 30; 12; 1; 15; 5; 0; 7]].
Proof. repeat split; try reflexivity. vm_compute. discriminate. Qed.

(** C7. Whatever blob is cached, and so whatever the prior schedule mode,
    [set_schedule(OFF)] issues a single physical write, whose payload has
    bit 3 of byte 0 cleared, byte 6 at 0xC0 and bytes 8 and 9 at 0; the
    schedule then reads as off. *)
Theorem set_schedule_off_resets
  (k : StaggEKGPro_Config) (b : bytearray) (hour minute : Z) (temp_celsius : Q) :
  _state_data k = Some b -> is_blob b -> next_write_ok k ->
  exists w k',
    set_schedule OFF hour minute temp_celsius k = (inr tt, k')
    /\ writes_of (set_schedule OFF hour minute temp_celsius) k = [w]
    /\ _state_data k' = Some w
    /\ Z.testbit (at_ w 0) 3 = false
    /\ at_ w 6 = 0xc0 /\ at_ w 8 = 0 /\ at_ w 9 = 0
    /\ get_schedule_mode k' = Some "off"%string.
Proof.
  intros Hb Hblob Hok.
  pose proof (blob_length b Hblob) as Hlen.
  pose proof (run_simple (SetSchedule OFF hour minute temp_celsius) k b Hb Hblob
                eq_refl eq_refl) as E.
  cbn [run edit] in E.
  rewrite _write_state_ok in E by (try assumption; rewrite disabled_length; lia).
  exists (<[16%nat:=next_counter k]> (disabled b)), (committed (disabled b) k).
  split; [exact E|]. split.
  { apply writes_of_app. rewrite E. cbn [snd].
    apply written_committed. now apply next_write_ok_client. }
  split; [reflexivity|].
  destruct Hblob as [_ Hbytes].
  pose proof (at_byte b 0 Hbytes) as H0.
  destruct (blob_explicit b Hlen)
    as (b0&b1&b2&b3&b4&b5&b6&b7&b8&b9&b10&b11&b12&b13&b14&b15&b16&->).
  unfold at_ in H0. cbn in H0.
  unfold disabled, at_, get_schedule_mode. cbn.
  split; [now apply byte_bit3_cleared|].
  repeat (split; [reflexivity|]).
  assert (Hz : Z.land (Z.land b0 (Z.lnot 8)) 8 = 0).
  { rewrite <- Z.land_assoc. change (Z.land (Z.lnot 8) 8) with 0.
    apply Z.land_0_r. }
  rewrite Hz. reflexivity.
Qed.

(** Disabling the DAILY schedule of the sample blob. *)
Lemma set_schedule_off_resets_witness :
  exists w k',
    set_schedule OFF 0 0 85 (fresh sample_blob) = (inr tt, k')
    /\ writes_of (set_schedule OFF 0 0 85) (fresh sample_blob) = [w]
    /\ _state_data k' = Some w
    /\ Z.testbit (at_ w 0) 3 = false
    /\ at_ w 6 = 0xc0 /\ at_ w 8 = 0 /\ at_ w 9 = 0
    /\ get_schedule_mode k' = Some "off"%string.
Proof.
  apply (set_schedule_off_resets (fresh sample_blob) sample_blob 0 0 85).
  - reflexivity.
  - split; [reflexivity|]. repeat constructor; unfold byte; lia.
  - split; reflexivity.
Defined.

(** C8. [set_altitude] clamps its argument to 0..3000 and rounds it to the
    nearest multiple of 30; the payload it writes carries the low 8 bits of
    that value in byte 2 and [0x80 | ((value >> 8) & 0x7F)] in byte 3, and
    [get_altitude] reads the value back: 90 after [set_altitude(100)]; every
    value [get_altitude] returns is a multiple of 30. *)
Theorem set_altitude_quantizes
  (altitude_meters : Z) (k : StaggEKGPro_Config) (b : bytearray) :
  _state_data k = Some b -> is_blob b -> next_write_ok k ->
  let clamped := Z.max 0 (Z.min 3000 altitude_meters) in
  let value := quantize clamped in
  (0 <= clamped <= 3000
   /\ (0 <= altitude_meters <= 3000 -> clamped = altitude_meters)
   /\ value mod 30 = 0 /\ 0 <= value <= 3000 /\ Z.abs (value - clamped) <= 15)
  /\ (exists w k',
        set_altitude altitude_meters k = (inr tt, k')
        /\ writes_of (set_altitude altitude_meters) k = [w]
        /\ _state_data k' = Some w
        /\ at_ w 2 = Z.land value 0xFF
        /\ at_ w 3 = Z.lor 0x80 (Z.land (Z.shiftr value 8) 0x7F)
        /\ get_altitude k' = Some value
        /\ (altitude_meters = 100 -> get_altitude k' = Some 90))
  /\ (forall k'' r, get_altitude k'' = Some r -> r mod 30 = 0).
Proof.
  intros Hb Hblob Hok clamped value.
  pose proof (blob_length b Hblob) as Hlen.
  assert (Hcl : 0 <= clamped <= 3000) by (unfold clamped; lia).
  pose proof (quantize_range clamped Hcl) as Hrange. fold value in Hrange.
  split; [|split].
  - split; [assumption|]. split; [unfold clamped; lia|].
    split; [apply quantize_multiple|]. split; [assumption|].
    unfold value. destruct (quantize_spec clamped) as (q & -> & Hq). lia.
  - pose proof (run_simple (SetAltitude altitude_meters) k b Hb Hblob
                  eq_refl eq_refl) as E.
    cbn [run edit] in E. fold clamped in E. fold value in E.
    set (d := <[3%nat:=128 + Z.land (Z.shiftr value 8) 127]>
                (<[2%nat:=Z.land value 255]> b)) in *.
    assert (Hd : length d = 17%nat) by (unfold d; now rewrite !length_insert).
    rewrite _write_state_ok in E by (try assumption; lia).
    exists (<[16%nat:=next_counter k]> d), (committed d k).
    split; [exact E|]. split.
    { apply writes_of_app. rewrite E. cbn [snd].
      apply written_committed. now apply next_write_ok_client. }
    split; [reflexivity|].
    assert (H2 : at_ (<[16%nat:=next_counter k]> d) 2 = Z.land value 0xFF).
    { unfold d. rewrite !at_insert_ne by lia. apply at_insert_eq. lia. }
    assert (H3 : at_ (<[16%nat:=next_counter k]> d) 3
                 = 0x80 + Z.land (Z.shiftr value 8) 0x7F).
    { unfold d. rewrite at_insert_ne by lia.
      apply at_insert_eq. rewrite length_insert. lia. }
    assert (Hget : get_altitude (committed d k) = Some value).
    { unfold get_altitude. rewrite state_committed.
      assert (Hl : length (<[16%nat:=next_counter k]> d) = 17%nat)
        by now rewrite length_insert.
      destruct (<[16%nat:=next_counter k]> d) as [|x0 l0] eqn:El; [discriminate|].
      rewrite Hl. cbn [truthy negb orb Nat.ltb Nat.leb].
      unfold at_ in H2, H3.
      destruct ((x0 :: l0) !! 2%nat) as [y2|] eqn:E2;
        [|apply lookup_ge_None in E2; rewrite Hl in E2; lia].
      destruct ((x0 :: l0) !! 3%nat) as [y3|] eqn:E3;
        [|apply lookup_ge_None in E3; rewrite Hl in E3; lia].
      cbn in H2, H3. subst y2 y3.
      rewrite altitude_decodes by assumption.
      f_equal. unfold value at 1.
      destruct (quantize_spec clamped) as (q & Hq & _).
      fold value. fold value in Hq. rewrite Hq. apply quantize_fixed. }
    split; [assumption|]. split; [rewrite H3; symmetry; apply lor_marker|].
    split; [assumption|].
    intros ->. rewrite Hget. reflexivity.
  - intros k'' r. unfold get_altitude.
    destruct (_state_data k'') as [d|]; [|discriminate].
    destruct (negb (truthy (Some d)) || (length d <? 4)%nat); [discriminate|].
    destruct (d !! 2%nat); [|discriminate].
    destruct (d !! 3%nat); [|discriminate].
    intros [= <-]. apply quantize_multiple.
Qed.

(** [set_altitude(100)] then [get_altitude()] gives 90. *)
Lemma set_altitude_quantizes_witness :
  let k := fresh sample_off in
  exists w k',
    set_altitude 100 k = (inr tt, k')
    /\ writes_of (set_altitude 100) k = [w]
    /\ _state_data k' = Some w
    /\ at_ w 2 = Z.land 90 0xFF
    /\ at_ w 3 = Z.lor 0x80 (Z.land (Z.shiftr 90 8) 0x7F)
    /\ get_altitude k' = Some 90
    /\ (100 = 100 -> get_altitude k' = Some 90).
Proof.
  intros k.
  apply (set_altitude_quantizes 100 (fresh sample_off) sample_off).
  - reflexivity.
  - split; [reflexivity|]. repeat constructor; unfold byte; lia.
  - split; reflexivity.
Defined.

(** C9, as the code has it.  An hour outside 0..23 or a minute outside 0..59
    given to [set_clock_time], or to [set_schedule] with ONCE or DAILY,
    raises before any physical write is attempted: the call ends in an
    error with nothing written, and when a blob is cached the error is
    [ValueError] and the controller is exactly as before.  A temperature
    or a chime volume out of range is no error: it is clamped to 0..100 or
    0..10 and written. *)
Theorem out_of_range_time_raises_before_any_write
  (c : call) (k : StaggEKGPro_Config) (hours minutes : Z) :
  bad_time hours minutes ->
  ((exists mode, c = SetClockTime hours minutes mode)
   \/ (exists mode t, mode <> OFF /\ c = SetSchedule mode hours minutes t)) ->
  (raises_before_write c k
   /\ (truthy (_state_data k) = true -> run c k = (inl ValueError, k)))
  /\ (forall b, _state_data k = Some b -> is_blob b -> next_write_ok k ->
        (forall volume, exists w,
            fst (set_chime_volume volume k) = inr tt
            /\ writes_of (set_chime_volume volume) k = [w]
            /\ at_ w 14 = Z.max 0 (Z.min 10 volume))
        /\ (forall temp_celsius, exists w,
              fst (set_target_temperature temp_celsius k) = inr tt
              /\ writes_of (set_target_temperature temp_celsius) k = [w]
              /\ at_ w 4 = py_int (clamp_temp temp_celsius * 2)
              /\ 0 <= at_ w 4 <= 200)).
Proof.
  intros Hbad Hc. split.
  - assert (Hv : valid_args c = false).
    { destruct (bad_time_checks hours minutes Hbad) as [H|[H1 H2]];
        destruct Hc as [(mode & ->)|(mode & t & Hmode & ->)]; cbn.
      + apply negb_true_iff in H. now rewrite H.
      + apply negb_true_iff in H. destruct mode; [congruence| |]; now rewrite H.
      + apply negb_false_iff in H1. apply negb_true_iff in H2.
        rewrite <- andb_assoc, H1, H2. reflexivity.
      + apply negb_false_iff in H1. apply negb_true_iff in H2.
        destruct mode; [congruence| |]; rewrite <- andb_assoc, H1, H2; reflexivity. }
    destruct (invalid_raises c k Hv) as (A & B & C).
    split; [split|]; assumption.
  - intros b Hb Hblob Hok. pose proof (blob_length b Hblob) as Hlen. split.
    + intros v.
      pose proof (run_simple (SetChimeVolume v) k b Hb Hblob eq_refl eq_refl) as E.
      cbn [run edit] in E.
      rewrite _write_state_ok in E by (try assumption; rewrite length_insert; lia).
      eexists. split; [now rewrite E|]. split.
      * apply writes_of_app. rewrite E. cbn [snd].
        apply written_committed. now apply next_write_ok_client.
      * rewrite at_insert_ne by lia. apply at_insert_eq. lia.
    + intros t.
      pose proof (run_simple (SetTargetTemperature t) k b Hb Hblob eq_refl eq_refl) as E.
      cbn [run edit] in E.
      rewrite _write_state_ok in E by (try assumption; rewrite length_insert; lia).
      eexists. split; [now rewrite E|]. split.
      * apply writes_of_app. rewrite E. cbn [snd].
        apply written_committed. now apply next_write_ok_client.
      * rewrite at_insert_ne by lia. rewrite at_insert_eq by lia.
        split; [reflexivity|]. apply py_int_double, clamp_temp_bounds.
Qed.

(** Hour 24 for a DAILY schedule. *)
Lemma out_of_range_time_raises_before_any_write_witness :
  let c := SetSchedule DAILY 24 0 85 in
  let k := fresh sample_blob in
  raises_before_write c k
  /\ (truthy (_state_data k) = true -> run c k = (inl ValueError, k)).
Proof.
  intros c k.
  apply (out_of_range_time_raises_before_any_write c k 24 0).
  - unfold bad_time. lia.
  - right. exists DAILY, 85%Q. split; [discriminate|reflexivity].
Defined.

(** C9 as stated fails: a chime volume of 11 and a temperature of 150
    degrees raise nothing; they are written as 10 and as 200 (100 degrees
    doubled). *)
Lemma out_of_range_volume_and_temperature_are_written :
  let k := fresh sample_blob in
  ~ raises_before_write (SetChimeVolume 11) k
  /\ ~ raises_before_write (SetTargetTemperature 150) k
  /\ set_chime_volume 11 k
     = (inr tt, committed (<[14%nat:=10]> sample_blob) k)
  /\ writes_of (set_chime_volume 11) k
     = [[8; 10; 90; 128; 170; 17; 170; 34; 0; 7; 30; 12; 1; 15; 10; 0; 7]]
  /\ set_target_temperature 150 k
     = (inr tt, committed (<[4%nat:=200]> sample_blob) k)
  /\ writes_of (set_target_temperature 150) k
     = [[8; 10; 90; 128; 200; 17; 170; 34; 0; 7; 30; 12; 1; 15; 5; 0; 7]].
Proof.
  intros k.
  split; [intros [[e He] _]; vm_compute in He; discriminate|].
  split; [intros [[e He] _]; vm_compute in He; discriminate|].
  repeat split; reflexivity.
Qed.

(** C10. After a successful physical write the cached blob's byte 16 is
    exactly the previous counter plus one mod 256: [_write_state] overwrites
    the whole byte with the bare counter, so whatever the caller had put at
    index 16 is discarded; in particular the schedule-mode bit that
    [set_schedule] sets for ONCE and clears for DAILY: from a schedule that
    is off, the two modes write the same bytes, bit 3 of byte 16 being that
    of the counter. *)
Theorem write_state_overwrites_byte_16 (d : bytearray) (k : StaggEKGPro_Config) :
  next_write_ok k -> (16 < length d)%nat ->
  (exists w k',
      _write_state d k = (inr tt, k')
      /\ written k' = written k ++ [w]
      /\ _state_data k' = Some w
      /\ at_ w 16 = (_counter k + 1) mod 256
      /\ _counter k' = (_counter k + 1) mod 256
      /\ forall i, i <> 16%nat -> w !! i = d !! i)
  /\ (forall x, _write_state (<[16%nat:=x]> d) k = _write_state d k)
  /\ (forall hour minute temp_celsius,
        _state_data k = Some d -> is_blob d ->
        0 <= hour <= 23 -> 0 <= minute <= 59 ->
        get_schedule_mode k = Some "off"%string ->
        Z.lor (at_ d 16) 0x08 <> 255 ->
        exists w k',
          set_schedule ONCE hour minute temp_celsius k = (inr tt, k')
          /\ set_schedule DAILY hour minute temp_celsius k = (inr tt, k')
          /\ writes_of (set_schedule ONCE hour minute temp_celsius) k = [w]
          /\ _state_data k' = Some w
          /\ at_ w 16 = (_counter k + 1) mod 256).
Proof.
  intros Hok Hlen. split; [|split].
  - exists (<[16%nat:=next_counter k]> d), (committed d k).
    split; [now apply _write_state_ok|].
    split; [apply written_committed; now apply next_write_ok_client|].
    split; [reflexivity|].
    split; [rewrite at_16_stamped by assumption; apply bump_mod|].
    split; [apply bump_mod|].
    intros i Hi. now apply list_lookup_insert_ne.
  - intros x. apply _write_state_insert16.
  - intros h m t Hd Hblob Hh Hm Hoff Hno.
    rewrite (get_schedule_mode_cached k d Hd) in Hoff.
    assert (Hbyte : byte (at_ d 16)) by (apply at_byte, Hblob).
    assert (Hq : forall mode, mode <> OFF ->
                 (mode_byte mode (at_ d 16) <? 256) = true ->
                 set_schedule mode h m t k = (inr tt, committed (enabled h m t d) k)).
    { intros mode Hmode Hov.
      rewrite (set_schedule_on_eq mode h m t k d Hd (blob_nonempty d Hblob) Hmode Hh Hm).
      rewrite (get_schedule_mode_cached k d Hd), Hoff.
      change (needs_disable (Some "off"%string) mode) with false.
      unfold bind at 1, ret at 1.
      rewrite (enable_with_eq mode h m t k d Hd Hblob Hh Hm), Hov.
      apply _write_state_ok; [assumption|]. now rewrite enabled_length. }
    assert (Honce : (mode_byte ONCE (at_ d 16) <? 256) = true).
    { apply Z.ltb_lt. unfold mode_byte.
      pose proof (byte_lor_small (at_ d 16) 8 Hbyte ltac:(unfold byte; lia))
        as [_ Hlt]. lia. }
    exists (<[16%nat:=next_counter k]> (enabled h m t d)),
           (committed (enabled h m t d) k).
    split; [apply Hq; [discriminate|assumption]|].
    split; [apply Hq; [discriminate|now apply daily_never_overflows]|].
    split.
    { apply writes_of_app. rewrite Hq by (try discriminate; assumption).
      cbn [snd]. apply written_committed. now apply next_write_ok_client. }
    split; [reflexivity|].
    rewrite at_16_stamped by (now rewrite enabled_length). apply bump_mod.
Qed.

(** From the sample blob with the schedule off, ONCE and DAILY at 07:00
    write the same payload, counter 7 in byte 16. *)
Lemma write_state_overwrites_byte_16_witness :
  let d := sample_off in
  let k := fresh sample_off in
  (exists w k',
      _write_state d k = (inr tt, k')
      /\ written k' = written k ++ [w]
      /\ _state_data k' = Some w
      /\ at_ w 16 = (_counter k + 1) mod 256
      /\ _counter k' = (_counter k + 1) mod 256
      /\ forall i, i <> 16%nat -> w !! i = d !! i)
  /\ (forall x, _write_state (<[16%nat:=x]> d) k = _write_state d k)
  /\ (exists w k',
        set_schedule ONCE 7 0 85 k = (inr tt, k')
        /\ set_schedule DAILY 7 0 85 k = (inr tt, k')
        /\ writes_of (set_schedule ONCE 7 0 85) k = [w]
        /\ _state_data k' = Some w
        /\ at_ w 16 = (_counter k + 1) mod 256).
Proof.
  intros d k.
  destruct (write_state_overwrites_byte_16 sample_off (fresh sample_off))
    as (H1 & H2 & H3).
  - split; reflexivity.
  - cbn. lia.
  - split; [exact H1|]. split; [exact H2|].
    apply (H3 7 0 85%Q).
    + reflexivity.
    + split; [reflexivity|]. repeat constructor; unfold byte; lia.
    + lia.
    + lia.
    + reflexivity.
    + vm_compute. discriminate.
Defined.

(** * Further properties of the controller *)

(** ** Reading the characteristic *)

Lemma refresh_state_cases (k : StaggEKGPro_Config) :
  written (snd (refresh_state k)) = written k
  /\ (forall k', refresh_state k = (inr tt, k') ->
        exists c d rest,
          client k = Some c /\ gatt_reads c = Some d :: rest
          /\ _state_data k' = Some d /\ (17 <= length d)%nat
          /\ _counter k' = at_ d 16)
  /\ ((forall c, client k = Some c -> is_connected c = false) ->
      refresh_state k = (inl RuntimeError, k))
  /\ (forall c d rest,
        client k = Some c -> is_connected c = true ->
        gatt_reads c = Some d :: rest -> (length d < 17)%nat ->
        fst (refresh_state k) = inl IndexError
        /\ _state_data (snd (refresh_state k)) = Some d
        /\ _counter (snd (refresh_state k)) = _counter k).
Proof.
  split; [apply refresh_state_written|].
  destruct k as [[c|] sd n].
  2:{ split; [discriminate|]. split; [reflexivity|]. discriminate. }
  destruct c as [conn rd fl wr nt].
  unfold refresh_state, bind, require_connected, read_gatt_char, this, put, eval.
  cbn. split; [|split].
  - destruct conn; [|discriminate].
    destruct rd as [|[d|] rd]; cbn; try discriminate.
    unfold getitem, at_.
    destruct (d !! 16%nat) as [v|] eqn:E; cbn; [|discriminate].
    intros k' [= <-]. eexists _, d, rd. cbn.
    repeat (split; [reflexivity|]). split; [|now rewrite E].
    apply lookup_lt_Some in E. lia.
  - intros H. pose proof (H _ eq_refl) as Hc. cbn in Hc. subst conn. reflexivity.
  - intros c d rest [= <-] Hc Hrd Hlen. cbn in Hc, Hrd. subst conn rd. cbn.
    unfold getitem.
    destruct (d !! 16%nat) as [v|] eqn:E;
      [apply lookup_lt_Some in E; lia|].
    cbn. auto.
Qed.

(** X1. [refresh_state] never writes.  When it returns, the cache holds the
    bytes just read, at least 17 of them, and the counter is their byte 16.
    Without a connected client it raises [RuntimeError] and changes
    nothing.  A read shorter than 17 bytes raises [IndexError] only after
    the cache has been replaced: the short bytes are cached and the counter
    keeps its old value. *)
Theorem refresh_state_outcome (k : StaggEKGPro_Config) :
  written (snd (refresh_state k)) = written k
  /\ (forall k', refresh_state k = (inr tt, k') ->
        exists c d rest,
          client k = Some c /\ gatt_reads c = Some d :: rest
          /\ _state_data k' = Some d /\ (17 <= length d)%nat
          /\ _counter k' = at_ d 16)
  /\ ((forall c, client k = Some c -> is_connected c = false) ->
      refresh_state k = (inl RuntimeError, k))
  /\ (forall c d rest,
        client k = Some c -> is_connected c = true ->
        gatt_reads c = Some d :: rest -> (length d < 17)%nat ->
        fst (refresh_state k) = inl IndexError
        /\ _state_data (snd (refresh_state k)) = Some d
        /\ _counter (snd (refresh_state k)) = _counter k).
Proof. apply refresh_state_cases. Qed.

(** ** Notifications *)

(** X2. A notification of at least 17 bytes replaces the cache and
    resynchronises the counter with the kettle: the next write stores the
    notified byte 16 plus one mod 256, whatever the counter was, and a
    setter called next edits the notified bytes.  A shorter notification
    replaces the cache but leaves the counter as it was. *)
Theorem notification_resynchronises_counter
  (data d : bytearray) (k : StaggEKGPro_Config) :
  (16 < length d)%nat -> next_write_ok k ->
  let k1 := _handle_notification data k in
  _state_data k1 = Some data
  /\ written k1 = written k
  /\ ((length data < 17)%nat -> _counter k1 = _counter k)
  /\ ((17 <= length data)%nat ->
      _counter k1 = at_ data 16
      /\ exists w k',
          _write_state d k1 = (inr tt, k')
          /\ writes_of (_write_state d) k1 = [w]
          /\ at_ w 16 = (at_ data 16 + 1) mod 256
          /\ forall i, i <> 16%nat -> w !! i = d !! i)
  /\ (is_blob data -> forall volume,
        exists w,
          fst (set_chime_volume volume k1) = inr tt
          /\ writes_of (set_chime_volume volume) k1 = [w]
          /\ at_ w 16 = (at_ data 16 + 1) mod 256
          /\ at_ w 14 = Z.max 0 (Z.min 10 volume)
          /\ forall i, i <> 16%nat -> i <> 14%nat -> w !! i = data !! i).
Proof.
  intros Hd Hok k1.
  assert (Hst : _state_data k1 = Some data).
  { unfold k1, _handle_notification. destruct (getitem data 16); reflexivity. }
  assert (Hwr : written k1 = written k).
  { unfold k1, _handle_notification. destruct (getitem data 16); reflexivity. }
  assert (Hcl : client k1 = client k).
  { unfold k1, _handle_notification. destruct (getitem data 16); reflexivity. }
  assert (Hok1 : next_write_ok k1) by (unfold next_write_ok in *; now rewrite Hcl).
  assert (Hlong : (17 <= length data)%nat -> _counter k1 = at_ data 16).
  { intros Hl. unfold k1, _handle_notification.
    rewrite getitem_ok by lia. reflexivity. }
  split; [assumption|]. split; [assumption|]. split; [|split].
  - intros Hl. unfold k1, _handle_notification, getitem.
    destruct (data !! 16%nat) eqn:E; [apply lookup_lt_Some in E; lia|reflexivity].
  - intros Hl. split; [now apply Hlong|].
    exists (<[16%nat:=next_counter k1]> d), (committed d k1).
    split; [now apply _write_state_ok|]. split.
    { apply writes_of_app. rewrite _write_state_ok by assumption. cbn [snd].
      apply written_committed. now apply next_write_ok_client. }
    split.
    { rewrite at_16_stamped by assumption. unfold next_counter.
      rewrite (Hlong Hl). apply bump_mod. }
    intros i Hi. now apply list_lookup_insert_ne.
  - intros Hblob v.
    pose proof (blob_length data Hblob) as Hl.
    pose proof (run_simple (SetChimeVolume v) k1 data Hst Hblob eq_refl eq_refl) as E.
    cbn [run edit] in E.
    rewrite _write_state_ok in E by (try assumption; rewrite length_insert; lia).
    eexists. split; [now rewrite E|]. split.
    { apply writes_of_app. rewrite E. cbn [snd].
      apply written_committed. now apply next_write_ok_client. }
    split.
    { rewrite at_16_stamped by (rewrite length_insert; lia). unfold next_counter.
      rewrite Hlong by lia. apply bump_mod. }
    split.
    { rewrite at_insert_ne by lia. apply at_insert_eq. lia. }
    intros i H16 H14. now rewrite !list_lookup_insert_ne by auto.
Qed.

(** The sample blob notified to a controller that had the schedule off. *)
Lemma notification_resynchronises_counter_witness :
  let k1 := _handle_notification sample_blob (fresh sample_off) in
  _state_data k1 = Some sample_blob
  /\ written k1 = written (fresh sample_off)
  /\ ((length sample_blob < 17)%nat -> _counter k1 = _counter (fresh sample_off))
  /\ ((17 <= length sample_blob)%nat ->
      _counter k1 = at_ sample_blob 16
      /\ exists w k',
          _write_state sample_off k1 = (inr tt, k')
          /\ writes_of (_write_state sample_off) k1 = [w]
          /\ at_ w 16 = (at_ sample_blob 16 + 1) mod 256
          /\ forall i, i <> 16%nat -> w !! i = sample_off !! i)
  /\ (is_blob sample_blob -> forall volume,
        exists w,
          fst (set_chime_volume volume k1) = inr tt
          /\ writes_of (set_chime_volume volume) k1 = [w]
          /\ at_ w 16 = (at_ sample_blob 16 + 1) mod 256
          /\ at_ w 14 = Z.max 0 (Z.min 10 volume)
          /\ forall i, i <> 16%nat -> i <> 14%nat -> w !! i = sample_blob !! i).
Proof.
  apply (notification_resynchronises_counter sample_blob sample_off (fresh sample_off)).
  - cbn. lia.
  - split; reflexivity.
Defined.

(** ** Blobs shorter than 17 bytes *)

Lemma aborts_raise {A} e k : aborts (@raise A e) k.
Proof. now exists e. Qed.

Lemma aborts_eval {A B} (r : exn + A) (f : A -> coro B) k :
  (forall x, r = inr x -> aborts (f x) k) -> aborts (bind (eval r) f) k.
Proof.
  intros H. unfold bind, eval. destruct r as [e|x]; [now exists e|].
  now apply H.
Qed.

Lemma aborts_after {A B} (m : coro A) (f : A -> coro B) k a :
  m k = (inr a, k) -> aborts (f a) k -> aborts (bind m f) k.
Proof. intros Hm [e He]. exists e. unfold bind. now rewrite Hm. Qed.

Lemma aborts__write_state d k : (length d < 17)%nat -> aborts (_write_state d) k.
Proof.
  intros Hlen. unfold aborts, _write_state, bind, require_connected, this, eval.
  destruct (client k) as [c|]; [|eexists; reflexivity].
  destruct (is_connected c); [|eexists; reflexivity].
  unfold setitem.
  destruct ((0 <=? _) && (_ <? 256)); [|eexists; reflexivity].
  replace (16 <? length d)%nat with false by (symmetry; apply Nat.ltb_ge; lia).
  eexists; reflexivity.
Qed.

Lemma setitem_length (d d' : bytearray) i v :
  setitem d i v = inr d' -> length d' = length d.
Proof. intros H. apply setitem_inv in H as (-> & _ & _). apply length_insert. Qed.

Lemma setbits_length (d d' : bytearray) i m :
  setbits d i m = inr d' -> length d' = length d.
Proof.
  unfold setbits. destruct (getitem d i); [discriminate|]. apply setitem_length.
Qed.

Lemma clearbits_length (d d' : bytearray) i m :
  clearbits d i m = inr d' -> length d' = length d.
Proof.
  unfold clearbits. destruct (getitem d i); [discriminate|]. apply setitem_length.
Qed.

Lemma disable_bytes_length (d d' : bytearray) :
  disable_bytes d = inr d' -> length d' = length d.
Proof.
  unfold disable_bytes.
  destruct (clearbits d 0 8) as [|d1] eqn:E1; [discriminate|].
  destruct (setitem d1 6 192) as [|d2] eqn:E2; [discriminate|].
  destruct (setitem d2 8 0) as [|d3] eqn:E3; [discriminate|].
  intros E4.
  rewrite (setitem_length _ _ _ _ E4), (setitem_length _ _ _ _ E3),
    (setitem_length _ _ _ _ E2). now apply clearbits_length in E1.
Qed.

Ltac short_setter Hs Hc :=
  eapply aborts_after; [exact Hs|];
  cbv beta; try (eapply aborts_after; [exact Hc|]);
  repeat (apply aborts_eval; intros ? ?);
  try (apply aborts__write_state;
       repeat match goal with
              | H : setitem _ _ _ = inr _ |- _ => apply setitem_length in H
              | H : setbits _ _ _ = inr _ |- _ => apply setbits_length in H
              | H : clearbits _ _ _ = inr _ |- _ => apply clearbits_length in H
              | H : disable_bytes _ = inr _ |- _ => apply disable_bytes_length in H
              end; lia).

(** X3. From a cached blob shorter than 17 bytes nothing is ever written:
    every setter call, and [turn_on_smart], raises and leaves the
    controller, its transport included, exactly as it was. *)
Theorem short_blob_is_never_written
  (c : call) (temp : option Q) (k : StaggEKGPro_Config) (b : bytearray) :
  _state_data k = Some b -> b <> [] -> (length b < 17)%nat ->
  aborts (run c) k /\ aborts (turn_on_smart temp) k.
Proof.
  intros Hb Hne Hlen.
  pose proof (ensure_state_cached k b Hb Hne) as Hs.
  pose proof (copy_state_cached k b Hb) as Hc.
  assert (Hnone : get_schedule_mode k = None).
  { unfold get_schedule_mode. rewrite Hb.
    replace (length b <? 17)%nat with true by (symmetry; apply Nat.ltb_lt; lia).
    now rewrite orb_true_r. }
  assert (Hen : forall mode h m t, aborts (enable_with mode h m t) k).
  { intros mode h m t. unfold enable_with.
    eapply aborts_after; [exact Hc|].
    repeat (apply aborts_eval; intros ? ?).
    apply aborts__write_state.
    destruct mode;
      repeat match goal with
             | H : setitem _ _ _ = inr _ |- _ => apply setitem_length in H
             | H : setbits _ _ _ = inr _ |- _ => apply setbits_length in H
             end; lia. }
  assert (Hsched : forall mode h m t, aborts (set_schedule mode h m t) k).
  { intros mode h m t. unfold set_schedule.
    eapply aborts_after; [exact Hs|]. cbv beta.
    destruct mode.
    - eapply aborts_after; [exact Hc|].
      apply aborts_eval; intros d' Hd'.
      apply aborts__write_state. apply disable_bytes_length in Hd'. lia.
    - destruct (negb _); [apply aborts_raise|].
      destruct (negb _); [apply aborts_raise|].
      eapply aborts_after; [reflexivity|]. cbv beta.
      rewrite Hnone. cbn [needs_disable].
      eapply aborts_after; [reflexivity|]. apply Hen.
    - destruct (negb _); [apply aborts_raise|].
      destruct (negb _); [apply aborts_raise|].
      eapply aborts_after; [reflexivity|]. cbv beta.
      rewrite Hnone. cbn [needs_disable].
      eapply aborts_after; [reflexivity|]. apply Hen. }
  split.
  - destruct c as [t|u|md|h m md|v|e|m|a|l|mode h m t]; cbn [run].
    + unfold set_target_temperature. short_setter Hs Hc.
    + unfold set_units. destruct u; short_setter Hs Hc.
    + unfold set_clock_mode. short_setter Hs Hc.
    + unfold set_clock_time.
      eapply aborts_after; [exact Hs|]. cbv beta.
      destruct (negb _); [apply aborts_raise|].
      destruct (negb _); [apply aborts_raise|].
      eapply aborts_after; [exact Hc|].
      apply aborts_eval; intros d1 H1. apply aborts_eval; intros d2 H2.
      destruct md as [md|].
      * apply aborts_eval; intros d3 H3. apply aborts__write_state.
        apply setitem_length in H1, H2, H3. lia.
      * eapply aborts_after; [reflexivity|]. apply aborts__write_state.
        apply setitem_length in H1, H2. lia.
    + unfold set_chime_volume. short_setter Hs Hc.
    + unfold set_pre_boil. destruct e; short_setter Hs Hc.
    + unfold set_hold_time. short_setter Hs Hc.
    + unfold set_altitude. short_setter Hs Hc.
    + unfold set_language. short_setter Hs Hc.
    + apply Hsched.
  - unfold turn_on_smart.
    eapply aborts_after; [exact Hs|]. cbv beta.
    eapply aborts_after; [reflexivity|]. cbv beta.
    eapply aborts_after; [exact Hc|].
    apply aborts_eval; intros ch Hch. apply aborts_eval; intros cm Hcm.
    destruct (trigger_time ch cm) as [th tm].
    destruct (temp_given temp) as [t|].
    + eapply aborts_after; [reflexivity|].
      destruct (Hsched ONCE th tm t) as [e He]. exists e.
      unfold bind. now rewrite He.
    + unfold bind at 1. unfold bind at 1, eval at 1.
      destruct (getitem b 4) as [e|b4]; [now exists e|].
      unfold ret.
      destruct (Hsched ONCE th tm (halve b4)) as [e He]. exists e.
      unfold bind. now rewrite He.
Qed.

(** A notification of three bytes is cached; setting the chime volume then
    raises and writes nothing. *)
Lemma short_blob_is_never_written_witness :
  let k := _handle_notification [1; 2; 3] (fresh sample_blob) in
  aborts (run (SetChimeVolume 5)) k /\ aborts (turn_on_smart None) k.
Proof.
  apply (short_blob_is_never_written (SetChimeVolume 5) None
           (_handle_notification [1; 2; 3] (fresh sample_blob)) [1; 2; 3]).
  - reflexivity.
  - discriminate.
  - cbn. lia.
Defined.

(** ** Reading back what was set *)

Lemma land_lor_same v m : Z.land (Z.lor v m) m = m.
Proof.
  apply Z.bits_inj'. intros n Hn. rewrite Z.land_spec, Z.lor_spec.
  destruct (Z.testbit v n), (Z.testbit m n); reflexivity.
Qed.

Lemma land_lnot_same v m : Z.land (Z.land v (Z.lnot m)) m = 0.
Proof.
  apply Z.bits_inj'. intros n Hn.
  rewrite !Z.land_spec, Z.lnot_spec, Z.bits_0 by assumption.
  destruct (Z.testbit v n), (Z.testbit m n); reflexivity.
Qed.

Lemma get_altitude_written (b : bytearray) v x :
  length b = 17%nat -> 0 <= v <= 3000 -> v mod 30 = 0 ->
  get_altitude
    (mkConfig x (Some (<[3%nat:=0x80 + Z.land (Z.shiftr v 8) 0x7F]>
                         (<[2%nat:=Z.land v 0xFF]> b))) 0)
  = Some v.
Proof.
  intros Hlen Hv Hmod.
  destruct (blob_explicit b Hlen)
    as (b0&b1&b2&b3&b4&b5&b6&b7&b8&b9&b10&b11&b12&b13&b14&b15&b16&->).
  unfold get_altitude. cbn.
  rewrite altitude_decodes by assumption.
  f_equal. rewrite (Z.div_mod v 30) at 1 2 by lia.
  rewrite Hmod, Z.add_0_r, quantize_fixed.
  pose proof (Z.div_mod v 30 ltac:(lia)). lia.
Qed.

(** X4. After a setter other than a ONCE or DAILY [set_schedule] has gone
    through, the getters report what was set: the arguments as the blob
    can hold them (temperature truncated to half a degree within 0..100,
    volume within 0..10, hold time within 0..60, altitude quantized), and
    off for [set_schedule(OFF)]. *)
Theorem getters_read_back_what_was_set
  (c : call) (k : StaggEKGPro_Config) (b : bytearray) :
  _state_data k = Some b -> is_blob b -> next_write_ok k ->
  valid_args c = true -> is_schedule_on c = false ->
  exists k', run c k = (inr tt, k') /\ current (readback c) k'.
Proof.
  intros Hb Hblob Hok Hv Hs.
  pose proof (blob_length b Hblob) as Hlen.
  pose proof (run_simple c k b Hb Hblob Hv Hs) as E.
  rewrite _write_state_ok in E
    by (try assumption; rewrite (blob_length _ (is_blob_edit c b Hblob Hv)); lia).
  exists (committed (edit c b) k). split; [exact E|].
  destruct Hblob as [_ Hbytes].
  pose proof (at_byte b 1 Hbytes) as H1.
  destruct c as [t|u|md|h m md|v|e|m|a|l|mode h m t]; cbn [readback current].
  - destruct (blob_explicit b Hlen)
      as (b0&b1&b2&b3&b4&b5&b6&b7&b8&b9&b10&b11&b12&b13&b14&b15&b16&->).
    eexists. split; [reflexivity|]. reflexivity.
  - destruct (blob_explicit b Hlen)
      as (b0&b1&b2&b3&b4&b5&b6&b7&b8&b9&b10&b11&b12&b13&b14&b15&b16&->).
    unfold get_units, peek. destruct u; cbn.
    + now rewrite land_lor_same.
    + now rewrite land_lnot_same.
  - destruct (blob_explicit b Hlen)
      as (b0&b1&b2&b3&b4&b5&b6&b7&b8&b9&b10&b11&b12&b13&b14&b15&b16&->).
    destruct md; reflexivity.
  - destruct (blob_explicit b Hlen)
      as (b0&b1&b2&b3&b4&b5&b6&b7&b8&b9&b10&b11&b12&b13&b14&b15&b16&->).
    split; [destruct md; reflexivity|].
    destruct md as [[]|]; reflexivity.
  - destruct (blob_explicit b Hlen)
      as (b0&b1&b2&b3&b4&b5&b6&b7&b8&b9&b10&b11&b12&b13&b14&b15&b16&->).
    reflexivity.
  - destruct (blob_explicit b Hlen)
      as (b0&b1&b2&b3&b4&b5&b6&b7&b8&b9&b10&b11&b12&b13&b14&b15&b16&->).
    unfold get_pre_boil, peek. destruct e; cbn.
    + now rewrite land_lor_same.
    + now rewrite land_lnot_same.
  - destruct (blob_explicit b Hlen)
      as (b0&b1&b2&b3&b4&b5&b6&b7&b8&b9&b10&b11&b12&b13&b14&b15&b16&->).
    reflexivity.
  - cbn [edit].
    set (v := quantize (Z.max 0 (Z.min 3000 a))).
    assert (Hv1 : 0 <= v <= 3000) by (apply quantize_range; lia).
    assert (Hv2 : v mod 30 = 0) by apply quantize_multiple.
    pose proof (get_altitude_written b v None Hlen Hv1 Hv2) as Hg.
    unfold get_altitude in *. cbn [_state_data committed] in *.
    destruct (blob_explicit b Hlen)
      as (b0&b1&b2&b3&b4&b5&b6&b7&b8&b9&b10&b11&b12&b13&b14&b15&b16&->).
    cbn in Hg |- *. exact Hg.
  - destruct (blob_explicit b Hlen)
      as (b0&b1&b2&b3&b4&b5&b6&b7&b8&b9&b10&b11&b12&b13&b14&b15&b16&->).
    destruct l; reflexivity.
  - destruct mode; try discriminate.
    destruct (blob_explicit b Hlen)
      as (b0&b1&b2&b3&b4&b5&b6&b7&b8&b9&b10&b11&b12&b13&b14&b15&b16&->).
    split; [|exact I].
    unfold get_schedule, disabled, at_. cbn.
    now rewrite land_lnot_same.
Qed.

(** [set_target_temperature(85.3)] reads back as 85. *)
Lemma getters_read_back_what_was_set_witness :
  exists k',
    run (SetTargetTemperature (853 # 10)) (fresh sample_blob) = (inr tt, k')
    /\ current (SetTargetTemperature (halve 170)) k'.
Proof.
  apply (getters_read_back_what_was_set (SetTargetTemperature (853 # 10))
           (fresh sample_blob) sample_blob).
  - reflexivity.
  - split; [reflexivity|]. repeat constructor; unfold byte; lia.
  - split; reflexivity.
  - reflexivity.
  - reflexivity.
Defined.

Lemma mode_bit_testbit x : (Z.land (Z.shiftr x 3) 1 =? 1) = Z.testbit x 3.
Proof.
  change 1 with (Z.ones 1) at 1. rewrite Z.land_ones by lia.
  change (2 ^ 1) with 2. rewrite <- Z.bit0_mod, Z.shiftr_spec by lia.
  change (0 + 3) with 3. destruct (Z.testbit x 3); reflexivity.
Qed.

Lemma get_schedule_enabled (y : bytearray) h m t x cl n :
  length y = 17%nat ->
  get_schedule (mkConfig cl (Some (<[16%nat:=x]> (enabled h m t y))) n)
  = mkSchedule (Some (if Z.testbit x 3 then "once" else "daily")%string)
      (Some true) (Some (halve (py_int (clamp_temp t * 2)))) (Some h) (Some m).
Proof.
  intros Hlen.
  destruct (blob_explicit y Hlen)
    as (b0&b1&b2&b3&b4&b5&b6&b7&b8&b9&b10&b11&b12&b13&b14&b15&b16&->).
  unfold get_schedule, enabled, at_. cbn.
  rewrite land_lor_same. cbn. rewrite mode_bit_testbit.
  destruct (Z.testbit x 3); reflexivity.
Qed.

Lemma set_schedule_read_back
  (mode : ScheduleMode) (h m : Z) (t : Q)
  (k k' : StaggEKGPro_Config) (b : bytearray) :
  _state_data k = Some b -> is_blob b -> calm k -> mode <> OFF ->
  set_schedule mode h m t k = (inr tt, k') ->
  get_schedule k'
  = mkSchedule (Some (if Z.testbit (_counter k') 3 then "once" else "daily")%string)
      (Some true) (Some (halve (py_int (clamp_temp t * 2)))) (Some h) (Some m)
  /\ _counter k'
     = (_counter k + (if needs_disable (get_schedule_mode k) mode then 2 else 1))
       mod 256.
Proof.
  intros Hb Hblob Hc Hmode E.
  pose proof (blob_length b Hblob) as Hlen.
  destruct (run_calm (SetSchedule mode h m t) k b Hb Hblob Hc)
    as (k1 & E1 & _ & _ & Hn & Hs).
  cbv zeta in *. cbn [run] in E1. rewrite E in E1.
  injection E1 as Hout <-.
  unfold outcome in Hout.
  destruct (valid_args (SetSchedule mode h m t)) eqn:Hv; [|discriminate].
  destruct (overflows (SetSchedule mode h m t) (_counter k) b) eqn:Ho; [discriminate|].
  rewrite (get_schedule_mode_cached k b Hb).
  unfold planned in Hn, Hs. rewrite Hv in Hn, Hs. cbn [negb] in Hn, Hs.
  cbn [overflows] in Ho.
  destruct k' as [cl sd n']. cbn [_state_data _counter] in *.
  destruct mode; [congruence| |];
    (destruct (needs_disable (mode_of_blob b) _);
     apply negb_false_iff in Ho; rewrite Ho in Hn, Hs; cbn in Hn, Hs;
     rewrite Hs, Hn;
     (split;
      [ apply get_schedule_enabled;
        rewrite ?length_insert, ?disabled_length; assumption
      | rewrite ?bump_mod, ?Z.add_mod_idemp_l by lia; f_equal; lia ])).
Qed.

(** X5. After a ONCE or DAILY [set_schedule] has gone through,
    [get_schedule] reports the schedule enabled at the hour and minute
    given and at the temperature truncated to half a degree within 0..100;
    the mode it reports is read off bit 3 of the write counter, which has
    advanced by one or by two, and not off the mode that was asked for. *)
Theorem schedule_reads_back_time_and_temperature
  (mode : ScheduleMode) (h m : Z) (t : Q)
  (k k' : StaggEKGPro_Config) (b : bytearray) :
  _state_data k = Some b -> is_blob b -> calm k -> mode <> OFF ->
  set_schedule mode h m t k = (inr tt, k') ->
  get_schedule k'
  = mkSchedule (Some (if Z.testbit (_counter k') 3 then "once" else "daily")%string)
      (Some true) (Some (halve (py_int (clamp_temp t * 2)))) (Some h) (Some m)
  /\ _counter k'
     = (_counter k + (if needs_disable (get_schedule_mode k) mode then 2 else 1))
       mod 256.
Proof. apply set_schedule_read_back. Qed.

(** DAILY asked for at 06:45 from the sample blob (DAILY, counter 6): one
    write, counter 7, and the schedule reads back as daily by the counter's
    bit 3. *)
Lemma schedule_reads_back_time_and_temperature_witness :
  let k := fresh sample_blob in
  let k' := snd (set_schedule DAILY 6 45 90 k) in
  get_schedule k'
  = mkSchedule (Some (if Z.testbit (_counter k') 3 then "once" else "daily")%string)
      (Some true) (Some (halve (py_int (clamp_temp 90 * 2)))) (Some 6) (Some 45)
  /\ _counter k'
     = (_counter k + (if needs_disable (get_schedule_mode k) DAILY then 2 else 1))
       mod 256.
Proof.
  intros k k'.
  apply (schedule_reads_back_time_and_temperature DAILY 6 45 90 k k' sample_blob).
  - reflexivity.
  - split; [reflexivity|]. repeat constructor; unfold byte; lia.
  - repeat split; reflexivity.
  - discriminate.
  - reflexivity.
Defined.

(** ** All or nothing *)



(** ** The counter and the cache *)

Lemma in_sync_committed d k : is_blob d -> in_sync (committed d k).
Proof.
  intros Hd. exists (<[16%nat:=next_counter k]> d).
  split; [reflexivity|]. split.
  - apply is_blob_insert; [assumption|apply byte_bump].
  - cbn [_counter committed]. rewrite at_16_stamped by (rewrite (blob_length d Hd); lia).
    reflexivity.
Qed.

Lemma in_sync__write_state d k :
  is_blob d -> in_sync k -> in_sync (snd (_write_state d k)).
Proof.
  intros Hd Hk.
  destruct (_write_state_cases d k ltac:(rewrite (blob_length d Hd); lia))
    as [[_ E]|(e & k' & E & _ & Hsd & Hn)]; rewrite E; cbn [snd].
  - now apply in_sync_committed.
  - destruct Hk as (d0 & H1 & H2 & H3). exists d0.
    rewrite Hsd, Hn. auto.
Qed.

Lemma quiet__write_state d k : quiet k -> quiet (snd (_write_state d k)).
Proof.
  intros Hq. destruct k as [[c|] sd n]; [|exact I].
  destruct c as [conn rd fl wr nt]. unfold quiet in Hq. cbn in Hq. subst nt.
  unfold _write_state, bind, require_connected, this, eval, write_gatt_char, put.
  cbn. destruct conn; [|reflexivity].
  destruct (setitem d 16 _); cbn; [reflexivity|].
  destruct fl as [|[] fl]; cbn; try reflexivity;
    destruct (getitem _ 16); reflexivity.
Qed.

Lemma run_keeps_in_sync c k :
  in_sync k -> quiet k -> in_sync (snd (run c k)) /\ quiet (snd (run c k)).
Proof.
  intros Hk Hq. pose proof Hk as (b & Hb & Hblob & Hn).
  pose proof (blob_length b Hblob) as Hlen.
  destruct (valid_args c) eqn:Hv.
  2:{ rewrite (run_invalid c k b Hb (blob_nonempty b Hblob) Hv). auto. }
  destruct (is_schedule_on c) eqn:Hs.
  2:{ rewrite (run_simple c k b Hb Hblob Hv Hs). split.
      - apply in_sync__write_state; [now apply is_blob_edit|assumption].
      - now apply quiet__write_state. }
  destruct c as [| | | | | | | | |mode h m t]; try discriminate.
  assert (Hmode : mode <> OFF) by (intros ->; discriminate).
  assert (Hhm : 0 <= h <= 23 /\ 0 <= m <= 59).
  { cbn in Hv. destruct mode; [congruence| |];
      rewrite !andb_true_iff, !Z.leb_le in Hv; lia. }
  destruct Hhm as [Hh Hm]. cbn [run].
  assert (Hen : forall k1, in_sync k1 -> quiet k1 ->
                in_sync (snd (enable_with mode h m (clamp_temp t) k1))
                /\ quiet (snd (enable_with mode h m (clamp_temp t) k1))).
  { intros k1 Hk1 Hq1. pose proof Hk1 as (b1 & Hb1 & Hblob1 & _).
    rewrite (enable_with_eq mode h m t k1 b1 Hb1 Hblob1 Hh Hm).
    destruct (_ <? 256); [|auto]. split.
    - apply in_sync__write_state; [now apply is_blob_enabled|].
      destruct Hk1 as (d & H1 & H2 & H3). exists d. auto.
    - now apply quiet__write_state. }
  rewrite (set_schedule_on_eq mode h m t k b Hb (blob_nonempty b Hblob) Hmode Hh Hm).
  destruct (needs_disable (get_schedule_mode k) mode).
  - unfold bind. rewrite (disable_first_eq k b Hb Hblob). unfold bind.
    pose proof (in_sync__write_state (disabled b) k (is_blob_disabled b Hblob) Hk) as Hs1.
    pose proof (quiet__write_state (disabled b) k Hq) as Hq1.
    destruct (_write_state (disabled b) k) as [[e|[]] k1]; cbn [snd] in *; [auto|].
    rewrite (asyncio_sleep_quiet k1 Hq1). now apply Hen.
  - unfold bind at 1, ret at 1. now apply Hen.
Qed.

(** X7. The counter never drifts from the cache: if the counter is byte 16
    of the cached 17-byte blob and no notification is pending, this still
    holds after any sequence of setter calls, whatever they return and
    whichever writes fail. *)
Theorem counter_stays_byte_16_of_cache
  (cs : list call) (k : StaggEKGPro_Config) :
  in_sync k -> quiet k -> in_sync (run_all cs k) /\ quiet (run_all cs k).
Proof.
  revert k. induction cs as [|c cs IH]; intros k Hk Hq; [auto|].
  cbn [run_all]. destruct (run_keeps_in_sync c k Hk Hq). now apply IH.
Qed.

(** A rejected hour, a failing write and a two-phase mode change in a row. *)
Lemma counter_stays_byte_16_of_cache_witness :
  let k := mkConfig (Some (mkClient true [] [true] [] [])) (Some sample_blob) 6 in
  let cs := [SetClockTime 24 0 None; SetHoldTime 30; SetSchedule ONCE 7 0 85] in
  in_sync (run_all cs k) /\ quiet (run_all cs k).
Proof.
  intros k cs.
  apply (counter_stays_byte_16_of_cache cs k).
  - exists sample_blob. split; [reflexivity|]. split; [|reflexivity].
    split; [reflexivity|]. repeat constructor; unfold byte; lia.
  - reflexivity.
Defined.

(** ** The smart turn-on *)

(** X8. The trigger time of [turn_on_smart] is always a valid schedule
    time, whatever the two clock bytes hold, so the trigger never fails
    the hour or minute check; for a clock within 00:00..23:59 it is the
    next minute of the day, 23:59 rolling over to 00:00. *)
Theorem trigger_time_is_the_next_minute (h m : Z) :
  byte h -> byte m ->
  let th := fst (trigger_time h m) in
  let tm := snd (trigger_time h m) in
  0 <= th <= 23 /\ 0 <= tm <= 59
  /\ (h <= 23 -> m <= 59 -> 60 * th + tm = (60 * h + m + 1) mod 1440)
  /\ (h = 23 -> m = 59 -> th = 0 /\ tm = 0)
  /\ (m < 59 -> tm = m + 1).
Proof.
  intros Hh Hm th tm.
  destruct (trigger_time_valid h m Hh Hm) as [H1 H2]. fold th tm in H1, H2.
  split; [assumption|]. split; [assumption|]. split; [|split].
  - intros Hh' Hm'.
    pose proof (trigger_time_next_minute h m) as H.
    unfold th, tm. destruct (trigger_time h m) as [a c]. cbn [fst snd].
    unfold byte in *. apply H; lia.
  - intros -> ->. split; reflexivity.
  - intros Hlt. unfold tm, trigger_time.
    destruct (Z.leb_spec 60 (m + 1)); [lia|]. reflexivity.
Qed.

(** The clock at 12:59. *)
Lemma trigger_time_is_the_next_minute_witness :
  let th := fst (trigger_time 12 59) in
  let tm := snd (trigger_time 12 59) in
  0 <= th <= 23 /\ 0 <= tm <= 59
  /\ (12 <= 23 -> 59 <= 59 -> 60 * th + tm = (60 * 12 + 59 + 1) mod 1440)
  /\ (12 = 23 -> 59 = 59 -> th = 0 /\ tm = 0)
  /\ (59 < 59 -> tm = 59 + 1).
Proof.
  apply (trigger_time_is_the_next_minute 12 59); unfold byte; lia.
Defined.

Lemma restore_schedule_run k b k1 :
  _state_data k = Some b -> is_blob b ->
  restore_schedule (get_schedule k) k1 = run (restore_call b) k1.
Proof.
  intros Hb Hblob. rewrite (restore_schedule_call k b Hb Hblob).
  unfold restore_call.
  destruct (mode_of_blob b) as [s|]; [|reflexivity].
  destruct (String.eqb s "off") eqn:E1;
    [apply String.eqb_eq in E1; subst; reflexivity|].
  destruct (String.eqb s "daily") eqn:E2;
    [apply String.eqb_eq in E2; subst; reflexivity|].
  repeat (destruct s as [|[[] [] [] [] [] [] [] []] s]; try reflexivity).
Qed.

Lemma get_schedule_mode_disabled (y : bytearray) x cl n :
  length y = 17%nat ->
  get_schedule_mode (mkConfig cl (Some (<[16%nat:=x]> (disabled y))) n)
  = Some "off"%string.
Proof.
  intros Hlen.
  destruct (blob_explicit y Hlen)
    as (b0&b1&b2&b3&b4&b5&b6&b7&b8&b9&b10&b11&b12&b13&b14&b15&b16&->).
  unfold get_schedule_mode, disabled, at_. cbn.
  now rewrite land_lnot_same.
Qed.

(** [turn_on_smart] on a calm transport: the trigger call and, when it
    returned, the restore call on the controller it left. *)
Lemma turn_on_smart_calm temp k b :
  _state_data k = Some b -> is_blob b -> calm k ->
  let trigger :=
    SetSchedule ONCE (fst (trigger_time (at_ b 11) (at_ b 10)))
      (snd (trigger_time (at_ b 11) (at_ b 10))) (trigger_temp temp b) in
  turn_on_smart temp k =
  match run trigger k with
  | (inr _, k1) => run (restore_call b) k1
  | (inl e, k1) => (inl e, k1)
  end.
Proof.
  intros Hb Hblob Hc trigger.
  rewrite (turn_on_smart_steps temp k b Hb Hblob).
  fold (trigger_temp temp b). unfold bind at 1.
  change (set_schedule ONCE (fst (trigger_time (at_ b 11) (at_ b 10)))
            (snd (trigger_time (at_ b 11) (at_ b 10))) (trigger_temp temp b) k)
    with (run trigger k).
  destruct (run_calm trigger k b Hb Hblob Hc) as (k1 & E & Hc1 & _).
  rewrite E. destruct (outcome trigger (_counter k) b) as [e|[]]; [reflexivity|].
  unfold bind. rewrite (asyncio_sleep_quiet k1 (calm_quiet k1 Hc1)).
  now apply restore_schedule_run.
Qed.

(** X9. [turn_on_smart] started with the schedule off, on a transport
    where nothing fails and nothing is notified, and with the cached byte
    16 not 0xF7 or 0xFF: it completes after exactly two writes, the ONCE
    trigger at the trigger time and temperature, then the OFF encoding; the
    schedule ends off, every byte other than 0, 6, 8, 9 and 16 is as it was
    found, and the counter has advanced by two. *)
Theorem turn_on_smart_from_off_ends_off
  (temp : option Q) (k : StaggEKGPro_Config) (b : bytearray) :
  _state_data k = Some b -> is_blob b -> calm k ->
  get_schedule_mode k = Some "off"%string -> Z.lor (at_ b 16) 0x08 <> 255 ->
  exists k' trigger off,
    turn_on_smart temp k = (inr tt, k')
    /\ writes_of (turn_on_smart temp) k = [trigger; off]
    /\ _state_data k' = Some off
    /\ get_schedule_mode k' = Some "off"%string
    /\ (Z.testbit (at_ trigger 0) 3 = true
        /\ at_ trigger 9 = fst (trigger_time (at_ b 11) (at_ b 10))
        /\ at_ trigger 8 = snd (trigger_time (at_ b 11) (at_ b 10))
        /\ at_ trigger 6 = py_int (clamp_temp (trigger_temp temp b) * 2)
        /\ at_ trigger 16 = (_counter k + 1) mod 256)
    /\ (Z.testbit (at_ off 0) 3 = false
        /\ at_ off 6 = 0xc0 /\ at_ off 8 = 0 /\ at_ off 9 = 0
        /\ at_ off 16 = (_counter k + 2) mod 256)
    /\ (forall i, i <> 0%nat -> i <> 6%nat -> i <> 8%nat -> i <> 9%nat ->
                  i <> 16%nat -> off !! i = b !! i).
Proof.
  intros Hb Hblob Hc Hoff Hno.
  pose proof (blob_length b Hblob) as Hlen.
  rewrite (get_schedule_mode_cached k b Hb) in Hoff.
  set (th := fst (trigger_time (at_ b 11) (at_ b 10))).
  set (tm := snd (trigger_time (at_ b 11) (at_ b 10))).
  set (tt' := trigger_temp temp b).
  assert (Hbytes : Forall byte b) by apply Hblob.
  destruct (trigger_time_valid (at_ b 11) (at_ b 10)
              (at_byte b 11 Hbytes) (at_byte b 10 Hbytes)) as [Hth Htm].
  fold th tm in Hth, Htm.
  assert (Ho : overflows (SetSchedule ONCE th tm tt') (_counter k) b = false).
  { cbn [overflows]. rewrite Hoff. cbn [needs_disable].
    apply negb_false_iff, Z.ltb_lt. unfold mode_byte.
    pose proof (byte_lor_small (at_ b 16) 8 (at_byte b 16 Hbytes)
                  ltac:(unfold byte; lia)) as [_ Hlt]. lia. }
  destruct (set_schedule_writes ONCE th tm tt' k b Hb Hblob Hc
              ltac:(discriminate) Hth Htm Ho) as [Hfst Hw].
  cbv zeta in Hw. rewrite (get_schedule_mode_cached k b Hb), Hoff in Hw.
  change (needs_disable (Some "off"%string) ONCE) with false in Hw.
  cbv iota in Hw.
  destruct (run_calm (SetSchedule ONCE th tm tt') k b Hb Hblob Hc)
    as (k1 & E1 & Hc1 & Hw1 & Hn1 & Hs1).
  cbv zeta in *. cbn [run] in E1.
  assert (Hout : outcome (SetSchedule ONCE th tm tt') (_counter k) b = inr tt)
    by (rewrite E1 in Hfst; exact Hfst).
  rewrite Hout in E1.
  assert (Hpl : planned (SetSchedule ONCE th tm tt') (_counter k) b
                = [<[16%nat:=bump (_counter k)]> (enabled th tm tt' b)]).
  { rewrite <- Hw. symmetry. apply writes_of_app. rewrite E1. exact Hw1. }
  rewrite Hpl in Hw1, Hn1, Hs1. cbn in Hn1, Hs1.
  set (w1 := <[16%nat:=bump (_counter k)]> (enabled th tm tt' b)) in *.
  assert (Hblob1 : is_blob w1).
  { apply is_blob_insert; [now apply is_blob_enabled|apply byte_bump]. }
  pose proof (run_simple (SetSchedule OFF 0 0 85) k1 w1 Hs1 Hblob1 eq_refl eq_refl) as E2.
  cbn [edit] in E2.
  rewrite _write_state_ok in E2
    by (try (now apply calm_next_write_ok);
        rewrite disabled_length, (blob_length _ Hblob1); lia).
  set (w2 := <[16%nat:=next_counter k1]> (disabled w1)).
  assert (Hrc : restore_call b = SetSchedule OFF 0 0 85)
    by (unfold restore_call; now rewrite Hoff).
  assert (Et : turn_on_smart temp k = (inr tt, committed (disabled w1) k1)).
  { rewrite (turn_on_smart_calm temp k b Hb Hblob Hc).
    fold th tm tt'. cbn [run]. rewrite E1, Hrc. exact E2. }
  exists (committed (disabled w1) k1), w1, w2.
  split; [exact Et|]. split.
  { apply writes_of_app. rewrite Et. cbn [snd].
    rewrite written_committed by (now apply next_write_ok_client, calm_next_write_ok).
    rewrite Hw1, <- app_assoc. reflexivity. }
  split; [reflexivity|].
  destruct (enabled_fields th tm tt' b (bump (_counter k)) Hblob)
    as (F0 & F6 & F8 & F9 & F16).
  destruct (disabled_fields w1 (next_counter k1) Hblob1)
    as (G0 & G6 & G8 & G9 & G16).
  cbv zeta in *. fold w1 in F0, F6, F8, F9, F16. fold w2 in G0, G6, G8, G9, G16.
  split.
  { unfold committed. apply get_schedule_mode_disabled.
    apply (blob_length _ Hblob1). }
  split.
  { repeat (split; [assumption|]). rewrite F16. apply bump_mod. }
  split.
  { repeat (split; [assumption|]). rewrite G16. unfold next_counter.
    rewrite Hn1, !bump_mod, Z.add_mod_idemp_l by lia. f_equal. lia. }
  intros i H0 H6 H8 H9 H16. unfold w2, w1, disabled, enabled.
  now rewrite !list_lookup_insert_ne by auto.
Qed.

(** From the sample blob with the schedule off, at 12:30 and 85 degrees. *)
Lemma turn_on_smart_from_off_ends_off_witness :
  let k := fresh sample_off in
  exists k' trigger off,
    turn_on_smart None k = (inr tt, k')
    /\ writes_of (turn_on_smart None) k = [trigger; off]
    /\ _state_data k' = Some off
    /\ get_schedule_mode k' = Some "off"%string
    /\ (Z.testbit (at_ trigger 0) 3 = true
        /\ at_ trigger 9 = fst (trigger_time (at_ sample_off 11) (at_ sample_off 10))
        /\ at_ trigger 8 = snd (trigger_time (at_ sample_off 11) (at_ sample_off 10))
        /\ at_ trigger 6 = py_int (clamp_temp (trigger_temp None sample_off) * 2)
        /\ at_ trigger 16 = (_counter k + 1) mod 256)
    /\ (Z.testbit (at_ off 0) 3 = false
        /\ at_ off 6 = 0xc0 /\ at_ off 8 = 0 /\ at_ off 9 = 0
        /\ at_ off 16 = (_counter k + 2) mod 256)
    /\ (forall i, i <> 0%nat -> i <> 6%nat -> i <> 8%nat -> i <> 9%nat ->
                  i <> 16%nat -> off !! i = sample_off !! i).
Proof.
  intros k.
  apply (turn_on_smart_from_off_ends_off None k sample_off).
  - reflexivity.
  - split; [reflexivity|]. repeat constructor; unfold byte; lia.
  - repeat split; reflexivity.
  - reflexivity.
  - vm_compute. discriminate.
Defined.

Lemma reencode_clamped v :
  byte v -> py_int (clamp_temp (halve v) * 2) = Z.min v 200.
Proof.
  intros [H1 H2]. destruct (Z.le_gt_cases v 200) as [Hle|Hgt].
  - rewrite Z.min_l by assumption. apply reencode_temp; [lia|reflexivity].
  - rewrite Z.min_r by lia.
    assert (E : clamp_temp (halve v) = 100%Q).
    { unfold clamp_temp, py_max, py_min.
      replace (Qle_bool 100 (halve v)) with true; [reflexivity|].
      symmetry. apply Qle_bool_iff.
      unfold halve, Qle, Qdiv, Qmult, Qinv, inject_Z. cbn. lia. }
    rewrite E. reflexivity.
Qed.

(** X10. When [turn_on_smart] completes from an enabled schedule, on a
    transport where nothing fails and nothing is notified, the schedule is
    enabled at the hour and the minute that were backed up and at the
    backed-up temperature, cut to 100 degrees if byte 6 was above 200; the
    mode then reported is bit 3 of the write counter. *)
Theorem turn_on_smart_restores_time_and_temperature
  (temp : option Q) (k k' : StaggEKGPro_Config) (b : bytearray) :
  _state_data k = Some b -> is_blob b -> calm k ->
  schedule_enabled (get_schedule k) = Some true ->
  turn_on_smart temp k = (inr tt, k') ->
  schedule_hour (get_schedule k) = Some (at_ b 9)
  /\ schedule_minute (get_schedule k) = Some (at_ b 8)
  /\ schedule_temperature (get_schedule k) = Some (halve (at_ b 6))
  /\ get_schedule k'
     = mkSchedule (Some (if Z.testbit (_counter k') 3 then "once" else "daily")%string)
         (Some true) (Some (halve (Z.min (at_ b 6) 200)))
         (Some (at_ b 9)) (Some (at_ b 8)).
Proof.
  intros Hb Hblob Hc Hen E.
  pose proof (blob_length b Hblob) as Hlen.
  assert (Hbytes : Forall byte b) by apply Hblob.
  pose proof (at_byte b 6 Hbytes) as H6.
  rewrite (turn_on_smart_calm temp k b Hb Hblob Hc) in E.
  set (trigger := SetSchedule ONCE (fst (trigger_time (at_ b 11) (at_ b 10)))
                    (snd (trigger_time (at_ b 11) (at_ b 10)))
                    (trigger_temp temp b)) in *.
  destruct (run_calm trigger k b Hb Hblob Hc) as (k1 & E1 & Hc1 & _ & _ & Hs1).
  cbv zeta in Hs1. rewrite E1 in E.
  destruct (outcome trigger (_counter k) b) as [e|[]]; [discriminate|].
  pose proof (planned_last_blob trigger (_counter k) b Hblob) as Hblob1.
  set (b1 := default b (last (planned trigger (_counter k) b))) in *.
  assert (Hfacts :
            schedule_hour (get_schedule k) = Some (at_ b 9)
            /\ schedule_minute (get_schedule k) = Some (at_ b 8)
            /\ schedule_temperature (get_schedule k) = Some (halve (at_ b 6))
            /\ exists mode, mode <> OFF
                 /\ restore_call b
                    = SetSchedule mode (at_ b 9) (at_ b 8) (halve (at_ b 6))).
  { clear E E1 Hs1 Hblob1 b1.
    unfold restore_call, mode_of_blob, get_schedule_mode.
    unfold get_schedule in *. rewrite Hb in *.
    destruct (blob_explicit b Hlen)
      as (b0&c1&b2&b3&b4&b5&b6&b7&b8&b9&b10&b11&b12&b13&b14&b15&b16&->).
    cbn in Hen |- *.
    destruct (Z.land b0 8 =? 0); [discriminate|].
    repeat (split; [reflexivity|]).
    destruct (Z.land (Z.shiftr b16 3) 1 =? 1);
      eexists; (split; [|reflexivity]); discriminate. }
  destruct Hfacts as (F1 & F2 & F3 & mode & Hmode & Hrc).
  split; [assumption|]. split; [assumption|]. split; [assumption|].
  rewrite Hrc in E. cbn [run] in E.
  destruct (set_schedule_read_back mode (at_ b 9) (at_ b 8) (halve (at_ b 6))
              k1 k' b1 Hs1 Hblob1 Hc1 Hmode E) as [Hg _].
  rewrite Hg, (reencode_clamped _ H6). reflexivity.
Qed.

(** From the sample blob: DAILY at 07:00 and 85 degrees. *)
Lemma turn_on_smart_restores_time_and_temperature_witness :
  let k := fresh sample_blob in
  let k' := snd (turn_on_smart None k) in
  schedule_hour (get_schedule k) = Some 7
  /\ schedule_minute (get_schedule k) = Some 0
  /\ schedule_temperature (get_schedule k) = Some (halve 170)
  /\ get_schedule k'
     = mkSchedule (Some (if Z.testbit (_counter k') 3 then "once" else "daily")%string)
         (Some true) (Some (halve (Z.min 170 200))) (Some 7) (Some 0).
Proof.
  intros k k'.
  apply (turn_on_smart_restores_time_and_temperature None k k' sample_blob).
  - reflexivity.
  - split; [reflexivity|]. repeat constructor; unfold byte; lia.
  - repeat split; reflexivity.
  - reflexivity.
  - reflexivity.
Defined.

(** ** Schedule time helpers *)

(** X11. [encode_schedule_time] accepts exactly the hours 0..23 and minutes
    0..59 and raises [ValueError] otherwise; its two bytes put at indexes 8
    and 9 of a blob decode to the same hour and minute with
    [decode_schedule_time], which raises [IndexError] on fewer than ten
    bytes; and the blob cached after a ONCE or DAILY [set_schedule] has
    gone through decodes to the hour and minute that were set. *)
Theorem schedule_time_round_trip (hour minute : Z) (data : bytearray) :
  (10 <= length data)%nat ->
  (0 <= hour <= 23 /\ 0 <= minute <= 59 ->
   exists bs,
     encode_schedule_time hour minute = inr bs /\ length bs = 2%nat
     /\ decode_schedule_time (take 8 data ++ bs ++ drop 10 data)
        = inr (hour, minute))
  /\ (~ (0 <= hour <= 23 /\ 0 <= minute <= 59) ->
      encode_schedule_time hour minute = inl ValueError)
  /\ (forall d : bytearray,
        (length d < 10)%nat -> decode_schedule_time d = inl IndexError)
  /\ (forall mode t k k' b,
        _state_data k = Some b -> is_blob b -> calm k -> mode <> OFF ->
        set_schedule mode hour minute t k = (inr tt, k') ->
        exists d, _state_data k' = Some d
                  /\ decode_schedule_time d = inr (hour, minute)).
Proof.
  intros Hlen. split; [|split; [|split]].
  - intros [Hh Hm]. exists [minute; hour]. split; [|split; [reflexivity|]].
    + unfold encode_schedule_time.
      replace ((0 <=? hour) && (hour <=? 23)) with true
        by (symmetry; apply andb_true_iff; split; apply Z.leb_le; lia).
      replace ((0 <=? minute) && (minute <=? 59)) with true
        by (symmetry; apply andb_true_iff; split; apply Z.leb_le; lia).
      reflexivity.
    + assert (Ht : length (take 8 data) = 8%nat) by (rewrite length_take; lia).
      unfold decode_schedule_time, getitem.
      rewrite (lookup_app_r (take 8 data)) by lia.
      rewrite Ht. cbn.
      rewrite (lookup_app_r (take 8 data)) by lia.
      rewrite Ht. reflexivity.
  - intros Hbad. unfold encode_schedule_time.
    destruct ((0 <=? hour) && (hour <=? 23)) eqn:E1; [|reflexivity].
    destruct ((0 <=? minute) && (minute <=? 59)) eqn:E2; [|reflexivity].
    rewrite !andb_true_iff, !Z.leb_le in E1, E2. tauto.
  - intros d Hd. unfold decode_schedule_time, getitem.
    destruct (d !! 8%nat) eqn:E8; [|reflexivity].
    destruct (d !! 9%nat) eqn:E9; [|reflexivity].
    apply lookup_lt_Some in E9. lia.
  - intros mode t k k' b Hb Hblob Hc Hmode E.
    destruct (set_schedule_read_back mode hour minute t k k' b Hb Hblob Hc Hmode E)
      as [Hg _].
    unfold get_schedule in Hg.
    destruct (_state_data k') as [d|]; [|discriminate].
    exists d. split; [reflexivity|].
    destruct (negb (truthy (Some d)) || (length d <? 17)%nat); [discriminate|].
    unfold decode_schedule_time, getitem.
    destruct (d !! 0%nat); [|discriminate].
    destruct (d !! 16%nat); [|discriminate].
    destruct (d !! 6%nat); [|discriminate].
    destruct (d !! 8%nat); [|discriminate].
    destruct (d !! 9%nat); [|discriminate].
    destruct (Z.land _ 8 =? 0); [discriminate|].
    now injection Hg as _ _ -> ->.
Qed.

(** 06:45 put into the sample blob. *)
Lemma schedule_time_round_trip_witness :
  exists bs,
    encode_schedule_time 6 45 = inr bs /\ length bs = 2%nat
    /\ decode_schedule_time (take 8 sample_blob ++ bs ++ drop 10 sample_blob)
       = inr (6, 45).
Proof.
  apply (schedule_time_round_trip 6 45 sample_blob).
  - cbn. lia.
  - lia.
Defined.

(** ** The state snapshot *)

(** X12. [get_state] is empty exactly when nothing, or fewer than 17
    bytes, is cached; otherwise each of its entries is what the
    corresponding getter returns, the counter is byte 16, and the two
    flags say whether the hold time and the chime volume are above zero. *)
Theorem get_state_agrees_with_getters (k : StaggEKGPro_Config) :
  (get_state k = None <->
   forall d, _state_data k = Some d -> (length d < 17)%nat)
  /\ (forall s, get_state k = Some s ->
        get_target_temperature k = inr (Some (target_temperature s))
        /\ get_units k = inr (Some (units s))
        /\ get_pre_boil k = inr (Some (pre_boil_enabled s))
        /\ get_altitude k = Some (altitude_meters s)
        /\ get_clock_mode k = Some (clock_mode s)
        /\ get_clock_time k = Some (clock_hours s, clock_minutes s)
        /\ get_hold_time k = inr (Some (hold_time_minutes s))
        /\ get_chime_volume k = inr (Some (chime_volume s))
        /\ (hold_enabled s = true <-> 0 < hold_time_minutes s)
        /\ (chime_enabled s = true <-> 0 < chime_volume s)
        /\ (exists d, _state_data k = Some d /\ counter s = at_ d 16
                      /\ raw_data s = hex d)).
Proof.
  unfold get_state, peek_long.
  destruct (_state_data k) as [d|] eqn:Hd.
  2:{ split; [split; [discriminate|reflexivity]|discriminate]. }
  destruct (Nat.ltb_spec (length d) 17) as [Hlt|Hge].
  - rewrite orb_true_r. split; [|discriminate].
    split; [intros _ d' [= <-]; assumption|reflexivity].
  - assert (Ht : truthy (Some d) = true) by (destruct d; [cbn in Hge; lia|reflexivity]).
    rewrite Ht. cbn [negb orb]. split.
    + split; [discriminate|]. intros H. specialize (H d eq_refl). lia.
    + intros s [= <-]. cbn.
      unfold get_target_temperature, get_units, get_pre_boil, get_hold_time,
        get_chime_volume, get_clock_mode, get_clock_time, peek, peek_long.
      rewrite Hd, Ht. cbn [negb orb].
      replace (length d <? 13)%nat with false by (symmetry; apply Nat.ltb_ge; lia).
      replace (length d <? 12)%nat with false by (symmetry; apply Nat.ltb_ge; lia).
      rewrite !getitem_ok by lia.
      assert (Halt : exists a, get_altitude k = Some a).
      { unfold get_altitude. rewrite Hd, Ht. cbn [negb orb].
        replace (length d <? 4)%nat with false by (symmetry; apply Nat.ltb_ge; lia).
        destruct (d !! 2%nat) eqn:E2; [|apply lookup_ge_None in E2; lia].
        destruct (d !! 3%nat) eqn:E3; [|apply lookup_ge_None in E3; lia].
        eexists; reflexivity. }
      destruct Halt as [a Ha]. rewrite Ha.
      repeat (split; [reflexivity|]).
      split; [now repeat destruct (_ =? _)|].
      repeat (split; [reflexivity|]).
      split; [apply Z.ltb_lt|]. split; [apply Z.ltb_lt|].
      exists d. auto.
Qed.

(** ** Without a connection *)

Lemma aborts_bind {A B} (m : coro A) (f : A -> coro B) k :
  aborts m k -> aborts (bind m f) k.
Proof. intros [e He]. exists e. unfold bind. now rewrite He. Qed.

Lemma offline__write_state d k :
  offline k -> _write_state d k = (inl RuntimeError, k).
Proof.
  intros H. unfold _write_state, bind, require_connected.
  destruct (client k) as [c|] eqn:E; [|reflexivity].
  now rewrite (H c E).
Qed.

Lemma offline_refresh_state k :
  offline k -> refresh_state k = (inl RuntimeError, k).
Proof.
  intros H. unfold refresh_state, bind, require_connected.
  destruct (client k) as [c|] eqn:E; [|reflexivity].
  now rewrite (H c E).
Qed.

Ltac unwritable Hw :=
  repeat first
    [ apply aborts_raise
    | apply Hw
    | apply aborts_eval; intros ? ?
    | eapply aborts_after; [reflexivity|]; cbv beta
    | apply aborts_bind; apply Hw ].

(** Where no write and no read can go out, no call gets anywhere. *)
Lemma unwritable_aborts (c : call) (temp : option Q) (k : StaggEKGPro_Config) :
  (forall d, aborts (_write_state d) k) -> aborts refresh_state k ->
  aborts (run c) k /\ aborts (turn_on_smart temp) k.
Proof.
  intros Hw Hr.
  destruct (truthy (_state_data k)) eqn:Ht.
  2:{ assert (He : aborts ensure_state k).
      { destruct Hr as [e He]. exists e.
        unfold ensure_state, bind, this. now rewrite Ht. }
      split; [destruct c; cbn [run]|]; now apply aborts_bind. }
  pose proof (ensure_state_fallthrough k Ht) as Hs.
  destruct (_state_data k) as [b|] eqn:Hb; [|discriminate].
  pose proof (copy_state_cached k b Hb) as Hc.
  assert (Hen : forall mode h m t, aborts (enable_with mode h m t) k).
  { intros mode h m t. unfold enable_with.
    eapply aborts_after; [exact Hc|]. destruct mode; unwritable Hw. }
  assert (Hsched : forall mode h m t, aborts (set_schedule mode h m t) k).
  { intros mode h m t. unfold set_schedule.
    eapply aborts_after; [exact Hs|]. cbv beta.
    assert (Hon : forall mode',
               aborts ((if needs_disable (get_schedule_mode k) mode'
                        then disable_first else ret tt) ;;;
                       enable_with mode' h m (py_max 0 (py_min 100 t))) k).
    { intros mode'. destruct (needs_disable _ _).
      - apply aborts_bind. unfold disable_first.
        eapply aborts_after; [exact Hc|]. unwritable Hw.
      - eapply aborts_after; [reflexivity|]. apply Hen. }
    destruct mode.
    - eapply aborts_after; [exact Hc|]. unwritable Hw.
    - destruct (negb _); [apply aborts_raise|].
      destruct (negb _); [apply aborts_raise|].
      eapply aborts_after; [reflexivity|]. apply Hon.
    - destruct (negb _); [apply aborts_raise|].
      destruct (negb _); [apply aborts_raise|].
      eapply aborts_after; [reflexivity|]. apply Hon. }
  split.
  - destruct c as [t|u|md|h m md|v|e|m|a|l|mode h m t]; cbn [run];
      try apply Hsched.
    + unfold set_target_temperature.
      eapply aborts_after; [exact Hs|]. cbv beta.
      eapply aborts_after; [exact Hc|]. unwritable Hw.
    + unfold set_units.
      eapply aborts_after; [exact Hs|]. cbv beta.
      eapply aborts_after; [exact Hc|]. destruct u; unwritable Hw.
    + unfold set_clock_mode.
      eapply aborts_after; [exact Hs|]. cbv beta.
      eapply aborts_after; [exact Hc|]. unwritable Hw.
    + unfold set_clock_time.
      eapply aborts_after; [exact Hs|]. cbv beta.
      destruct (negb _); [apply aborts_raise|].
      destruct (negb _); [apply aborts_raise|].
      eapply aborts_after; [exact Hc|].
      apply aborts_eval; intros d1 H1. apply aborts_eval; intros d2 H2.
      destruct md as [md|]; unwritable Hw.
    + unfold set_chime_volume.
      eapply aborts_after; [exact Hs|]. cbv beta.
      eapply aborts_after; [exact Hc|]. unwritable Hw.
    + unfold set_pre_boil.
      eapply aborts_after; [exact Hs|]. cbv beta.
      eapply aborts_after; [exact Hc|]. destruct e; unwritable Hw.
    + unfold set_hold_time.
      eapply aborts_after; [exact Hs|]. cbv beta.
      eapply aborts_after; [exact Hc|]. unwritable Hw.
    + unfold set_altitude.
      eapply aborts_after; [exact Hs|]. cbv beta.
      eapply aborts_after; [exact Hc|]. unwritable Hw.
    + unfold set_language.
      eapply aborts_after; [exact Hs|]. cbv beta.
      eapply aborts_after; [exact Hc|]. unwritable Hw.
  - unfold turn_on_smart.
    eapply aborts_after; [exact Hs|]. cbv beta.
    eapply aborts_after; [reflexivity|]. cbv beta.
    eapply aborts_after; [exact Hc|].
    apply aborts_eval; intros ch Hch. apply aborts_eval; intros cm Hcm.
    destruct (trigger_time ch cm) as [th tm].
    destruct (temp_given temp) as [t|].
    + eapply aborts_after; [reflexivity|].
      apply aborts_bind, Hsched.
    + unfold bind at 1. unfold bind at 1, eval at 1.
      destruct (getitem b 4) as [e|b4]; [now exists e|].
      unfold ret. apply aborts_bind, Hsched.
Qed.



(** ** Connecting and disconnecting *)

Lemma connect_linked c k :
  is_connected c = true ->
  connect (Linked c false) k
  = (match fst (refresh_state (with_client c k)) with inr _ => true | inl _ => false end,
     snd (refresh_state (with_client c k))).
Proof.
  intros Hc. unfold connect. rewrite Hc.
  now destruct (refresh_state (with_client c k)) as [[e|[]] k'].
Qed.

Lemma disconnect_offline k k' :
  disconnect false k = (inr tt, k') ->
  offline k' /\ _state_data k' = _state_data k /\ _counter k' = _counter k
  /\ written k' = written k.
Proof.
  unfold disconnect, offline, written.
  destruct k as [[cl|] sd n]; cbn.
  - destruct cl as [conn rd fl wr nt]; cbn.
    destruct conn; intros [= <-]; cbn; repeat split; try reflexivity;
      now intros c0 [= <-].
  - intros [= <-]. cbn. repeat split; try reflexivity. discriminate.
Qed.

(** X14. [connect] answers [True] exactly when the stack hands over a
    connected client, [start_notify] does not raise and the first read
    returns at least 17 bytes; the controller then caches those bytes,
    takes the counter from their byte 16 and has a state to report.  An
    answer of [False] does not undo what was done: a client that got
    connected stays connected, and a first read shorter than 17 bytes is
    left in the cache.  [disconnect] does nothing without a connected
    client (and so never raises then); when it returns, the controller is
    offline with its cache and counter kept. *)
Theorem connect_outcome (d : Dial) (k : StaggEKGPro_Config) :
  (fst (connect d k) = true <->
   exists c data rest,
     d = Linked c false /\ is_connected c = true
     /\ gatt_reads c = Some data :: rest /\ (17 <= length data)%nat)
  /\ (forall k', connect d k = (true, k') ->
        exists data, _state_data k' = Some data /\ (17 <= length data)%nat
                     /\ _counter k' = at_ data 16
                     /\ get_state k' <> None /\ ~ offline k')
  /\ (forall c nr, d = Linked c nr -> is_connected c = true ->
        ~ offline (snd (connect d k)))
  /\ (forall c data rest,
        d = Linked c false -> is_connected c = true ->
        gatt_reads c = Some data :: rest -> (length data < 17)%nat ->
        fst (connect d k) = false
        /\ _state_data (snd (connect d k)) = Some data
        /\ _counter (snd (connect d k)) = _counter k)
  /\ (d = NoClient -> connect d k = (false, k))
  /\ (forall raises, offline k -> disconnect raises k = (inr tt, k))
  /\ (forall k', disconnect false k = (inr tt, k') ->
        offline k' /\ _state_data k' = _state_data k
        /\ _counter k' = _counter k /\ written k' = written k).
Proof.
  assert (Hkeep : forall c nr, is_connected c = true ->
            exists c', client (snd (connect (Linked c nr) k)) = Some c'
                       /\ is_connected c' = true).
  { intros c nr Hc. unfold connect. rewrite Hc.
    destruct nr; [exists c; auto|].
    destruct c as [conn rd fl wr nt]. cbn in Hc. subst conn.
    unfold refresh_state, bind, require_connected, read_gatt_char, this, put,
      eval. cbn.
    destruct rd as [|[data|] rd]; cbn; [eexists; eauto| |eexists; eauto].
    destruct (getitem data 16); cbn; eexists; eauto. }
  assert (Hread : forall c, is_connected c = true ->
            forall k', refresh_state (with_client c k) = (inr tt, k') ->
            exists data rest,
              gatt_reads c = Some data :: rest /\ _state_data k' = Some data
              /\ (17 <= length data)%nat /\ _counter k' = at_ data 16).
  { intros c Hc k' E.
    destruct (refresh_state_cases (with_client c k)) as (_ & H & _).
    destruct (H k' E) as (c0 & data & rest & [= <-] & Hrd & Hsd & Hlen & Hn).
    exists data, rest. auto. }
  split; [|split; [|split; [|split; [|split; [|split]]]]].
  - split.
    + destruct d as [|c|c nr]; cbn; try discriminate.
      destruct (is_connected c) eqn:Hc; [|discriminate].
      destruct nr; [discriminate|].
      destruct (refresh_state (with_client c k)) as [[e|[]] k'] eqn:E;
        [discriminate|].
      intros _. destruct (Hread c Hc k' E) as (data & rest & Hrd & _ & Hlen & _).
      exists c, data, rest. auto.
    + intros (c & data & rest & -> & Hc & Hrd & Hlen).
      rewrite (connect_linked c k Hc).
      destruct c as [conn rd fl wr nt]. cbn in Hc, Hrd. subst conn rd.
      unfold refresh_state, bind, require_connected, read_gatt_char, this, put,
        eval, getitem. cbn.
      destruct (data !! 16%nat) eqn:E16; [reflexivity|].
      apply lookup_ge_None in E16. lia.
  - intros k' E.
    destruct d as [|c|c nr]; cbn in E; try discriminate.
    destruct (is_connected c) eqn:Hc; [|discriminate].
    destruct nr; [discriminate|].
    destruct (refresh_state (with_client c k)) as [[e|[]] k1] eqn:E1;
      [discriminate|].
    injection E as <-.
    destruct (Hread c Hc k1 E1) as (data & rest & Hrd & Hsd & Hlen & Hn).
    exists data. repeat (split; [assumption|]). split.
    * unfold get_state, peek_long. rewrite Hsd.
      replace (length data <? 17)%nat with false by (symmetry; apply Nat.ltb_ge; lia).
      destruct data; [cbn in Hlen; lia|]. discriminate.
    * destruct (Hkeep c false Hc) as (c' & Hc' & Hconn).
      unfold connect in Hc'. rewrite Hc, E1 in Hc'. cbn in Hc'.
      intros Hoff. rewrite (Hoff c' Hc') in Hconn. discriminate.
  - intros c nr -> Hc Hoff.
    destruct (Hkeep c nr Hc) as (c' & Hc' & Hconn).
    rewrite (Hoff c' Hc') in Hconn. discriminate.
  - intros c data rest -> Hc Hrd Hlen.
    rewrite (connect_linked c k Hc).
    destruct (refresh_state_cases (with_client c k)) as (_ & _ & _ & H).
    destruct (H c data rest eq_refl Hc Hrd Hlen) as (H1 & H2 & H3).
    cbn [fst snd]. rewrite H1. auto.
  - intros ->. reflexivity.
  - intros raises Hoff. unfold disconnect.
    destruct (client k) as [c|] eqn:E; [|reflexivity].
    now rewrite (Hoff c E).
  - apply disconnect_offline.
Qed.

(** ** The coordinator *)

Lemma refresh_state_long k k' :
  refresh_state k = (inr tt, k') ->
  exists b, _state_data k' = Some b /\ (17 <= length b)%nat
            /\ _counter k' = at_ b 16 /\ get_state k' <> None.
Proof.
  intros E. destruct (refresh_state_cases k) as (_ & H & _).
  destruct (H k' E) as (c & d & rest & _ & _ & Hsd & Hlen & Hn).
  exists d. repeat (split; [assumption|]).
  unfold get_state, peek_long. rewrite Hsd.
  replace (length d <? 17)%nat with false by (symmetry; apply Nat.ltb_ge; lia).
  destruct d; [cbn in Hlen; lia|]. discriminate.
Qed.

Lemma hang_up_keeps s :
  _connected (hang_up s) = _connected s
  /\ _retry_count (hang_up s) = _retry_count s
  /\ data (hang_up s) = data s
  /\ _state_data (kettle (hang_up s)) = _state_data (kettle s)
  /\ _counter (kettle (hang_up s)) = _counter (kettle s)
  /\ written (kettle (hang_up s)) = written (kettle s)
  /\ (hd false (hangups s) = false -> offline (kettle (hang_up s))).
Proof.
  unfold hang_up, kettle_disconnect, disconnect, offline, written.
  destruct s as [[[c|] sd n] conn rc dt ds hs]; cbn.
  2:{ repeat split; discriminate. }
  destruct c as [up rd fl wr nt]; cbn. destruct up; cbn.
  - destruct (hd false hs); cbn; repeat split; try discriminate.
    now intros _ c [= <-].
  - repeat split. now intros _ c [= <-].
Qed.

Lemma poll_outcome_connect (s : StaggEKGProCoordinator) :
  _connected s = false -> fst (kettle_connect s) = false ->
  let r := fst (_async_update_data s) in
  let s' := snd (_async_update_data s) in
  r = inl UpdateFailed /\ _retry_count s' = _retry_count s + 1
  /\ kettle s' = kettle (snd (kettle_connect s))
  /\ hangups s' = hangups s.
Proof.
  intros Hconn Hf r s'. subst r s'. unfold _async_update_data.
  rewrite Hconn. cbn [negb]. unfold kettle_connect in *.
  destruct (connect (hd NoClient (dials s)) (kettle s)) as [ok k0].
  cbn in Hf. subst ok. cbn. auto.
Qed.

(** X15. A poll ([_async_update_data]) raises nothing but [UpdateFailed].
    When it returns, the kettle is available, the retry count is zero,
    and the data returned is the state and the schedule of the blob just
    read, which has at least 17 bytes.  When it fails, the kettle is
    unavailable and the retry count is the previous one plus one, or one
    when the failure came right after a fresh connection.  A failure of
    [connect] itself is not followed by a disconnect: the controller is
    left as [connect] left it. *)
Theorem poll_outcome (s : StaggEKGProCoordinator) :
  let r := fst (_async_update_data s) in
  let s' := snd (_async_update_data s) in
  data s' = data s
  /\ (forall rd, r = inr rd ->
        available s' = true /\ _retry_count s' = 0
        /\ rd = reading_of (kettle s') /\ reading_state rd <> None
        /\ exists b, _state_data (kettle s') = Some b /\ (17 <= length b)%nat
                     /\ _counter (kettle s') = at_ b 16)
  /\ (forall f, r = inl f ->
        f = UpdateFailed /\ available s' = false
        /\ (_retry_count s' = _retry_count s + 1 \/ _retry_count s' = 1))
  /\ (_connected s = false -> fst (kettle_connect s) = false ->
        r = inl UpdateFailed /\ _retry_count s' = _retry_count s + 1
        /\ kettle s' = kettle (snd (kettle_connect s))
        /\ hangups s' = hangups s).
Proof.
  intros r s'. subst r s'. unfold _async_update_data, available.
  destruct (_connected s) eqn:Hconn; cbn [negb].
  - destruct (refresh_state (kettle s)) as [[e|[]] k] eqn:E.
    + cbn [fst snd]. pose proof (hang_up_keeps
        (set_retry_count (_retry_count (set_connected false (set_kettle k s)) + 1)
           (set_connected false (set_kettle k s)))) as (H1 & H2 & H3 & _).
      rewrite H1, H2, H3. cbn.
      split; [reflexivity|]. split; [discriminate|].
      split; [|discriminate]. intros f [= <-]. auto.
    + cbn [fst snd]. cbn.
      split; [reflexivity|]. split; [|split; discriminate].
      intros rd [= <-].
      destruct (refresh_state_long _ _ E) as (b & Hb & Hlen & Hn & Hst).
      repeat (split; [first [assumption|reflexivity]|]). eauto.
  - unfold kettle_connect.
    destruct (connect (hd NoClient (dials s)) (kettle s)) as [[] k0] eqn:Ec;
      cbn [negb fst snd].
    + cbn [kettle set_retry_count set_connected].
      destruct (refresh_state k0) as [[e|[]] k] eqn:E; cbn [fst snd].
      * match goal with |- context [hang_up ?x] =>
          pose proof (hang_up_keeps x) as (H1 & H2 & H3 & _) end.
        rewrite H1, H2, H3. cbn.
        split; [reflexivity|]. split; [discriminate|].
        split; [|discriminate]. intros f [= <-]. auto.
      * cbn. split; [reflexivity|]. split; [|split; discriminate].
        intros rd [= <-].
        destruct (refresh_state_long _ _ E) as (b & Hb & Hlen & Hn & Hst).
        repeat (split; [first [assumption|reflexivity]|]). eauto.
    + cbn. split; [reflexivity|]. split; [discriminate|].
      split; [|auto]. intros f [= <-]. auto.
Qed.

(** X16. A write through the coordinator ([async_write_kettle]) never
    touches the retry count.  When it returns, the kettle is available
    and the coordinator's data is the state and the schedule of the blob
    read back after the write (at least 17 bytes), not of the payload
    written.  When it raises, the kettle is marked unavailable and the
    data is left as it was; an exception of the setter, a rejected
    argument included, is passed on as it is and costs the connection:
    the client is disconnected (unless [disconnect] raises) while the
    cache and the payloads written stay as the setter left them.
    [UpdateFailed] is raised only when [connect] failed, before the
    setter is called. *)
Theorem write_through_outcome {A} (write_func : coro A) (s : StaggEKGProCoordinator) :
  let r := fst (async_write_kettle write_func s) in
  let s' := snd (async_write_kettle write_func s) in
  _retry_count s' = _retry_count s
  /\ (forall a, r = inr a ->
        available s' = true /\ data s' = Some (reading_of (kettle s'))
        /\ exists b, _state_data (kettle s') = Some b /\ (17 <= length b)%nat
                     /\ _counter (kettle s') = at_ b 16)
  /\ (forall f, r = inl f -> available s' = false /\ data s' = data s)
  /\ (forall e k1, _connected s = true -> write_func (kettle s) = (inl e, k1) ->
        r = inl (Raised e)
        /\ _state_data (kettle s') = _state_data k1
        /\ _counter (kettle s') = _counter k1
        /\ written (kettle s') = written k1
        /\ (hd false (hangups s) = false -> offline (kettle s')))
  /\ (r = inl UpdateFailed ->
        _connected s = false /\ fst (kettle_connect s) = false
        /\ s' = hang_up (snd (kettle_connect s))).
Proof.
  intros r s'. subst r s'. unfold async_write_kettle, available.
  assert (Hfail : forall f s1,
            _retry_count s1 = _retry_count s -> data s1 = data s ->
            let s' := hang_up (set_connected false s1) in
            _retry_count s' = _retry_count s
            /\ (forall a : A, @inl failure A f = inr a -> _connected s' = true
                  /\ data s' = Some (reading_of (kettle s'))
                  /\ exists b, _state_data (kettle s') = Some b /\ (17 <= length b)%nat
                               /\ _counter (kettle s') = at_ b 16)
            /\ (forall f0, @inl failure A f = inl f0 ->
                  _connected s' = false /\ data s' = data s)).
  { intros f s1 Hrc Hdt s'. subst s'.
    destruct (hang_up_keeps (set_connected false s1)) as (H1 & H2 & H3 & _).
    rewrite H1, H2, H3. cbn. split; [assumption|]. split; [discriminate|]. auto. }
  assert (Hok : forall (a : A) s1 k,
            _retry_count s1 = _retry_count s ->
            refresh_state (kettle s1) = (inr tt, k) ->
            let s' := async_set_updated_data (reading_of k) (set_kettle k (set_connected true s1)) in
            _retry_count s' = _retry_count s
            /\ (forall a0 : A, @inr failure A a = inr a0 -> _connected s' = true
                  /\ data s' = Some (reading_of (kettle s'))
                  /\ exists b, _state_data (kettle s') = Some b /\ (17 <= length b)%nat
                               /\ _counter (kettle s') = at_ b 16)
            /\ (forall f0, @inr failure A a = inl f0 ->
                  _connected s' = false /\ data s' = data s)).
  { intros a s1 k Hrc E s'. subst s'. cbn.
    split; [assumption|]. split; [|discriminate]. intros _ _.
    destruct (refresh_state_long _ _ E) as (b & Hb & Hlen & Hn & _).
    repeat (split; [reflexivity|]). eauto. }
  destruct (_connected s) eqn:Hconn; cbn [negb].
  - destruct (write_func (kettle s)) as [[e|a] k1] eqn:Ew.
    + cbn [fst snd].
      destruct (Hfail (Raised e) (set_kettle k1 s) eq_refl eq_refl) as (H1 & H2 & H3).
      split; [exact H1|]. split; [exact H2|]. split; [exact H3|].
      split; [|discriminate].
      intros e0 k0 _ [= <- <-].
      destruct (hang_up_keeps (set_connected false (set_kettle k1 s)))
        as (_ & _ & _ & H4 & H5 & H6 & H7).
      auto.
    + destruct (refresh_state k1) as [[e|[]] k] eqn:E; cbn [fst snd].
      * destruct (Hfail (Raised e) (set_kettle k s) eq_refl eq_refl) as (H1 & H2 & H3).
        split; [exact H1|]. split; [exact H2|]. split; [exact H3|].
        split; discriminate.
      * pose proof (Hok a (set_kettle k1 s) k eq_refl E) as (H1 & H2 & H3).
        cbn in H1, H2, H3. cbn. rewrite Hconn in *.
        split; [exact H1|]. split; [exact H2|]. split; [exact H3|].
        split; discriminate.
  - unfold kettle_connect.
    destruct (connect (hd NoClient (dials s)) (kettle s)) as [[] k0] eqn:Ec;
      cbn [negb fst snd].
    + cbn [kettle set_connected].
      destruct (write_func k0) as [[e|a] k1] eqn:Ew.
      * cbn [fst snd].
        match goal with |- context [hang_up (set_connected false ?x)] =>
          destruct (Hfail (Raised e) x eq_refl eq_refl) as (H1 & H2 & H3) end.
        split; [exact H1|]. split; [exact H2|]. split; [exact H3|].
        split; discriminate.
      * destruct (refresh_state k1) as [[e|[]] k] eqn:E; cbn [fst snd].
        -- match goal with |- context [hang_up (set_connected false ?x)] =>
             destruct (Hfail (Raised e) x eq_refl eq_refl) as (H1 & H2 & H3) end.
           split; [exact H1|]. split; [exact H2|]. split; [exact H3|].
           split; discriminate.
        -- cbn. split; [reflexivity|]. split.
           ++ intros _ _. destruct (refresh_state_long _ _ E) as (b & Hb & Hlen & Hn & _).
              repeat (split; [reflexivity|]). eauto.
           ++ split; [discriminate|]. split; discriminate.
    + match goal with |- context [hang_up (set_connected false ?x)] =>
        destruct (Hfail UpdateFailed x eq_refl eq_refl) as (H1 & H2 & H3) end.
      split; [exact H1|]. split; [exact H2|]. split; [exact H3|].
      split; [discriminate|]. intros _.
      split; [reflexivity|]. split; [reflexivity|].
      f_equal. destruct s; cbn in *. now subst.
Qed.

Lemma connect_keeps_link c nr k :
  is_connected c = true -> ~ offline (snd (connect (Linked c nr) k)).
Proof.
  intros Hc Hoff.
  assert (exists c', client (snd (connect (Linked c nr) k)) = Some c'
                     /\ is_connected c' = true) as (c' & Hc' & Hup).
  { unfold connect. rewrite Hc.
    destruct nr; [exists c; auto|].
    destruct c as [conn rd fl wr nt]. cbn in Hc. subst conn.
    unfold refresh_state, bind, require_connected, read_gatt_char, this, put,
      eval. cbn.
    destruct rd as [|[d|] rd]; cbn; [eexists; eauto| |eexists; eauto].
    destruct (getitem d 16); cbn; eexists; eauto. }
  rewrite (Hoff c' Hc') in Hup. discriminate.
Qed.

(** X17. [async_shutdown] is idempotent and disconnects only when the
    coordinator believes it is connected.  So when [connect] answers
    [False] after the client did get connected (a failing
    [start_notify] or first read), a poll leaves the kettle unavailable
    with the client still connected, and a shutdown after that changes
    nothing; the same failure inside [async_write_kettle] does hang up
    (unless [disconnect] raises). *)
Theorem failed_connect_leaves_the_link_up
  (s : StaggEKGProCoordinator) (c : BleakClient) (nr : bool) (rest : list Dial) :
  _connected s = false -> dials s = Linked c nr :: rest ->
  is_connected c = true -> fst (connect (Linked c nr) (kettle s)) = false ->
  let s1 := snd (_async_update_data s) in
  fst (_async_update_data s) = inl UpdateFailed
  /\ available s1 = false /\ ~ offline (kettle s1)
  /\ async_shutdown s1 = s1
  /\ (forall s0, async_shutdown (async_shutdown s0) = async_shutdown s0)
  /\ (forall A (write_func : coro A),
        fst (async_write_kettle write_func s) = inl UpdateFailed
        /\ (hd false (hangups s) = false ->
            offline (kettle (snd (async_write_kettle write_func s))))).
Proof.
  intros Hconn Hd Hc Hf s1.
  assert (Hk : kettle_connect s
               = (false, mkCoordinator (snd (connect (Linked c nr) (kettle s)))
                           false (_retry_count s) (data s) rest (hangups s))).
  { unfold kettle_connect. rewrite Hd. cbn [hd tl].
    destruct (connect (Linked c nr) (kettle s)) as [ok k0]. cbn in Hf. subst ok.
    now rewrite Hconn. }
  destruct (poll_outcome_connect s) as (H1 & H2 & H3 & H4);
    [assumption|now rewrite Hk|].
  fold s1 in H2, H3, H4.
  assert (Hs1 : _connected s1 = false).
  { subst s1. unfold _async_update_data. rewrite Hconn, Hk. reflexivity. }
  split; [assumption|]. split; [exact Hs1|]. split.
  { rewrite H3, Hk. cbn. now apply connect_keeps_link. }
  split.
  { unfold async_shutdown. now rewrite Hs1. }
  split.
  { intros s0. unfold async_shutdown.
    destruct (_connected s0) eqn:E0; [|now rewrite E0].
    destruct (client (kettle s0)) eqn:E1; [reflexivity|now rewrite E0, E1]. }
  intros A write_func. unfold async_write_kettle. rewrite Hconn, Hk. cbn [negb fst snd].
  split; [reflexivity|].
  intros Hh.
  match goal with |- context [hang_up ?x] =>
    destruct (hang_up_keeps x) as (_ & _ & _ & _ & _ & _ & H7) end.
  apply H7. exact Hh.
Qed.

(** The first read after connecting returns three bytes. *)
Lemma failed_connect_leaves_the_link_up_witness :
  let c := mkClient true [Some [1; 2; 3]] [] [] [] in
  let s := mkCoordinator (mkConfig None None 0) false 0 None [Linked c false] [] in
  let s1 := snd (_async_update_data s) in
  fst (_async_update_data s) = inl UpdateFailed
  /\ available s1 = false /\ ~ offline (kettle s1)
  /\ async_shutdown s1 = s1
  /\ (forall s0, async_shutdown (async_shutdown s0) = async_shutdown s0)
  /\ (forall A (write_func : coro A),
        fst (async_write_kettle write_func s) = inl UpdateFailed
        /\ (hd false (hangups s) = false ->
            offline (kettle (snd (async_write_kettle write_func s))))).
Proof.
  intros c s.
  apply (failed_connect_leaves_the_link_up s c false []); reflexivity.
Defined.

(** ** The schedule entities *)

Lemma land_bit3 x : Z.land x 8 = if Z.testbit x 3 then 8 else 0.
Proof.
  apply Z.bits_inj'. intros n Hn. rewrite Z.land_spec.
  destruct (Z.eq_dec n 3) as [->|Hne].
  - change (Z.testbit 8 3) with true. rewrite andb_true_r.
    now destruct (Z.testbit x 3).
  - assert (H8 : Z.testbit 8 n = false)
      by (change 8 with (2 ^ 3); apply Z.pow2_bits_false; lia).
    rewrite H8, andb_false_r.
    destruct (Z.testbit x 3); [now rewrite H8|now rewrite Z.bits_0].
Qed.

Lemma get_schedule_cached k (b : bytearray) :
  _state_data k = Some b -> is_blob b ->
  get_schedule k
  = if Z.testbit (at_ b 0) 3
    then mkSchedule
           (Some (if Z.testbit (at_ b 16) 3 then "once" else "daily")%string)
           (Some true) (Some (halve (at_ b 6))) (Some (at_ b 9)) (Some (at_ b 8))
    else mkSchedule (Some "off"%string) (Some false) None None None.
Proof.
  intros Hb [Hlen _]. unfold get_schedule. rewrite Hb.
  destruct (blob_explicit b Hlen)
    as (b0&b1&b2&b3&b4&b5&b6&b7&b8&b9&b10&b11&b12&b13&b14&b15&b16&->).
  cbn. unfold at_. cbn. rewrite land_bit3, mode_bit_testbit.
  destruct (Z.testbit b0 3); cbn; [|reflexivity].
  now destruct (Z.testbit b16 3).
Qed.

Lemma halve_zero v : Qeq_bool (halve v) 0 = (v =? 0).
Proof.
  unfold halve. destruct (Z.eqb_spec v 0) as [->|Hne]; [reflexivity|].
  apply not_true_is_false. intros H. apply Qeq_bool_iff in H.
  apply Hne. unfold Qeq, Qdiv, Qmult, Qinv, inject_Z in H. cbn in H. lia.
Qed.

(** X18. What the three schedule entities ask of [set_schedule], from
    the data polled off a 17-byte blob.  The number and the time entity
    never pass OFF: a disabled schedule becomes DAILY, an enabled one
    keeps the mode [get_schedule] reports (bit 3 of byte 16).  A disabled
    schedule is taken to be at 07:00 and 90 degrees; an enabled one keeps
    its minute, its hour unless that is 0, which becomes 7, and its
    temperature unless that is 0, which becomes 90.  Hence, when the
    write of a new temperature goes through on a quiet transport, the
    schedule reads back as enabled at that hour and minute. *)
Theorem schedule_entities_carry_over
  (k : StaggEKGPro_Config) (b : bytearray)
  (value : Q) (value_hour value_minute : Z) (option_mode : ScheduleMode) :
  _state_data k = Some b -> is_blob b ->
  let d := reading_of k in
  let on := Z.testbit (at_ b 0) 3 in
  let mode := if on && Z.testbit (at_ b 16) 3 then ONCE else DAILY in
  let hour := if on && negb (at_ b 9 =? 0) then at_ b 9 else 7 in
  let minute := if on then at_ b 8 else 0 in
  let temp := if on && negb (at_ b 6 =? 0) then halve (at_ b 6) else 90%Q in
  schedule_temperature_call d value = SetSchedule mode hour minute value
  /\ schedule_time_call d value_hour value_minute
     = SetSchedule mode value_hour value_minute temp
  /\ schedule_mode_call d option_mode = SetSchedule option_mode hour minute temp
  /\ (forall k', calm k ->
        run (schedule_temperature_call d value) k = (inr tt, k') ->
        schedule_enabled (get_schedule k') = Some true
        /\ schedule_hour (get_schedule k') = Some hour
        /\ schedule_minute (get_schedule k') = Some minute).
Proof.
  intros Hb Hblob d on mode hour minute temp.
  assert (H1 : schedule_temperature_call d value = SetSchedule mode hour minute value).
  { subst d on mode hour minute.
    unfold schedule_temperature_call, carried_mode, reading_of, or_int.
    cbn [reading_schedule]. rewrite (get_schedule_cached k b Hb Hblob).
    destruct (Z.testbit (at_ b 0) 3); cbn; [|reflexivity].
    destruct (Z.testbit (at_ b 16) 3); cbn;
      destruct (at_ b 8 =? 0) eqn:E8; destruct (at_ b 9 =? 0); cbn;
      try reflexivity; apply Z.eqb_eq in E8; now rewrite E8. }
  split; [exact H1|]. split; [|split].
  - subst d on mode temp.
    unfold schedule_time_call, carried_mode, reading_of, or_float.
    cbn [reading_schedule]. rewrite (get_schedule_cached k b Hb Hblob).
    destruct (Z.testbit (at_ b 0) 3); cbn; [|reflexivity].
    rewrite halve_zero.
    destruct (Z.testbit (at_ b 16) 3); cbn; now destruct (at_ b 6 =? 0).
  - subst d on hour minute temp.
    unfold schedule_mode_call, reading_of, or_int, or_float.
    cbn [reading_schedule]. rewrite (get_schedule_cached k b Hb Hblob).
    destruct (Z.testbit (at_ b 0) 3); cbn; [|reflexivity].
    rewrite halve_zero.
    destruct (at_ b 8 =? 0) eqn:E8; destruct (at_ b 9 =? 0);
      destruct (at_ b 6 =? 0); cbn;
      try reflexivity; apply Z.eqb_eq in E8; now rewrite E8.
  - intros k' Hc E. rewrite H1 in E. cbn [run] in E.
    assert (Hm : mode <> OFF)
      by (unfold mode; destruct (on && Z.testbit (at_ b 16) 3); discriminate).
    destruct (set_schedule_read_back mode hour minute value k k' b Hb Hblob Hc Hm E)
      as [Hg _].
    rewrite Hg. auto.
Qed.

(** A schedule found at 00:30 (DAILY, counter 6) is moved to 07:30 by a
    change of its temperature. *)
Lemma schedule_entities_carry_over_witness :
  let b := [0x08; 0x0a; 0x5a; 0x80; 170; 0x11; 170; 0x22; 30; 0; 30; 12; 1; 15; 5; 0; 6] in
  schedule_temperature_call (reading_of (fresh b)) 95 = SetSchedule DAILY 7 30 95
  /\ schedule_time_call (reading_of (fresh b)) 6 45 = SetSchedule DAILY 6 45 (halve 170)
  /\ schedule_mode_call (reading_of (fresh b)) ONCE = SetSchedule ONCE 7 30 (halve 170)
  /\ (forall k', calm (fresh b) ->
        run (schedule_temperature_call (reading_of (fresh b)) 95) (fresh b) = (inr tt, k') ->
        schedule_enabled (get_schedule k') = Some true
        /\ schedule_hour (get_schedule k') = Some 7
        /\ schedule_minute (get_schedule k') = Some 30).
Proof.
  intros b.
  apply (schedule_entities_carry_over (fresh b) b 95 6 45 ONCE).
  - reflexivity.
  - split; [reflexivity|]. repeat constructor; unfold byte; lia.
Defined.

(** ** Getters at the edges *)

Lemma peek_short {A} (i : nat) (f : Z -> A) k (b : bytearray) :
  _state_data k = Some b -> b <> [] ->
  (peek i f k = inl IndexError <-> (length b <= i)%nat)
  /\ ((i < length b)%nat -> peek i f k = inr (Some (f (at_ b i)))).
Proof.
  intros Hb Hne. unfold peek, getitem, at_. rewrite Hb.
  destruct b as [|x b]; [congruence|]. cbn [truthy].
  destruct ((x :: b) !! i) as [v|] eqn:E.
  - apply lookup_lt_Some in E. split; [|reflexivity].
    split; [discriminate|lia].
  - apply lookup_ge_None in E. split; [|lia]. split; auto.
Qed.

Lemma peek_long_short n k (b : bytearray) :
  _state_data k = Some b -> b <> [] ->
  (peek_long n k = None <-> (length b < n)%nat)
  /\ ((n <= length b)%nat -> peek_long n k = Some b).
Proof.
  intros Hb Hne. unfold peek_long. rewrite Hb.
  destruct b as [|x b]; [congruence|]. cbn [truthy negb orb].
  destruct (Nat.ltb_spec (length (x :: b)) n).
  - split; [tauto|lia].
  - split; [|reflexivity]. split; [discriminate|lia].
Qed.

(** X19. On a cached blob that is too short the getters do not agree on
    what to do.  Those of the target temperature, the units, pre-boil, the
    hold time and the chime volume raise [IndexError] exactly when the
    blob does not reach their byte (4, 1, 1, 13, 14); those of the
    altitude, the clock time, the clock mode, the language, the schedule
    and the state never raise and answer nothing exactly when the blob is
    shorter than 4, 12, 13, 16, 17 and 17 bytes (the language also for a
    byte 15 that names none).  With nothing cached, or an empty
    bytearray, every getter answers nothing. *)
Theorem getters_on_a_short_cache (k : StaggEKGPro_Config) (b : bytearray) :
  _state_data k = Some b ->
  (b <> [] ->
   (get_target_temperature k = inl IndexError <-> (length b <= 4)%nat)
   /\ (get_units k = inl IndexError <-> (length b <= 1)%nat)
   /\ (get_pre_boil k = inl IndexError <-> (length b <= 1)%nat)
   /\ (get_hold_time k = inl IndexError <-> (length b <= 13)%nat)
   /\ (get_chime_volume k = inl IndexError <-> (length b <= 14)%nat)
   /\ (get_altitude k = None <-> (length b < 4)%nat)
   /\ (get_clock_time k = None <-> (length b < 12)%nat)
   /\ (get_clock_mode k = None <-> (length b < 13)%nat)
   /\ (get_language k = None <->
       (length b < 16)%nat \/ Language_of (at_ b 15) = None)
   /\ (get_schedule_mode k = None <-> (length b < 17)%nat)
   /\ (schedule_mode (get_schedule k) = None <-> (length b < 17)%nat)
   /\ (get_state k = None <-> (length b < 17)%nat))
  /\ (b = [] ->
      get_target_temperature k = inr None /\ get_units k = inr None
      /\ get_pre_boil k = inr None /\ get_hold_time k = inr None
      /\ get_chime_volume k = inr None /\ get_altitude k = None
      /\ get_clock_time k = None /\ get_clock_mode k = None
      /\ get_language k = None /\ get_schedule_mode k = None
      /\ get_schedule k = mkSchedule None None None None None
      /\ get_state k = None).
Proof.
  intros Hb. split.
  - intros Hne.
    repeat (split; [apply (peek_short _ _ k b Hb Hne)|]).
    split.
    { unfold get_altitude. rewrite Hb.
      destruct b as [|x b]; [congruence|]. cbn [truthy negb orb].
      destruct (Nat.ltb_spec (length (x :: b)) 4) as [Hlt|Hge]; [tauto|].
      destruct ((x :: b) !! 2%nat) eqn:E2; [|apply lookup_ge_None in E2; lia].
      destruct ((x :: b) !! 3%nat) eqn:E3; [|apply lookup_ge_None in E3; lia].
      split; [discriminate|lia]. }
    split.
    { unfold get_clock_time.
      destruct (peek_long_short 12 k b Hb Hne) as [H1 H2].
      destruct (peek_long 12 k); [|tauto].
      split; [discriminate|]. intros H. apply H1 in H. discriminate. }
    split.
    { unfold get_clock_mode.
      destruct (peek_long_short 13 k b Hb Hne) as [H1 H2].
      destruct (peek_long 13 k); [|tauto].
      split; [now repeat destruct (_ =? _)|].
      intros H. apply H1 in H. discriminate. }
    split.
    { unfold get_language.
      destruct (peek_long_short 16 k b Hb Hne) as [H1 H2].
      destruct (Nat.ltb_spec (length b) 16) as [Hlt|Hge].
      - rewrite (proj2 H1 Hlt). split; [now left|reflexivity].
      - rewrite (H2 Hge). split; [now right|]. intros [H|H]; [lia|exact H]. }
    assert (Hm : get_schedule_mode k = None <-> (length b < 17)%nat).
    { unfold get_schedule_mode. rewrite Hb.
      destruct b as [|x b]; [congruence|]. cbn [truthy negb orb].
      destruct (Nat.ltb_spec (length (x :: b)) 17) as [Hlt|Hge]; [tauto|].
      destruct ((x :: b) !! 0%nat) eqn:E0; [|apply lookup_ge_None in E0; lia].
      destruct ((x :: b) !! 16%nat) eqn:E16; [|apply lookup_ge_None in E16; lia].
      split; [|lia]. now repeat destruct (_ =? _). }
    split; [exact Hm|]. split.
    { unfold get_schedule. rewrite Hb.
      destruct b as [|x b]; [congruence|]. cbn [truthy negb orb].
      destruct (Nat.ltb_spec (length (x :: b)) 17) as [Hlt|Hge]; [tauto|].
      destruct ((x :: b) !! 0%nat) eqn:E0; [|apply lookup_ge_None in E0; lia].
      destruct ((x :: b) !! 16%nat) eqn:E16; [|apply lookup_ge_None in E16; lia].
      destruct ((x :: b) !! 6%nat) eqn:E6; [|apply lookup_ge_None in E6; lia].
      destruct ((x :: b) !! 8%nat) eqn:E8; [|apply lookup_ge_None in E8; lia].
      destruct ((x :: b) !! 9%nat) eqn:E9; [|apply lookup_ge_None in E9; lia].
      split; [|lia]. now repeat destruct (_ =? _). }
    unfold get_state.
    destruct (peek_long_short 17 k b Hb Hne) as [H1 H2].
    destruct (peek_long 17 k); [|tauto].
    split; [discriminate|]. intros H. apply H1 in H. discriminate.
  - intros ->.
    unfold get_target_temperature, get_units, get_pre_boil, get_hold_time,
      get_chime_volume, get_altitude, get_clock_time, get_clock_mode,
      get_language, get_schedule_mode, get_schedule, get_state, peek, peek_long.
    rewrite Hb. cbn. repeat split.
Qed.

(** A notification of five bytes: the target temperature is read, the
    hold time raises, the clock and the state answer nothing. *)
Lemma getters_on_a_short_cache_witness :
  let k := _handle_notification [8; 10; 90; 128; 170] (fresh sample_blob) in
  get_target_temperature k = inr (Some (halve 170))
  /\ get_hold_time k = inl IndexError
  /\ get_clock_time k = None /\ get_state k = None.
Proof.
  intros k.
  destruct (getters_on_a_short_cache k [8; 10; 90; 128; 170] eq_refl) as [H _].
  destruct H as (H1 & _ & _ & H4 & _ & _ & H7 & _ & _ & _ & _ & H12);
    [discriminate|].
  split; [reflexivity|]. split; [apply H4; cbn; lia|].
  split; [apply H7; cbn; lia|apply H12; cbn; lia].
Defined.

(** ** The two views of the schedule *)

(** X20. [get_schedule] and [get_schedule_mode] never disagree: the mode
    in the dictionary is the mode [get_schedule_mode] returns, for every
    cache.  The schedule is reported enabled exactly when that mode is
    once or daily, and then hour and minute are what
    [decode_schedule_time] reads off the cache; when the mode is off the
    temperature, hour and minute are [None]. *)
Theorem schedule_getters_agree (k : StaggEKGPro_Config) :
  schedule_mode (get_schedule k) = get_schedule_mode k
  /\ (schedule_enabled (get_schedule k) = Some true <->
      get_schedule_mode k = Some "once"%string
      \/ get_schedule_mode k = Some "daily"%string)
  /\ (schedule_enabled (get_schedule k) = Some true ->
      exists d h m,
        _state_data k = Some d /\ decode_schedule_time d = inr (h, m)
        /\ schedule_hour (get_schedule k) = Some h
        /\ schedule_minute (get_schedule k) = Some m
        /\ schedule_temperature (get_schedule k) = Some (halve (at_ d 6)))
  /\ (get_schedule_mode k = Some "off"%string ->
      get_schedule k = mkSchedule (Some "off"%string) (Some false) None None None).
Proof.
  unfold get_schedule, get_schedule_mode.
  destruct (_state_data k) as [d|] eqn:Hd.
  2:{ cbn. split; [reflexivity|]. split; [|split; discriminate].
      split; [discriminate|]. intros [H|H]; discriminate. }
  destruct (negb (truthy (Some d)) || (length d <? 17)%nat) eqn:Hs.
  { cbn. split; [reflexivity|]. split; [|split; discriminate].
    split; [discriminate|]. intros [H|H]; discriminate. }
  apply orb_false_iff in Hs as [_ Hlen]. apply Nat.ltb_ge in Hlen.
  unfold decode_schedule_time, getitem, at_.
  destruct (d !! 0%nat) as [b0|] eqn:E0; [|apply lookup_ge_None in E0; lia].
  destruct (d !! 16%nat) as [b16|] eqn:E16; [|apply lookup_ge_None in E16; lia].
  destruct (d !! 6%nat) as [b6|] eqn:E6; [|apply lookup_ge_None in E6; lia].
  destruct (d !! 8%nat) as [b8|] eqn:E8; [|apply lookup_ge_None in E8; lia].
  destruct (d !! 9%nat) as [b9|] eqn:E9; [|apply lookup_ge_None in E9; lia].
  destruct (Z.land b0 8 =? 0).
  - cbn. split; [reflexivity|]. split; [|split; [discriminate|reflexivity]].
    split; [discriminate|]. intros [H|H]; discriminate.
  - destruct (Z.land (Z.shiftr b16 3) 1 =? 1); cbn.
    + split; [reflexivity|]. split; [split; auto|]. split; [|discriminate].
      intros _. exists d, b9, b8. rewrite E8, E9, E6. auto.
    + split; [reflexivity|]. split; [split; auto|]. split; [|discriminate].
      intros _. exists d, b9, b8. rewrite E8, E9, E6. auto.
Qed.

(** ** Retries *)

Lemma set_kettle_same s : set_kettle (kettle s) s = s.
Proof. now destruct s. Qed.

Lemma poll_out_of_range s :
  _connected s = false -> dials s = [] ->
  _async_update_data s = (inl UpdateFailed, set_retry_count (_retry_count s + 1) s).
Proof.
  intros Hc Hd. unfold _async_update_data, kettle_connect.
  rewrite Hc, Hd. cbn. destruct s; cbn in *. now subst.
Qed.

(** X21. The retry count is only ever counted: no coroutine of the
    coordinator reads it to decide anything, so with another count a
    poll, a write and a shutdown give the same result and the same
    coordinator, the count apart.  In particular polling never gives up:
    while no client can be made, each of [n] polls in a row attempts the
    connection, raises [UpdateFailed] and adds one to the count. *)
Theorem polls_never_give_up (s : StaggEKGProCoordinator) (count : Z) (n : nat) :
  _connected s = false -> dials s = [] ->
  (_retry_count (polls n s) = _retry_count s + Z.of_nat n
   /\ same_but_retries (polls n s) s
   /\ _async_update_data (polls n s)
      = (inl UpdateFailed, set_retry_count (_retry_count s + Z.of_nat n + 1) s))
  /\ (forall s0 : StaggEKGProCoordinator,
        let s1 := set_retry_count count s0 in
        fst (_async_update_data s1) = fst (_async_update_data s0)
        /\ same_but_retries (snd (_async_update_data s1)) (snd (_async_update_data s0))
        /\ (forall A (write_func : coro A),
              fst (async_write_kettle write_func s1)
              = fst (async_write_kettle write_func s0)
              /\ same_but_retries (snd (async_write_kettle write_func s1))
                   (snd (async_write_kettle write_func s0)))
        /\ same_but_retries (async_shutdown s1) (async_shutdown s0)).
Proof.
  intros Hc Hd. split.
  - assert (H : polls n s = set_retry_count (_retry_count s + Z.of_nat n) s).
    { unfold polls. induction n as [|n IH].
      - destruct s; unfold set_retry_count; cbn. f_equal. lia.
      - rewrite Nat.iter_succ, IH.
        rewrite poll_out_of_range by assumption. unfold set_retry_count.
        cbn. f_equal. lia. }
    rewrite H. split; [reflexivity|]. split; [repeat split|].
    rewrite poll_out_of_range by assumption. cbn. unfold set_retry_count. cbn.
    reflexivity.
  - intros s0 s1. subst s1.
    assert (Hh : forall a b, same_but_retries a b ->
                 same_but_retries (hang_up a) (hang_up b)).
    { intros a b (H1 & H2 & H3 & H4 & H5).
      unfold hang_up, kettle_disconnect. rewrite H1, H5.
      destruct (client (kettle b)) as [c|]; [|repeat split; assumption].
      destruct (is_connected c); [|repeat split; assumption].
      destruct (disconnect _ _) as [r k]. now repeat split. }
    split; [|split; [|split]].
    + unfold _async_update_data, kettle_connect. cbn.
      destruct (_connected s0); cbn.
      * now destruct (refresh_state (kettle s0)) as [[e|[]] k].
      * destruct (connect _ _) as [[] k0]; cbn; [|reflexivity].
        now destruct (refresh_state k0) as [[e|[]] k].
    + unfold _async_update_data, kettle_connect. cbn.
      destruct (_connected s0); cbn.
      * destruct (refresh_state (kettle s0)) as [[e|[]] k]; cbn;
          [apply Hh|]; now repeat split.
      * destruct (connect _ _) as [[] k0]; cbn; [|now repeat split].
        destruct (refresh_state k0) as [[e|[]] k]; cbn;
          [apply Hh|]; now repeat split.
    + intros A write_func. unfold async_write_kettle, kettle_connect. cbn.
      destruct (_connected s0); cbn.
      * destruct (write_func (kettle s0)) as [[e|a] k1]; cbn;
          [split; [reflexivity|apply Hh; now repeat split]|].
        destruct (refresh_state k1) as [[e|[]] k]; cbn;
          (split; [reflexivity|]); [apply Hh|]; now repeat split.
      * destruct (connect _ _) as [[] k0]; cbn;
          [|split; [reflexivity|apply Hh; now repeat split]].
        destruct (write_func k0) as [[e|a] k1]; cbn;
          [split; [reflexivity|apply Hh; now repeat split]|].
        destruct (refresh_state k1) as [[e|[]] k]; cbn;
          (split; [reflexivity|]); [apply Hh|]; now repeat split.
    + unfold async_shutdown, kettle_disconnect. cbn.
      destruct (_connected s0); [|now repeat split].
      destruct (client (kettle s0)) as [c|]; [|now repeat split].
      destruct (is_connected c); [|now repeat split].
      destruct (disconnect _ _) as [r k]. now repeat split.
Qed.

(** Five polls with no kettle in range, from a count of 3. *)
Lemma polls_never_give_up_witness :
  let s := mkCoordinator (mkConfig None None 0) false 3 None [] [] in
  _retry_count (polls 5 s) = 3 + Z.of_nat 5
  /\ same_but_retries (polls 5 s) s
  /\ _async_update_data (polls 5 s)
     = (inl UpdateFailed, set_retry_count (3 + Z.of_nat 5 + 1) s).
Proof.
  intros s.
  apply (polls_never_give_up s 0 5); reflexivity.
Defined.

(** ** Turning the kettle on *)

(** X22. The power switch and the water heater never connect: on a
    controller that is offline their background task raises nothing,
    writes nothing, leaves the coordinator exactly as it was (no dial is
    used, [_connected] and the retry count are not touched) and ends
    with the entity off. *)
Theorem turn_on_entities_never_connect (s : StaggEKGProCoordinator) :
  offline (kettle s) ->
  _async_run_smart_turn_on s = (false, s)
  /\ _run_smart_turn_on s = (false, s).
Proof.
  intros Hoff.
  assert (Hw : forall d, aborts (_write_state d) (kettle s))
    by (intros d; exists RuntimeError; now apply offline__write_state).
  assert (Hr : aborts refresh_state (kettle s))
    by (exists RuntimeError; now apply offline_refresh_state).
  split.
  - unfold _async_run_smart_turn_on.
    destruct (unwritable_aborts (SetHoldTime 0) None (kettle s) Hw Hr)
      as [_ [e He]].
    rewrite He. now rewrite set_kettle_same.
  - unfold _run_smart_turn_on. destruct (data s) as [d|]; [|reflexivity].
    match goal with |- context [turn_on_smart ?t] =>
      destruct (unwritable_aborts (SetHoldTime 0) t (kettle s) Hw Hr)
        as [_ [e He]] end.
    rewrite He. now rewrite set_kettle_same.
Qed.

(** After a failed write through the coordinator has hung up. *)
Lemma turn_on_entities_never_connect_witness :
  let s := snd (async_write_kettle (run (SetClockTime 24 0 None))
                  (mkCoordinator (fresh sample_blob) true 0 None
                     [Linked link false] [])) in
  _async_run_smart_turn_on s = (false, s)
  /\ _run_smart_turn_on s = (false, s).
Proof.
  intros s.
  apply (turn_on_entities_never_connect s).
  intros c [= <-]. reflexivity.
Defined.
